(** * 1209_stock_practice: the trend aligners and the session gate

    A shallow embedding of [1209_stock_practice.py].  The program reads daily
    bars from yfinance, builds pandas tables of percentage returns for three
    horizons and answers single-date lookups behind a market-close gate.

    - prices are IEEE binary64 numbers ([spec_float] at precision 53), so a
      null cell of a pandas table is the NaN it is in pandas;
    - a pandas [Timestamp] is its integer count of seconds of exchange wall
      clock time since 1970-01-01, a Python [date] its count of days;
    - a [DataFrame] is a list of column names and a list of labelled rows;
    - yfinance, [stock.info] and the optional [twstock] module are the fields
      of an environment record; a call that raises returns [Raise]. *)

From Stdlib Require Import ZArith List Bool String Ascii Lia Permutation Sorted.
From Stdlib Require Import Floats.SpecFloat.
Import ListNotations.
Local Open Scope string_scope.
Local Open Scope list_scope.
Local Open Scope Z_scope.

(** ** IEEE binary64 *)

Module Float64.

Definition prec : Z := 53.
Definition emax : Z := 1024.

Definition float : Type := spec_float.

Definition nan : float := S754_nan.
Definition zero : float := S754_zero false.

Definition of_Z (n : Z) : float := binary_normalize prec emax n 0 false.

Definition sub : float -> float -> float := SFsub prec emax.
Definition mul : float -> float -> float := SFmul prec emax.
Definition div : float -> float -> float := SFdiv prec emax.

Definition ltb : float -> float -> bool := SFltb.
Definition leb : float -> float -> bool := SFleb.
Definition eqb : float -> float -> bool := SFeqb.

(** [pd.isna] / [pd.notna] on one cell. *)
Definition isna (x : float) : bool :=
  match x with S754_nan => true | _ => false end.
Definition notna (x : float) : bool := negb (isna x).

Definition is_finite (x : float) : bool :=
  match x with S754_zero _ | S754_finite _ _ _ => true | _ => false end.

(** A price as the data model has it: a finite number above zero. *)
Definition is_price (x : float) : bool :=
  match x with S754_finite false _ _ => true | _ => false end.

(** The literal [0.3]: 0x3FD3333333333333. *)
Definition lit_0_3 : float := S754_finite false 5404319552844595 (-54).
Definition hundred : float := of_Z 100.

(** [np.rint]: the nearest integer, ties to even. *)
Definition rint (x : float) : float :=
  match x with
  | S754_finite s m e =>
      if 0 <=? e then x
      else
        let d := 2 ^ (- e) in
        let q := Zpos m / d in
        let r := Zpos m mod d in
        let q' := match 2 * r ?= d with
                  | Lt => q
                  | Gt => q + 1
                  | Eq => if Z.even q then q else q + 1
                  end in
        match q' with
        | Z0 => S754_zero s
        | _ => binary_normalize prec emax (cond_Zopp s q') 0 s
        end
  | _ => x
  end.

(** [round(x, 2)] on a numpy float64: scale by 100, [rint], scale back. *)
Definition round2 (x : float) : float := div (rint (mul x hundred)) hundred.

(** [int(x)]: truncation towards zero; NaN and the infinities raise. *)
Definition to_int (x : float) : option Z :=
  match x with
  | S754_zero _ => Some 0
  | S754_finite s m e =>
      Some (cond_Zopp s (if 0 <=? e then Zpos m * 2 ^ e else Zpos m / 2 ^ (- e)))
  | _ => None
  end.

End Float64.

Import Float64.

(** ** Calendar and clock *)

Module Clock.

(** Seconds of wall clock time since 1970-01-01T00:00 (naive, exchange
    time zone). *)
Definition Timestamp : Type := Z.
(** Days since 1970-01-01. *)
Definition date : Type := Z.

Definition day_seconds : Z := 86400.

Definition date_of (t : Timestamp) : date := t / day_seconds.
Definition second_of_day (t : Timestamp) : Z := t mod day_seconds.
Definition hour_of (t : Timestamp) : Z := second_of_day t / 3600.
Definition minute_of (t : Timestamp) : Z := (second_of_day t mod 3600) / 60.

(** [timedelta(hours=h, minutes=m)] in seconds. *)
Definition timedelta (h m : Z) : Z := h * 3600 + m * 60.

(** Proleptic Gregorian (year, month, day) of a day count. *)
Definition civil_from_days (z : date) : Z * Z * Z :=
  let z := z + 719468 in
  let era := z / 146097 in
  let doe := z - era * 146097 in
  let yoe := (doe - doe / 1460 + doe / 36524 - doe / 146096) / 365 in
  let doy := doe - (365 * yoe + yoe / 4 - yoe / 100) in
  let mp := (5 * doy + 2) / 153 in
  let d := doy - (153 * mp + 2) / 5 + 1 in
  let m := if mp <? 10 then mp + 3 else mp - 9 in
  let y := yoe + era * 400 in
  (if m <=? 2 then y + 1 else y, m, d).

Definition days_from_civil (y m d : Z) : date :=
  let y := if m <=? 2 then y - 1 else y in
  let era := y / 400 in
  let yoe := y - era * 400 in
  let doy := (153 * (if 2 <? m then m - 3 else m + 9) + 2) / 5 + d - 1 in
  let doe := yoe * 365 + yoe / 4 - yoe / 100 + doy in
  era * 146097 + doe - 719468.

Definition year_of_date (d : date) : Z := fst (fst (civil_from_days d)).
Definition month_of_date (d : date) : Z := snd (fst (civil_from_days d)).
Definition day_of_date (d : date) : Z := snd (civil_from_days d).

(** [.weekday()]: Monday is 0; 1970-01-01 was a Thursday. *)
Definition weekday (d : date) : Z := (d + 3) mod 7.

(** [Timestamp.month], [Timestamp.day]. *)
Definition month (t : Timestamp) : Z := month_of_date (date_of t).
Definition day (t : Timestamp) : Z := day_of_date (date_of t).

Definition digit (n : Z) : ascii := ascii_of_nat (48 + Z.to_nat (n mod 10)).

Definition two_digits (n : Z) : string :=
  String (digit (n / 10)) (String (digit n) EmptyString).

Definition four_digits (n : Z) : string :=
  String (digit (n / 1000)) (String (digit (n / 100)) (two_digits n)).

(** [str(n)] for the day and month numbers of a label. *)
Definition decimal (n : Z) : string :=
  if n <? 10 then String (digit n) EmptyString else two_digits n.

(** [strftime('%H:%M')]. *)
Definition strftime_HM (t : Timestamp) : string :=
  (two_digits (hour_of t) ++ ":" ++ two_digits (minute_of t))%string.

(** [strftime('%m/%d')]. *)
Definition strftime_md (t : Timestamp) : string :=
  (two_digits (month t) ++ "/" ++ two_digits (day t))%string.

(** [strftime('%Y-%m-%d')] of a date. *)
Definition strftime_Ymd (d : date) : string :=
  (four_digits (year_of_date d) ++ "-" ++ two_digits (month_of_date d)
     ++ "-" ++ two_digits (day_of_date d))%string.

(** [now.strftime('%H:%M') < '13:30']: a comparison of strings. *)
Definition before_close (now : Timestamp) : bool :=
  String.ltb (strftime_HM now) "13:30".

End Clock.

Import Clock.

(** ** Exceptions and the user interface *)

(** The outcome of a block of statements that may raise. *)
Inductive Result (A : Type) : Type :=
| Ok (a : A)
| Raise (msg : string).

Arguments Ok {A} a.
Arguments Raise {A} msg.

Definition bind {A B : Type} (c : Result A) (k : A -> Result B) : Result B :=
  match c with
  | Ok a => k a
  | Raise msg => Raise msg
  end.

Notation "x <- c ;; k" := (bind c (fun x => k))
  (at level 61, c at next level, right associativity).

(** What the page shows while a function runs, in order. *)
Inductive UiEvent : Type :=
| Progress (fraction : float)     (* st.progress(0), progress_bar.progress(v) *)
| StatusText (text : string)      (* status_text.text(...) *)
| Warning (text : string)         (* st.warning(...) *)
| Error (text : string)           (* st.error(...) *)
| StatusEmpty                     (* status_text.empty() *)
| ProgressEmpty.                  (* progress_bar.empty() *)

(** ** yfinance, [stock.info] and [twstock] *)

(** One row of [stock.history(...)]. *)
Record Bar : Type := {
  bar_ts : Timestamp;
  Open : float;
  High : float;
  Low : float;
  Close : float;
  Volume : Z
}.

(** The arguments of the three shapes of [stock.history] call. *)
Inductive Request : Type :=
| Period5d                          (* history(period="5d") *)
| Start (start : date)              (* history(start=..., interval='1d') *)
| StartEnd (start stop : date).     (* history(start=..., end=...) *)

Record Env : Type := {
  (** [yf.Ticker(symbol).history(...)] *)
  history : string -> Request -> Result (list Bar);
  (** [yf.Ticker(symbol).info], read at key ['longName'] *)
  info_longName : string -> Result (option string);
  (** the [twstock] module, [None] when its import failed; [twstock.codes] *)
  twstock : option (list (string * string))
}.

(** [(code, ticker_symbol, name)] *)
Definition Ticker : Type := string * string * string.

(** ** Strings and dictionaries *)

(** A Python [str] is held as the bytes of its UTF-8 encoding.  The white
    space of [str.strip()] is every character for which [str.isspace()]
    holds, told here by the bytes of its encoding.

    One byte: U+0009 to U+000D, U+001C to U+001F and the space U+0020. *)
Definition is_space (c : ascii) : bool :=
  let n := nat_of_ascii c in
  (((9 <=? n) && (n <=? 13)) || ((28 <=? n) && (n <=? 32)))%nat.

(** Two bytes: U+0085 (C2 85) and U+00A0 (C2 A0). *)
Definition is_space2 (c1 c2 : ascii) : bool :=
  let n1 := nat_of_ascii c1 in
  let n2 := nat_of_ascii c2 in
  ((n1 =? 194) && ((n2 =? 133) || (n2 =? 160)))%nat.

(** Three bytes: U+1680 (E1 9A 80), U+2000 to U+200A (E2 80 80 to 8A),
    U+2028 and U+2029 (E2 80 A8, A9), U+202F (E2 80 AF), U+205F (E2 81 9F)
    and U+3000 (E3 80 80). *)
Definition is_space3 (c1 c2 c3 : ascii) : bool :=
  let n1 := nat_of_ascii c1 in
  let n2 := nat_of_ascii c2 in
  let n3 := nat_of_ascii c3 in
  (((n1 =? 225) && (n2 =? 154) && (n3 =? 128))
   || ((n1 =? 226) && (n2 =? 128)
       && (((128 <=? n3) && (n3 <=? 138)) || (n3 =? 168) || (n3 =? 169) || (n3 =? 175)))
   || ((n1 =? 226) && (n2 =? 129) && (n3 =? 159))
   || ((n1 =? 227) && (n2 =? 128) && (n3 =? 128)))%nat.

(** Drop the white space at the head of a list of bytes; the three tests
    tell a white space character of one, of two and of three bytes. *)
Fixpoint drop_spaces (sp1 : ascii -> bool) (sp2 : ascii -> ascii -> bool)
  (sp3 : ascii -> ascii -> ascii -> bool) (l : list ascii) : list ascii :=
  match l with
  | [] => []
  | c1 :: l1 =>
      if sp1 c1 then drop_spaces sp1 sp2 sp3 l1
      else
        match l1 with
        | [] => l
        | c2 :: l2 =>
            if sp2 c1 c2 then drop_spaces sp1 sp2 sp3 l2
            else
              match l2 with
              | [] => l
              | c3 :: l3 =>
                  if sp3 c1 c2 c3 then drop_spaces sp1 sp2 sp3 l3 else l
              end
        end
  end.

Definition lstrip (s : string) : string :=
  string_of_list_ascii
    (drop_spaces is_space is_space2 is_space3 (list_ascii_of_string s)).

(** From the end, the bytes of a character are met last byte first. *)
Definition rstrip (s : string) : string :=
  string_of_list_ascii
    (List.rev
       (drop_spaces is_space
          (fun c2 c1 => is_space2 c1 c2)
          (fun c3 c2 c1 => is_space3 c1 c2 c3)
          (List.rev (list_ascii_of_string s)))).

(** [str.strip()] *)
Definition strip (s : string) : string := rstrip (lstrip s).

(** [d.get(k)] on a dictionary kept as an association list. *)
Definition dict_get {V : Type} (k : string) (d : list (string * V)) : option V :=
  match find (fun kv => String.eqb k (fst kv)) d with
  | Some kv => Some (snd kv)
  | None => None
  end.

(** [d[k] = v]: an existing key keeps its place. *)
Fixpoint dict_set {V : Type} (k : string) (v : V) (d : list (string * V))
  : list (string * V) :=
  match d with
  | [] => [(k, v)]
  | kv :: d' =>
      if String.eqb k (fst kv) then (k, v) :: d' else kv :: dict_set k v d'
  end.

Definition MANUAL_STOCK_NAMES : list (string * string) :=
  [ ("2330", "台積電"); ("2317", "鴻海"); ("2454", "聯發科"); ("2303", "聯電");
    ("2308", "台達電"); ("2382", "廣達"); ("2357", "華碩"); ("3231", "緯創");
    ("3711", "日月光投控"); ("3034", "聯詠"); ("2379", "瑞昱"); ("3008", "大立光");
    ("6669", "緯穎"); ("2345", "智邦"); ("2412", "中華電"); ("3045", "台灣大");
    ("4904", "遠傳");
    ("2881", "富邦金"); ("2882", "國泰金"); ("2886", "兆豐金"); ("2891", "中信金");
    ("2884", "玉山金"); ("2892", "第一金"); ("2880", "華南金"); ("2885", "元大金");
    ("2883", "開發金"); ("2890", "永豐金"); ("2887", "台新金"); ("5880", "合庫金");
    ("2603", "長榮"); ("2609", "陽明"); ("2615", "萬海"); ("2618", "長榮航");
    ("2610", "華航");
    ("1301", "台塑"); ("1303", "南亞"); ("1326", "台化"); ("1304", "台聚");
    ("2002", "中鋼"); ("1101", "台泥"); ("1102", "亞泥"); ("1605", "華新");
    ("0050", "元大台灣50"); ("0056", "元大高股息"); ("00878", "國泰永續高股息");
    ("00929", "復華台灣科技優息"); ("00940", "元大台灣價值高息");
    ("00919", "群益台灣精選高息");
    ("006208", "富邦台50"); ("00713", "元大台灣高息低波");
    ("00939", "統一台灣高息動能") ].

(** The name logic of [get_stock_data] (lines 87-94), copied in
    [get_history_by_date] (lines 355-359): yfinance's [longName] with the code
    as default, replaced by the manual entry, else by twstock's. *)
Definition stock_name (env : Env) (ticker_symbol code : string) : Result string :=
  longName <- info_longName env ticker_symbol ;;
  let name := match longName with Some n => n | None => code end in
  Ok (match dict_get code MANUAL_STOCK_NAMES with
      | Some manual => manual
      | None =>
          match twstock env with
          | Some codes =>
              match dict_get code codes with
              | Some n => n
              | None => name
              end
          | None => name
          end
      end).

(** [int(x)] as a statement that may raise. *)
Definition int_ (x : float) : Result Z :=
  match to_int x, x with
  | Some n, _ => Ok n
  | None, S754_nan => Raise "cannot convert float NaN to integer"
  | None, _ => Raise "cannot convert float infinity to integer"
  end.

(** [enumerate(l)] *)
Definition enumerate {A : Type} (l : list A) : list (Z * A) :=
  combine (map Z.of_nat (seq 0 (List.length l))) l.

(** ** get_stock_data *)

(** One dictionary of [data_list]: 代號, 名稱, 日期, 收盤價, 漲跌, 漲跌幅(%),
    成交量. *)
Record QuoteRow : Type := {
  q_code : string;
  q_name : string;
  q_date : string;
  q_close : float;
  q_change : float;
  q_pct_change : float;
  q_volume : Z
}.

(** The [try] block of the loop: [Ok None] is the [else] branch (no bar). *)
Definition quote_body (env : Env) (code : string)
  : Result (option (QuoteRow * Ticker)) :=
  let ticker_symbol := (code ++ ".TW")%string in
  hist <- history env ticker_symbol Period5d ;;
  match rev hist with
  | [] => Ok None
  | latest :: older =>
      let prev := match older with p :: _ => p | [] => latest end in
      let price := Close latest in
      let prev_close := Close prev in
      let change := sub price prev_close in
      let pct_change := mul (div change prev_close) hundred in
      name <- stock_name env ticker_symbol code ;;
      volume <- int_ (of_Z (Volume latest)) ;;
      Ok (Some ({| q_code := code;
                   q_name := name;
                   q_date := strftime_Ymd (date_of (bar_ts latest));
                   q_close := round2 price;
                   q_change := round2 change;
                   q_pct_change := round2 pct_change;
                   q_volume := volume |},
                (code, ticker_symbol, name)))
  end.

Definition StockState : Type := list QuoteRow * list Ticker * list UiEvent.

Definition get_stock_data_step (env : Env) (total_stocks : Z)
  (st : StockState) (ic : Z * string) : StockState :=
  let '(data_list, valid_tickers, ui) := st in
  let '(i, code) := ic in
  let code := strip code in
  if String.eqb code "" then st
  else
    let ui := ui ++ [StatusText ("正在抓取: " ++ code ++ " ...")%string] in
    let '(data_list, valid_tickers, ui) :=
      match quote_body env code with
      | Ok (Some (row, tk)) => (data_list ++ [row], valid_tickers ++ [tk], ui)
      | Ok None =>
          (data_list, valid_tickers,
           ui ++ [Warning ("找不到 " ++ code ++ " 的資料。")%string])
      | Raise e =>
          (data_list, valid_tickers,
           ui ++ [Error ("抓取 " ++ code ++ " 錯誤: " ++ e)%string])
      end in
    (data_list, valid_tickers,
     ui ++ [Progress (div (of_Z (i + 1)) (of_Z total_stocks))]).

Definition get_stock_data (env : Env) (stock_list : list string) : StockState :=
  let '(data_list, valid_tickers, ui) :=
    fold_left (get_stock_data_step env (Z.of_nat (List.length stock_list)))
      (enumerate stock_list) ([], [], [Progress zero]) in
  (data_list, valid_tickers, ui ++ [StatusText "抓取完成！"]).

(** ** pandas tables *)

(** A [Series] of floats with its name and its (label, value) pairs. *)
Record Series : Type := {
  name : string;
  points : list (Timestamp * float)
}.

(** A [DataFrame] of float columns: the column names and, for every index
    label in order, the cells of that row. *)
Record DataFrame (I : Type) : Type := {
  columns : list string;
  rows : list (I * list float)
}.

Arguments columns {I} d.
Arguments rows {I} d.

(** [pd.DataFrame()] *)
Definition empty_frame {I : Type} : DataFrame I :=
  {| columns := []; rows := [] |}.

(** [df.empty]: no row or no column. *)
Definition df_empty {I : Type} (df : DataFrame I) : bool :=
  match rows df, columns df with
  | [], _ => true
  | _, [] => true
  | _, _ => false
  end.

(** [df.index] *)
Definition index {I : Type} (df : DataFrame I) : list I := map fst (rows df).

(** [pd.DataFrame(series)] *)
Definition of_series (s : Series) : DataFrame Timestamp :=
  {| columns := [name s];
     rows := map (fun p => (fst p, [snd p])) (points s) |}.

(** The sorted union of index labels. *)
Fixpoint insert_uniq (t : Z) (l : list Z) : list Z :=
  match l with
  | [] => [t]
  | x :: l' =>
      if t <? x then t :: l
      else if t =? x then l
      else x :: insert_uniq t l'
  end.

Definition sort_uniq (l : list Z) : list Z := fold_right insert_uniq [] l.

(** [sort_index()]: a stable sort of the rows by label. *)
Fixpoint insert_row {A : Type} (r : Z * A) (l : list (Z * A)) : list (Z * A) :=
  match l with
  | [] => [r]
  | x :: l' => if fst r <=? fst x then r :: l else x :: insert_row r l'
  end.

Definition sort_rows {A : Type} (l : list (Z * A)) : list (Z * A) :=
  fold_right insert_row [] l.

Definition sort_index (df : DataFrame Timestamp) : DataFrame Timestamp :=
  {| columns := columns df; rows := sort_rows (rows df) |}.

(** The value of a series at a label, NaN where it has none. *)
Definition value_at (pts : list (Timestamp * float)) (t : Timestamp) : float :=
  match find (fun p => fst p =? t) pts with
  | Some p => snd p
  | None => nan
  end.

(** The row of a table at a label, all NaN where it has none. *)
Definition row_at (df : DataFrame Timestamp) (t : Timestamp) : list float :=
  match find (fun r => fst r =? t) (rows df) with
  | Some r => snd r
  | None => repeat nan (List.length (columns df))
  end.

(** [df.join(series, how='outer')]: the sorted union of the two indexes; a
    series named like a column raises ValueError. *)
Definition join_outer (df : DataFrame Timestamp) (s : Series)
  : Result (DataFrame Timestamp) :=
  if existsb (String.eqb (name s)) (columns df)
  then Raise "columns overlap but no suffix specified"
  else Ok {| columns := columns df ++ [name s];
             rows := map (fun t => (t, row_at df t ++ [value_at (points s) t]))
                       (sort_uniq (index df ++ map fst (points s))) |}.

(** The common tail of the weekly and monthly loops:
    [if trend_data.empty: pd.DataFrame(series) else trend_data.join(...)]. *)
Definition add_series (trend_data : DataFrame Timestamp) (s : Series)
  : Result (DataFrame Timestamp) :=
  if df_empty trend_data then Ok (of_series s) else join_outer trend_data s.

(** [try: ... except Exception: pass] around one loop body. *)
Definition try_pass {Acc Item : Type} (body : Acc -> Item -> Result Acc)
  (acc : Acc) (x : Item) : Acc :=
  match body acc x with
  | Ok acc' => acc'
  | Raise _ => acc
  end.

(** [trend_data.index = [f(dt) for dt in trend_data.index]] *)
Definition relabel {I J : Type} (f : I -> J) (df : DataFrame I) : DataFrame J :=
  {| columns := columns df;
     rows := map (fun r => (f (fst r), snd r)) (rows df) |}.

(** [((price - start_price) / start_price) * 100] *)
Definition pct_return (start_price price : float) : float :=
  mul (div (sub price start_price) start_price) hundred.

Definition column_name (code stock_name : string) : string :=
  (code ++ " " ++ stock_name)%string.

(** ** get_weekly_trend *)

(** The [points] list: two rows per daily bar. *)
Definition weekly_points (df : list Bar) : list (Timestamp * float) :=
  flat_map (fun b => [ (bar_ts b + timedelta 9 0, Open b);
                       (bar_ts b + timedelta 13 30, Close b) ]) df.

(** [stock_df['CumReturn']] *)
Definition cum_return (pts : list (Timestamp * float)) : list (Timestamp * float) :=
  match pts with
  | [] => []
  | p0 :: _ =>
      let start_price := snd p0 in
      map (fun p => (fst p, pct_return start_price (snd p))) pts
  end.

Definition weekly_body (env : Env) (start_date : date)
  (trend_data : DataFrame Timestamp) (tk : Ticker) : Result (DataFrame Timestamp) :=
  let '(code, symbol, nm) := tk in
  df <- history env symbol (Start start_date) ;;
  match df with
  | [] => Ok trend_data
  | _ => add_series trend_data
           {| name := column_name code nm;
              points := cum_return (weekly_points df) |}
  end.

Definition weekdays_map (wd : Z) : string :=
  match wd with
  | 0 => "週一" | 1 => "週二" | 2 => "週三" | 3 => "週四"
  | 4 => "週五" | 5 => "週六" | _ => "週日"
  end.

Definition weekly_label (dt : Timestamp) : string :=
  (decimal (month dt) ++ "月" ++ decimal (day dt) ++ "號" ++ " "
   ++ weekdays_map (weekday (date_of dt)) ++ " " ++ strftime_HM dt)%string.

(** The table before its index is turned into display strings. *)
Definition weekly_trend_data (env : Env) (now : Timestamp) (valid_tickers : list Ticker)
  : DataFrame Timestamp :=
  let today := date_of now in
  let monday := today - weekday today in
  fold_left (try_pass (weekly_body env monday)) valid_tickers empty_frame.

Definition get_weekly_trend (env : Env) (now : Timestamp) (valid_tickers : list Ticker)
  : DataFrame string :=
  let trend_data := weekly_trend_data env now valid_tickers in
  if df_empty trend_data then relabel weekly_label trend_data
  else relabel weekly_label (sort_index trend_data).

(** ** get_monthly_trend *)

Definition monthly_body (env : Env) (start_date : date)
  (trend_data : DataFrame Timestamp) (tk : Ticker) : Result (DataFrame Timestamp) :=
  let '(code, symbol, nm) := tk in
  df <- history env symbol (Start start_date) ;;
  match df with
  | [] => Ok trend_data
  | first :: _ =>
      let start_price := Close first in
      if ltb zero start_price then
        add_series trend_data
          {| name := column_name code nm;
             points := map (fun b => (bar_ts b, pct_return start_price (Close b))) df |}
      else Ok trend_data
  end.

Definition monthly_trend_data (env : Env) (now : Timestamp) (valid_tickers : list Ticker)
  : DataFrame Timestamp :=
  let today := date_of now in
  let first_of_month := today - (day_of_date today - 1) in
  fold_left (try_pass (monthly_body env first_of_month)) valid_tickers empty_frame.

Definition get_monthly_trend (env : Env) (now : Timestamp) (valid_tickers : list Ticker)
  : DataFrame string :=
  let trend_data := monthly_trend_data env now valid_tickers in
  if df_empty trend_data then relabel strftime_md trend_data
  else relabel strftime_md (sort_index trend_data).

(** ** get_yearly_trend *)

(** The dictionary [all_series]: column name to close prices by date. *)
Definition SeriesDict : Type := list (string * list (Timestamp * float)).

(** Step 1, the body of the collecting loop. *)
Definition yearly_body (env : Env) (now : Timestamp) (start_date : date)
  (all_series : SeriesDict) (tk : Ticker) : Result SeriesDict :=
  let '(code, symbol, nm) := tk in
  df <- history env symbol (Start start_date) ;;
  match df with
  | [] => Ok all_series
  | _ =>
      let df := filter (fun b => 0 <? Volume b) df in
      match df with
      | [] => Raise "index -1 is out of bounds for axis 0 with size 0"
      | b :: _ =>
          let last_date := date_of (bar_ts (last df b)) in
          let df := if (last_date =? date_of now) && before_close now
                    then removelast df else df in
          match df with
          | [] => Ok all_series
          | _ => Ok (dict_set (column_name code nm)
                       (map (fun b => (bar_ts b, Close b)) df) all_series)
          end
      end
  end.

Definition yearly_all_series (env : Env) (now : Timestamp) (valid_tickers : list Ticker)
  : SeriesDict :=
  let start_date := days_from_civil (year_of_date (date_of now)) 1 1 in
  fold_left (try_pass (yearly_body env now start_date)) valid_tickers [].

(** Step 2: [pd.DataFrame(all_series)], one column per key over the union of
    the dates. *)
Definition frame_of_dict (all_series : SeriesDict) : DataFrame Timestamp :=
  {| columns := map fst all_series;
     rows := map (fun t => (t, map (fun s => value_at (snd s) t) all_series))
               (sort_uniq (List.concat (map (fun s => map fst (snd s)) all_series))) |}.

(** [ffill()] on one row, given the filled row above it. *)
Fixpoint fill_row (prev cur : list float) : list float :=
  match cur with
  | [] => []
  | c :: cs => (if isna c then hd nan prev else c) :: fill_row (tl prev) cs
  end.

Fixpoint ffill_rows {I : Type} (prev : list float) (rs : list (I * list float))
  : list (I * list float) :=
  match rs with
  | [] => []
  | r :: rs' =>
      let filled := fill_row prev (snd r) in
      (fst r, filled) :: ffill_rows filled rs'
  end.

Definition ffill {I : Type} (df : DataFrame I) : DataFrame I :=
  {| columns := columns df; rows := ffill_rows [] (rows df) |}.

(** Step 3: [combined_df.notna().sum(axis=1)] on one row. *)
Definition valid_count (r : list float) : Z :=
  Z.of_nat (List.length (filter notna r)).

(** [threshold = len(valid_tickers) * 0.3] *)
Definition coverage_threshold (valid_tickers : list Ticker) : float :=
  mul (of_Z (Z.of_nat (List.length valid_tickers))) lit_0_3.

(** [combined_df[valid_counts >= threshold]] *)
Definition coverage_filter {I : Type} (threshold : float) (df : DataFrame I)
  : DataFrame I :=
  {| columns := columns df;
     rows := filter (fun r => leb threshold (of_Z (valid_count (snd r)))) (rows df) |}.

(** Step 4: the first label of a month group, and the last when it differs. *)
Definition endpoints (group : list Timestamp) : list Timestamp :=
  match group with
  | [] => []
  | t0 :: _ =>
      let tn := last group t0 in
      if negb (tn =? t0) then [t0; tn] else [t0]
  end.

(** [groupby('Month')]: the groups by ascending month number. *)
Definition target_dates (idx : list Timestamp) : list Timestamp :=
  flat_map (fun m => endpoints (filter (fun t => month t =? m) idx))
    (sort_uniq (map month idx)).

(** Step 5: [combined_df.loc[target_dates]] *)
Definition loc (df : DataFrame Timestamp) (labels : list Timestamp)
  : DataFrame Timestamp :=
  {| columns := columns df;
     rows := flat_map (fun t => filter (fun r => fst r =? t) (rows df)) labels |}.

(** One column of a table as (label, value) pairs. *)
Definition column {I : Type} (j : nat) (df : DataFrame I) : list (I * float) :=
  map (fun r => (fst r, nth j (snd r) nan)) (rows df).

(** [first_valid_index()] *)
Definition first_valid_index {I : Type} (col : list (I * float)) : option I :=
  match find (fun p => notna (snd p)) col with
  | Some p => Some (fst p)
  | None => None
  end.

(** Step 6, per column: the baseline price when the column is kept. *)
Definition ytd_baseline (final_df : DataFrame Timestamp) (j : nat) : option float :=
  match first_valid_index (column j final_df) with
  | Some first_valid_idx =>
      let start_price := value_at (column j final_df) first_valid_idx in
      if ltb zero start_price then Some start_price else None
  | None => None
  end.

(** The columns the loop assigns: name, position in [final_df], baseline. *)
Definition ytd_columns (final_df : DataFrame Timestamp) : list (string * nat * float) :=
  flat_map (fun jc => match ytd_baseline final_df (fst jc) with
                      | Some start_price => [(snd jc, fst jc, start_price)]
                      | None => []
                      end)
    (combine (seq 0 (List.length (columns final_df))) (columns final_df)).

(** [trend_data] after the loop: [pd.DataFrame()] when no column was kept,
    else the kept columns over the index of [final_df]. *)
Definition ytd_frame (final_df : DataFrame Timestamp) : DataFrame Timestamp :=
  match ytd_columns final_df with
  | [] => empty_frame
  | kept =>
      {| columns := map (fun c => fst (fst c)) kept;
         rows := map (fun r =>
                        (fst r,
                         map (fun c => pct_return (snd c) (nth (snd (fst c)) (snd r) nan))
                           kept))
                   (rows final_df) |}
  end.

(** The stages by name. *)
Definition yearly_combined (all_series : SeriesDict) : DataFrame Timestamp :=
  ffill (sort_index (frame_of_dict all_series)).

Definition yearly_filtered (valid_tickers : list Ticker) (all_series : SeriesDict)
  : DataFrame Timestamp :=
  coverage_filter (coverage_threshold valid_tickers) (yearly_combined all_series).

Definition yearly_final (valid_tickers : list Ticker) (all_series : SeriesDict)
  : DataFrame Timestamp :=
  let combined_df := yearly_filtered valid_tickers all_series in
  loc combined_df (target_dates (index combined_df)).

(** The table before its index is turned into display strings. *)
Definition yearly_trend_data (env : Env) (now : Timestamp) (valid_tickers : list Ticker)
  : DataFrame Timestamp :=
  match yearly_all_series env now valid_tickers with
  | [] => empty_frame
  | all_series => ytd_frame (yearly_final valid_tickers all_series)
  end.

Definition get_yearly_trend (env : Env) (now : Timestamp) (valid_tickers : list Ticker)
  : DataFrame string :=
  relabel strftime_md (yearly_trend_data env now valid_tickers).

(** ** get_history_by_date *)

(** One dictionary of [data_list]: 代號, 名稱, 日期, 開盤, 最高, 最低,
    收盤價 (13:30), 成交量. *)
Record HistoryRow : Type := {
  h_code : string;
  h_name : string;
  h_date : string;
  h_open : float;
  h_high : float;
  h_low : float;
  h_close : float;
  h_volume : Z
}.

Definition history_body (env : Env) (target_date : date) (code : string)
  : Result (option HistoryRow) :=
  let ticker_symbol := (code ++ ".TW")%string in
  let next_day := target_date + 1 in
  hist <- history env ticker_symbol (StartEnd target_date next_day) ;;
  match hist with
  | [] => Ok None
  | row :: _ =>
      nm <- stock_name env ticker_symbol code ;;
      volume <- int_ (of_Z (Volume row)) ;;
      Ok (Some {| h_code := code;
                  h_name := nm;
                  h_date := (strftime_Ymd target_date ++ " 13:30")%string;
                  h_open := round2 (Open row);
                  h_high := round2 (High row);
                  h_low := round2 (Low row);
                  h_close := round2 (Close row);
                  h_volume := volume |})
  end.

Definition HistoryState : Type := list HistoryRow * list UiEvent.

Definition history_step (env : Env) (target_date : date) (total : Z)
  (st : HistoryState) (ic : Z * string) : HistoryState :=
  let '(data_list, ui) := st in
  let '(i, code) := ic in
  let code := strip code in
  if String.eqb code "" then st
  else
    let ui := ui ++ [StatusText ("正在查詢: " ++ code ++ " ...")%string] in
    let data_list :=
      match history_body env target_date code with
      | Ok (Some row) => data_list ++ [row]
      | Ok None => data_list
      | Raise _ => data_list
      end in
    (data_list, ui ++ [Progress (div (of_Z (i + 1)) (of_Z total))]).

(** The loop and the two [empty()] calls after it. *)
Definition history_fetch (env : Env) (stock_list : list string) (target_date : date)
  : HistoryState :=
  let '(data_list, ui) :=
    fold_left (history_step env target_date (Z.of_nat (List.length stock_list)))
      (enumerate stock_list) ([], [Progress zero]) in
  (data_list, ui ++ [StatusEmpty; ProgressEmpty]).

Definition get_history_by_date (env : Env) (now : Timestamp)
  (stock_list : list string) (target_date : date) : HistoryState :=
  if (target_date =? date_of now) && before_close now then ([], [])
  else if date_of now <? target_date then ([], [])
  else history_fetch env stock_list target_date.


(** ** color_change *)

(** The style of one cell of the columns 漲跌 and 漲跌幅(%). *)
Definition color_change (val : float) : string :=
  let color := if ltb zero val then "red"
               else if ltb val zero then "green" else "black" in
  ("color: " ++ color)%string.

(** ** plot_custom_chart *)

(** One row of [df_long]: the date label, 股票, 漲跌幅 and 漲跌幅顯示. *)
Record LongRow : Type := {
  lr_date : string;
  lr_stock : string;
  lr_value : float;
  lr_display : string
}.

Section Chart.

(** Python's [f"{x:.2f}"] on a float that is not null. *)
Variable format_2f : float -> string.

(** [df.reset_index().melt(id_vars=[date_col], ...)]: column after column,
    each over all the rows in their order. *)
Definition melt (df : DataFrame string) : list (string * string * float) :=
  flat_map (fun jc => map (fun r => (fst r, snd jc, nth (fst jc) (snd r) nan)) (rows df))
    (combine (seq 0 (List.length (columns df))) (columns df)).

(** [lambda x: f"{x:.2f}%" if pd.notnull(x) else ""] *)
Definition display_text (x : float) : string :=
  if notna x then (format_2f x ++ "%")%string else "".

(** The table the chart is drawn from. *)
Definition plot_custom_chart (df : DataFrame string) : list LongRow :=
  map (fun p => {| lr_date := fst (fst p);
                   lr_stock := snd (fst p);
                   lr_value := snd p;
                   lr_display := display_text (snd p) |})
    (melt df).

End Chart.

(** ** The main program *)

(** [s.split(',')] *)
Fixpoint split_comma (s : string) : list string :=
  match s with
  | EmptyString => [EmptyString]
  | String c s' =>
      if Ascii.eqb c "," then EmptyString :: split_comma s'
      else match split_comma s' with
           | x :: xs => String c x :: xs
           | [] => [String c EmptyString]
           end
  end.

(** [[x.strip() for x in user_input.split(',') if x.strip()]] *)
Definition stock_codes (user_input : string) : list string :=
  map strip (filter (fun x => negb (String.eqb (strip x) "")) (split_comma user_input)).

Definition default_stocks : string := "006208, 2317, 2353, 00893".

(** [st.session_state] *)
Module Session.

Record State : Type := {
  stock_data : list QuoteRow;
  valid_tickers : list Ticker;
  update_time : string
}.

(** The three keys as the first run sets them. *)
Definition initial : State :=
  {| stock_data := []; valid_tickers := []; update_time := "" |}.

End Session.

(** [strftime('%Y-%m-%d %H:%M:%S')] *)
Definition strftime_YmdHMS (t : Timestamp) : string :=
  (strftime_Ymd (date_of t) ++ " " ++ strftime_HM t ++ ":"
     ++ two_digits (second_of_day t mod 60))%string.

(** The button 更新股價 when it is pressed. *)
Definition update_button (env : Env) (now : Timestamp) (codes : list string)
  (state : Session.State) : Session.State * list UiEvent :=
  match codes with
  | [] => (state, [Warning "請輸入代號"])
  | _ =>
      let current_time := strftime_YmdHMS now in
      let '(df, tickers, ui) := get_stock_data env codes in
      ({| Session.stock_data := df;
          Session.valid_tickers := tickers;
          Session.update_time := current_time |}, ui)
  end.

(** [df.iloc[idx]] *)
Definition iloc {A : Type} (df : list A) (idx : nat) : Result A :=
  match nth_error df idx with
  | Some row => Ok row
  | None => Raise "single positional indexer is out-of-bounds"
  end.

(** One [col.metric(...)] call: the label, and the numbers its value and its
    delta are printed from. *)
Record Metric : Type := {
  m_label : string;
  m_value : float;
  m_delta : float * float
}.

Fixpoint for_each {A B : Type} (f : A -> Result B) (l : list A) : Result (list B) :=
  match l with
  | [] => Ok []
  | x :: l' => y <- f x ;; ys <- for_each f l' ;; Ok (y :: ys)
  end.

(** The block 重點關注: [st.columns(min(3, len(df)))] and one metric for each
    column. *)
Definition metrics (df : list QuoteRow) : Result (list Metric) :=
  let cols := seq 0 (Nat.min 3 (List.length df)) in
  for_each (fun idx =>
              row <- iloc df idx ;;
              Ok {| m_label := (q_code row ++ " " ++ q_name row)%string;
                    m_value := q_close row;
                    m_delta := (q_change row, q_pct_change row) |})
    cols.

(** The branch the display logic takes. *)
Inductive Display : Type :=
| Dashboard (info : string) (df : list QuoteRow) (tickers : list Ticker)
| NoData (error : string)
| Nothing.

Definition display (state : Session.State) : Display :=
  match Session.stock_data state with
  | _ :: _ =>
      Dashboard ("資料更新時間: " ++ Session.update_time state)%string
        (Session.stock_data state) (Session.valid_tickers state)
  | [] =>
      if String.eqb (Session.update_time state) "" then Nothing
      else NoData "無法取得資料。"
  end.

(** [str(n)] of a count. *)
Fixpoint digits_of (fuel : nat) (n : Z) (acc : string) : string :=
  match fuel with
  | O => acc
  | S fuel' =>
      let acc' := String (digit n) acc in
      if n <? 10 then acc' else digits_of fuel' (n / 10) acc'
  end.

Definition str_len {A : Type} (l : list A) : string :=
  digits_of (S (List.length l)) (Z.of_nat (List.length l)) "".

(** What pressing 查詢該日股價 shows. *)
Inductive SearchResult : Type :=
| AskForCodes (warning : string)
| Found (success : string) (history_df : list HistoryRow)
| NotFound (warning : string).

Definition search_button (env : Env) (now : Timestamp) (codes : list string)
  (search_date : date) : SearchResult :=
  match codes with
  | [] => AskForCodes "請先在側邊欄輸入股票代號"
  | _ =>
      let history_df := fst (get_history_by_date env now codes search_date) in
      match history_df with
      | _ :: _ =>
          Found ("查詢完成！共找到 " ++ str_len history_df ++ " 筆資料。")%string history_df
      | [] =>
          NotFound ("查無資料：" ++ strftime_Ymd search_date
                      ++ " 可能是假日、颱風假或尚未開盤。")%string
      end
  end.
(** ** Helper notions of the statements *)

(** What one entry of [stock_list] adds to [data_list] and [valid_tickers]. *)
Definition quote_items (env : Env) (raw : string) : list (QuoteRow * Ticker) :=
  if String.eqb (strip raw) "" then []
  else match quote_body env (strip raw) with
       | Ok (Some rt) => [rt]
       | _ => []
       end.

(** What one entry of [stock_list] adds to the rows of a date lookup. *)
Definition history_items (env : Env) (target_date : date) (raw : string)
  : list HistoryRow :=
  if String.eqb (strip raw) "" then []
  else match history_body env target_date (strip raw) with
       | Ok (Some row) => [row]
       | _ => []
       end.

(** The cell of a table at a label and a column position. *)
Definition cell (df : DataFrame Timestamp) (j : nat) (t : Timestamp) : float :=
  value_at (column j df) t.

Definition is_message (e : UiEvent) : bool :=
  match e with Warning _ | Error _ => true | _ => false end.

(** The table of the string test against the numeric one, minute by minute. *)
Definition hm_table_ok : bool :=
  forallb (fun h =>
    forallb (fun m =>
      Bool.eqb
        (String.ltb (two_digits (Z.of_nat h) ++ ":" ++ two_digits (Z.of_nat m))%string
           "13:30")
        (Z.of_nat h * 60 + Z.of_nat m <? 810))
      (seq 0 60))
    (seq 0 24).


(** ** Sample data *)

(** Midnight of a day of December 2025. *)
Definition dec2025 (d : Z) : Timestamp := days_from_civil 2025 12 d * day_seconds.

Definition sample_bar (d : Z) (open_ close_ : float) (volume : Z) : Bar :=
  {| bar_ts := dec2025 d; Open := open_; High := close_; Low := open_;
     Close := close_; Volume := volume |}.

(** Tuesday 2025-12-09 at 10:00 and at 14:00 exchange time. *)
Definition tuesday_morning : Timestamp := dec2025 9 + timedelta 10 0.
Definition tuesday_afternoon : Timestamp := dec2025 9 + timedelta 14 0.

(** Two securities with bars, one whose fetch raises, and a provider name
    for a code that no table knows. *)
Definition sample_env : Env :=
  {| history := fun symbol _ =>
       if String.eqb symbol "2330.TW" then
         Ok [sample_bar 8 (of_Z 100) (of_Z 110) 5; sample_bar 9 (of_Z 110) (of_Z 121) 7]
       else if String.eqb symbol "2317.TW" then
         Ok [sample_bar 9 (of_Z 50) (of_Z 55) 3]
       else if String.eqb symbol "9999.TW" then
         Ok [sample_bar 9 (of_Z 20) (of_Z 21) 1]
       else if String.eqb symbol "0000.TW" then Raise "timed out"
       else Ok [];
     info_longName := fun symbol =>
       if String.eqb symbol "9999.TW" then Ok (Some "Foo Holdings") else Ok None;
     twstock := None |}.

(** ** The series behind the columns *)

(** The series the weekly loop builds for one ticker, if it builds one. *)
Definition weekly_series (env : Env) (start_date : date) (tk : Ticker) : option Series :=
  match history env (snd (fst tk)) (Start start_date) with
  | Ok (b :: bars) =>
      Some {| name := column_name (fst (fst tk)) (snd tk);
              points := cum_return (weekly_points (b :: bars)) |}
  | _ => None
  end.

(** The series the monthly loop builds for one ticker, if it builds one. *)
Definition monthly_series (env : Env) (start_date : date) (tk : Ticker) : option Series :=
  match history env (snd (fst tk)) (Start start_date) with
  | Ok (b :: bars) =>
      if ltb zero (Close b) then
        Some {| name := column_name (fst (fst tk)) (snd tk);
                points := map (fun x => (bar_ts x, pct_return (Close b) (Close x)))
                            (b :: bars) |}
      else None
  | _ => None
  end.

(** One turn of a merging loop, with the exception handler applied. *)
Definition merge_step (series_of : Ticker -> option Series)
  (trend_data : DataFrame Timestamp) (tk : Ticker) : DataFrame Timestamp :=
  match series_of tk with
  | Some s => match add_series trend_data s with
              | Ok merged => merged
              | Raise _ => trend_data
              end
  | None => trend_data
  end.

(** A table holds exactly the series [ss], column by column: each cell is the
    series' own value at that label, NaN where the series has no point. *)
Record Represents (T : DataFrame Timestamp) (ss : list Series) : Prop := {
  rep_columns : columns T = map name ss;
  rep_width : Forall (fun r => List.length (snd r) = List.length ss) (rows T);
  rep_cell : forall j s, nth_error ss j = Some s ->
             forall t, cell T j t = value_at (points s) t;
  rep_index : forall t, In t (index T) <->
                        exists s, In s ss /\ In t (map fst (points s));
  rep_points : Forall (fun s => points s <> []) ss
}.

(** Forward fill along one column, [prev] being the value carried in. *)
Fixpoint ffill_col (prev : float) (col : list float) : list float :=
  match col with
  | [] => []
  | c :: cs =>
      let v := if isna c then prev else c in
      v :: ffill_col v cs
  end.

(** The values of one column of a table, top to bottom. *)
Definition column_values {I : Type} (j : nat) (df : DataFrame I) : list float :=
  map snd (column j df).

(** Ten securities: three trade on 8 and 9 December, seven on the 9th only. *)
Definition ten_codes : list string :=
  ["S0"; "S1"; "S2"; "S3"; "S4"; "S5"; "S6"; "S7"; "S8"; "S9"].

Definition ticker_of (code : string) : Ticker := (code, (code ++ ".TW")%string, code).

Definition ten_tickers : list Ticker := map ticker_of ten_codes.

Definition coverage_env : Env :=
  {| history := fun symbol _ =>
       if existsb (String.eqb symbol) ["S0.TW"; "S1.TW"; "S2.TW"] then
         Ok [sample_bar 8 (of_Z 10) (of_Z 10) 1; sample_bar 9 (of_Z 10) (of_Z 11) 1]
       else if existsb (String.eqb symbol) (map (fun c => (c ++ ".TW")%string) ten_codes)
       then Ok [sample_bar 9 (of_Z 20) (of_Z 22) 1]
       else if existsb (String.eqb symbol) ["FAIL.TW"; "FAIL2.TW"]
       then Raise "timed out"
       else Ok [];
     info_longName := fun _ => Ok None;
     twstock := None |}.

(** The data model's invariant on bars: opens and closes are prices. *)
Definition decimal_prices (env : Env) : Prop :=
  forall symbol req bars b,
    history env symbol req = Ok bars -> In b bars ->
    is_price (Open b) = true /\ is_price (Close b) = true.

(** A cell that is null or a finite number. *)
Definition okcell (x : float) : bool := isna x || is_finite x.

Definition cells_ok {I : Type} (df : DataFrame I) : Prop :=
  Forall (fun r => Forall (fun x => okcell x = true) (snd r)) (rows df).

Definition series_ok (d : SeriesDict) : Prop :=
  Forall (fun kv => Forall (fun p => okcell (snd p) = true) (snd kv)) d.

(** The bars of one security that the yearly loop keeps: traded ones, less
    today's while the session is open. *)
Definition yearly_kept_bars (now : Timestamp) (bars : list Bar) : list Bar :=
  let df := filter (fun b => 0 <? Volume b) bars in
  match df with
  | [] => []
  | b :: _ =>
      if (date_of (bar_ts (last df b)) =? date_of now) && before_close now
      then removelast df else df
  end.

(** The entry the yearly loop stores for one ticker, if it stores one. *)
Definition yearly_series (env : Env) (now : Timestamp) (start_date : date)
  (tk : Ticker) : option (string * list (Timestamp * float)) :=
  match history env (snd (fst tk)) (Start start_date) with
  | Ok bars =>
      match yearly_kept_bars now bars with
      | [] => None
      | kept => Some (column_name (fst (fst tk)) (snd tk),
                      map (fun b => (bar_ts b, Close b)) kept)
      end
  | Raise _ => None
  end.

(** Two securities over 8 to 10 December; the second has no bar on the 9th. *)
Definition gap_env : Env :=
  {| history := fun symbol _ =>
       if String.eqb symbol "G0.TW" then
         Ok [sample_bar 8 (of_Z 10) (of_Z 10) 1; sample_bar 9 (of_Z 10) (of_Z 11) 1;
             sample_bar 10 (of_Z 11) (of_Z 12) 1]
       else if String.eqb symbol "G1.TW" then
         Ok [sample_bar 8 (of_Z 20) (of_Z 21) 1; sample_bar 10 (of_Z 21) (of_Z 24) 1]
       else Ok [];
     info_longName := fun _ => Ok None;
     twstock := None |}.

Definition gap_tickers : list Ticker := [ticker_of "G0"; ticker_of "G1"].

Definition wednesday_afternoon : Timestamp := dec2025 10 + timedelta 14 0.

(** A security whose first bar of the window opens and closes at 0.0. *)
Definition zero_env : Env :=
  {| history := fun symbol _ =>
       if String.eqb symbol "Z0.TW" then
         Ok [sample_bar 8 zero zero 1; sample_bar 9 (of_Z 10) (of_Z 11) 1]
       else Ok [];
     info_longName := fun _ => Ok None;
     twstock := None |}.

(** ** Which entries give a row *)

(** A stripped entry of [stock_list] for which [get_stock_data] appends a row. *)
Definition quoted (env : Env) (code : string) : bool :=
  negb (String.eqb code "")
  && match quote_body env code with Ok (Some _) => true | _ => false end.

(** A stripped entry of [stock_list] for which a date lookup appends a row. *)
Definition found (env : Env) (target_date : date) (code : string) : bool :=
  negb (String.eqb code "")
  && match history_body env target_date code with Ok (Some _) => true | _ => false end.

(** The texts of [status_text.text(...)], in order. *)
Definition status_texts (ui : list UiEvent) : list string :=
  flat_map (fun e => match e with StatusText s => [s] | _ => [] end) ui.

(** A security code as [stock_codes] hands it on: not blank, nothing to
    strip, no comma. *)
Definition clean_code (c : string) : Prop :=
  c <> "" /\ strip c = c /\ ~ In ","%char (list_ascii_of_string c).

(** The values of [progress_bar.progress(...)], in order. *)
Definition progress_steps (ui : list UiEvent) : list float :=
  flat_map (fun e => match e with Progress v => [v] | _ => [] end) ui.

(** A float that is null or carries the sign bit [s]. *)
Definition signed (s : bool) (x : float) : Prop :=
  match x with
  | S754_nan => True
  | S754_zero s' | S754_infinity s' | S754_finite s' _ _ => s' = s
  end.

(** The series a merging loop ends with: the series of each ticker in turn,
    less those whose name a column already carries. *)
Fixpoint merged_series (series_of : Ticker -> option Series) (seen : list string)
  (tickers : list Ticker) : list Series :=
  match tickers with
  | [] => []
  | tk :: rest =>
      match series_of tk with
      | Some s =>
          if existsb (String.eqb (name s)) seen
          then merged_series series_of seen rest
          else s :: merged_series series_of (seen ++ [name s]) rest
      | None => merged_series series_of seen rest
      end
  end.

(** * Properties *)

(** ** Floating point facts *)

Lemma hundred_eq : hundred = S754_finite false 7036874417766400 (-46).
Proof. reflexivity. Qed.

Lemma sub_diag (x : float) : is_finite x = true -> sub x x = zero.
Proof.
  destruct x as [s | s | | s m e]; simpl; try discriminate; intros _.
  - now destruct s.
  - unfold sub, SFsub. rewrite Z.sub_diag. reflexivity.
Qed.

Lemma pct_return_diag (s : bool) (m : positive) (e : Z) :
  pct_return (S754_finite s m e) (S754_finite s m e) = S754_zero s.
Proof.
  unfold pct_return. rewrite sub_diag by reflexivity.
  rewrite hundred_eq. simpl. now destruct s.
Qed.

Lemma pct_return_price (x : float) :
  is_price x = true -> pct_return x x = zero.
Proof.
  destruct x as [s | s | | [|] m e]; simpl; try discriminate; intros _.
  apply pct_return_diag.
Qed.

Lemma round2_zero (s : bool) : round2 (S754_zero s) = S754_zero s.
Proof. unfold round2. rewrite hundred_eq. now destruct s. Qed.

Lemma baseline_positive (x : float) :
  ltb zero x = true -> is_finite x = true -> is_price x = true.
Proof. now destruct x as [s | s | | [|] m e]. Qed.

Lemma ltb_zero_notna (x : float) : ltb zero x = true -> notna x = true.
Proof. now destruct x. Qed.

(** An integer below 2^53 converts to binary64 and back unchanged. *)

Lemma digits2_pos_bound (p : positive) (n : Z) :
  0 <= n -> Zpos p < 2 ^ n -> Zpos (digits2_pos p) <= n.
Proof.
  revert n. induction p as [p IH | p IH |]; intros n Hn Hp; simpl.
  - assert (n <> 0) by (intros ->; simpl in Hp; lia).
    replace n with (Z.succ (n - 1)) in Hp by lia.
    rewrite Z.pow_succ_r in Hp by lia.
    specialize (IH (n - 1)). lia.
  - assert (n <> 0) by (intros ->; simpl in Hp; lia).
    replace n with (Z.succ (n - 1)) in Hp by lia.
    rewrite Z.pow_succ_r in Hp by lia.
    specialize (IH (n - 1)). lia.
  - assert (n <> 0) by (intros ->; simpl in Hp; lia). lia.
Qed.

Lemma iter_xO_digits (p k : positive) :
  Zpos (digits2_pos (Pos.iter xO p k)) = Zpos (digits2_pos p) + Zpos k.
Proof.
  revert p. induction k using Pos.peano_ind; intros p.
  - simpl. lia.
  - rewrite Pos.iter_succ. simpl digits2_pos. rewrite Pos2Z.inj_succ, IHk. lia.
Qed.

Lemma iter_xO_value (p k : positive) :
  Zpos (Pos.iter xO p k) = Zpos p * 2 ^ Zpos k.
Proof.
  revert p. induction k using Pos.peano_ind; intros p.
  - simpl. lia.
  - rewrite Pos.iter_succ. rewrite Pos2Z.inj_xO, IHk.
    rewrite Pos2Z.inj_succ, Z.pow_succ_r by lia. lia.
Qed.

Lemma fexp_canonical (e : Z) :
  -1074 <= e -> fexp prec emax (53 + e) = e.
Proof. intros H. unfold fexp, emin, prec, emax. lia. Qed.

Lemma binary_round_aux_canonical (s : bool) (m : positive) (e : Z) :
  Zpos (digits2_pos m) = 53 -> -1074 <= e <= 971 ->
  binary_round_aux prec emax s (Zpos m) e loc_Exact = S754_finite s m e.
Proof.
  intros Hd He.
  assert (Hf : fexp prec emax (Zdigits2 (Zpos m) + e) - e = 0).
  { cbn [Zdigits2]. rewrite Hd, fexp_canonical; lia. }
  unfold binary_round_aux, shr_fexp.
  rewrite Hf. cbn [shr shr_record_of_loc shr_m loc_of_shr_record round_nearest_even].
  rewrite Hf. cbn [shr shr_record_of_loc shr_m].
  destruct (Z.leb_spec e (emax - prec)); [reflexivity | unfold emax, prec in *; lia].
Qed.



(** ** The close of the session *)

Lemma hm_table : hm_table_ok = true.
Proof. vm_compute. reflexivity. Qed.

Lemma hm_compare (h m : Z) :
  0 <= h < 24 -> 0 <= m < 60 ->
  String.ltb (two_digits h ++ ":" ++ two_digits m)%string "13:30"
  = (h * 60 + m <? 810).
Proof.
  intros Hh Hm.
  pose proof hm_table as T. unfold hm_table_ok in T.
  rewrite forallb_forall in T.
  assert (Hin : In (Z.to_nat h) (seq 0 24)) by (apply in_seq; lia).
  specialize (T _ Hin). rewrite forallb_forall in T.
  assert (Hin' : In (Z.to_nat m) (seq 0 60)) by (apply in_seq; lia).
  specialize (T _ Hin').
  rewrite !Z2Nat.id in T by lia.
  now apply Bool.eqb_prop in T.
Qed.

(** The string test of the source is the numeric test on the time of day. *)
Lemma before_close_spec (now : Timestamp) :
  before_close now = (second_of_day now <? timedelta 13 30).
Proof.
  unfold before_close, strftime_HM.
  assert (Hs : 0 <= second_of_day now < 86400)
    by (unfold second_of_day, day_seconds; apply Z.mod_pos_bound; lia).
  rewrite hm_compare.
  - unfold hour_of, minute_of, timedelta.
    destruct (Z.ltb_spec (second_of_day now) (13 * 3600 + 30 * 60));
      [apply Z.ltb_lt | apply Z.ltb_ge];
      generalize dependent (second_of_day now); intros s; intros;
      Z.to_euclidean_division_equations; lia.
  - unfold hour_of. split; [apply Z.div_pos; lia | apply Z.div_lt_upper_bound; lia].
  - unfold minute_of.
    assert (0 <= second_of_day now mod 3600 < 3600) by (apply Z.mod_pos_bound; lia).
    split; [apply Z.div_pos; lia | apply Z.div_lt_upper_bound; lia].
Qed.

(** C1.  [get_history_by_date] returns no row (and shows nothing) for a date
    after today's, and for today's date while the exchange clock is before
    13:30; for every other date it runs the fetch loop, in particular for
    today's date from 13:30 on. *)
Theorem session_gate_history_by_date
  (env : Env) (now : Timestamp) (stock_list : list string) (target_date : date) :
  (date_of now < target_date \/
   (target_date = date_of now /\ second_of_day now < timedelta 13 30) ->
   get_history_by_date env now stock_list target_date = ([], []))
  /\
  (~ (date_of now < target_date \/
      (target_date = date_of now /\ second_of_day now < timedelta 13 30)) ->
   get_history_by_date env now stock_list target_date
   = history_fetch env stock_list target_date)
  /\
  (target_date = date_of now -> timedelta 13 30 <= second_of_day now ->
   get_history_by_date env now stock_list target_date
   = history_fetch env stock_list target_date).
Proof.
  unfold get_history_by_date. rewrite before_close_spec.
  destruct (Z.eqb_spec target_date (date_of now)) as [E | E];
    destruct (Z.ltb_spec (second_of_day now) (timedelta 13 30)) as [L | L];
    destruct (Z.ltb_spec (date_of now) target_date) as [F | F];
    simpl; repeat split; intros; try reflexivity; try lia;
    try (exfalso; intuition lia).
Qed.

Lemma session_gate_history_by_date_witness :
  get_history_by_date sample_env tuesday_morning ["2330"] (date_of tuesday_morning)
  = ([], [])
  /\ get_history_by_date sample_env tuesday_afternoon ["2330"] (date_of tuesday_afternoon)
     = history_fetch sample_env ["2330"] (date_of tuesday_afternoon).
Proof.
  split.
  - apply (proj1 (session_gate_history_by_date sample_env tuesday_morning ["2330"]
                    (date_of tuesday_morning))).
    right. split; [reflexivity | vm_compute; reflexivity].
  - apply (proj2 (proj2 (session_gate_history_by_date sample_env tuesday_afternoon
                           ["2330"] (date_of tuesday_afternoon)))).
    + reflexivity.
    + vm_compute. discriminate.
Defined.

(** ** Names *)

Lemma quote_body_name (env : Env) (code : string) (row : QuoteRow) (tk : Ticker) :
  quote_body env code = Ok (Some (row, tk)) ->
  stock_name env (code ++ ".TW") code = Ok (q_name row)
  /\ tk = (code, (code ++ ".TW")%string, q_name row).
Proof.
  unfold quote_body, bind.
  destruct (history env _ Period5d) as [hist | e]; [| discriminate].
  destruct (rev hist) as [| latest older]; [discriminate |].
  destruct (stock_name env _ code) as [nm | e]; [| discriminate].
  destruct (int_ _) as [v | e]; [| discriminate].
  intros H. inversion H; subst. simpl. auto.
Qed.

Lemma history_body_name (env : Env) (target_date : date) (code : string)
  (row : HistoryRow) :
  history_body env target_date code = Ok (Some row) ->
  stock_name env (code ++ ".TW") code = Ok (h_name row).
Proof.
  unfold history_body, bind.
  destruct (history env _ _) as [hist | e]; [| discriminate].
  destruct hist as [| r rest]; [discriminate |].
  destruct (stock_name env _ code) as [nm | e]; [| discriminate].
  destruct (int_ _) as [v | e]; [| discriminate].
  intros H. inversion H; subst. reflexivity.
Qed.

(** C9, as the code has it.  When [stock.info] answers, the name is the entry
    of the manual table if the code is there; else twstock's name if the
    module is loaded and knows the code; else yfinance's [longName] if the
    provider has one; else the code itself.  Both row builders use it. *)
Theorem name_resolution_chain
  (env : Env) (ticker_symbol code : string) (longName : option string) :
  info_longName env ticker_symbol = Ok longName ->
  exists nm,
    stock_name env ticker_symbol code = Ok nm
    /\ (forall manual, dict_get code MANUAL_STOCK_NAMES = Some manual -> nm = manual)
    /\ (dict_get code MANUAL_STOCK_NAMES = None ->
        forall codes n,
          twstock env = Some codes -> dict_get code codes = Some n -> nm = n)
    /\ (dict_get code MANUAL_STOCK_NAMES = None ->
        twstock env = None \/
        (exists codes, twstock env = Some codes /\ dict_get code codes = None) ->
        (forall n, longName = Some n -> nm = n) /\ (longName = None -> nm = code)).
Proof.
  intros Hinfo. unfold stock_name, bind. rewrite Hinfo.
  eexists. split; [reflexivity |].
  destruct (dict_get code MANUAL_STOCK_NAMES) as [manual |] eqn:Hm.
  - repeat split; intros; try congruence; discriminate.
  - split; [intros; discriminate |].
    split.
    + intros _ codes n Htw Hc. now rewrite Htw, Hc.
    + intros _ [Htw | [codes [Htw Hc]]].
      * rewrite Htw. split; intros; subst; reflexivity.
      * rewrite Htw, Hc. split; intros; subst; reflexivity.
Qed.

Lemma name_resolution_chain_witness :
  exists nm,
    stock_name sample_env "2330.TW" "2330" = Ok nm
    /\ (forall manual,
          dict_get "2330" MANUAL_STOCK_NAMES = Some manual -> nm = manual).
Proof.
  destruct (name_resolution_chain sample_env "2330.TW" "2330" None eq_refl)
    as [nm [H1 [H2 _]]].
  exists nm. split; assumption.
Defined.

(** C9 as stated fails: with a code in no table and no twstock module the
    name is the provider's long name, not the code. *)
Lemma name_fallback_counterexample :
  dict_get "9999" MANUAL_STOCK_NAMES = None
  /\ twstock sample_env = None
  /\ stock_name sample_env "9999.TW" "9999" = Ok "Foo Holdings"
  /\ map q_name (fst (fst (get_stock_data sample_env ["9999"]))) = ["Foo Holdings"]
  /\ map h_name (fst (get_history_by_date sample_env tuesday_afternoon ["9999"]
                        (date_of tuesday_afternoon))) = ["Foo Holdings"]
  /\ "Foo Holdings" <> "9999".
Proof.
  repeat split; try (vm_compute; reflexivity). discriminate.
Qed.

(** ** get_stock_data *)

Lemma map_snd_enumerate {A : Type} (l : list A) : map snd (enumerate l) = l.
Proof.
  unfold enumerate.
  assert (H : forall (l : list A) (ks : list Z),
             List.length ks = List.length l -> map snd (combine ks l) = l).
  { clear l. induction l as [| a l IH]; intros [| k ks] Hlen; simpl in *;
      try reflexivity; try discriminate.
    f_equal. apply IH. lia. }
  apply H. now rewrite length_map, length_seq.
Qed.

Lemma get_stock_data_step_items (env : Env) (total : Z) (st : StockState)
  (ic : Z * string) :
  fst (fst (get_stock_data_step env total st ic))
  = fst (fst st) ++ map fst (quote_items env (snd ic))
  /\ snd (fst (get_stock_data_step env total st ic))
     = snd (fst st) ++ map snd (quote_items env (snd ic)).
Proof.
  destruct st as [[data_list valid_tickers] ui]. destruct ic as [i raw].
  unfold get_stock_data_step, quote_items. cbn [fst snd].
  destruct (String.eqb (strip raw) "").
  - cbn. now rewrite !app_nil_r.
  - destruct (quote_body env (strip raw)) as [[[row tk] |] | e]; cbn;
      now rewrite ?app_nil_r.
Qed.

Lemma get_stock_data_fold (env : Env) (total : Z) (ics : list (Z * string))
  (st : StockState) :
  fst (fst (fold_left (get_stock_data_step env total) ics st))
  = fst (fst st) ++ map fst (flat_map (quote_items env) (map snd ics))
  /\ snd (fst (fold_left (get_stock_data_step env total) ics st))
     = snd (fst st) ++ map snd (flat_map (quote_items env) (map snd ics)).
Proof.
  revert st. induction ics as [| ic ics IH]; intros st; cbn [fold_left map flat_map].
  - now rewrite !app_nil_r.
  - destruct (IH (get_stock_data_step env total st ic)) as [H1 H2].
    destruct (get_stock_data_step_items env total st ic) as [S1 S2].
    rewrite H1, H2, S1, S2, !map_app, !app_assoc. auto.
Qed.

(** The rows and the tickers of [get_stock_data], entry by entry. *)
Lemma get_stock_data_items (env : Env) (stock_list : list string) :
  fst (fst (get_stock_data env stock_list))
  = map fst (flat_map (quote_items env) stock_list)
  /\ snd (fst (get_stock_data env stock_list))
     = map snd (flat_map (quote_items env) stock_list).
Proof.
  unfold get_stock_data.
  pose proof (get_stock_data_fold env (Z.of_nat (List.length stock_list))
                (enumerate stock_list) ([], [], [Progress zero])) as H.
  rewrite map_snd_enumerate in H.
  destruct (fold_left _ _ _) as [[d v] ui]. exact H.
Qed.



(** ** Lookups in tables *)

Lemma find_key_in {A : Type} (l : list (Z * A)) (t : Z) :
  In t (map fst l) -> exists r, find (fun r => fst r =? t) l = Some r /\ fst r = t /\ In r l.
Proof.
  induction l as [| x l IH]; simpl; [contradiction |].
  intros [E | Hin].
  - exists x. rewrite E, Z.eqb_refl. auto.
  - destruct (Z.eqb_spec (fst x) t) as [E | N].
    + exists x. auto.
    + destruct (IH Hin) as [r [H1 [H2 H3]]]. exists r. auto.
Qed.

Lemma find_key_none {A : Type} (l : list (Z * A)) (t : Z) :
  ~ In t (map fst l) -> find (fun r => fst r =? t) l = None.
Proof.
  induction l as [| x l IH]; simpl; [reflexivity |].
  intros H. destruct (Z.eqb_spec (fst x) t) as [E | N].
  - exfalso. apply H. now left.
  - apply IH. intros Hin. apply H. now right.
Qed.

Lemma find_key_some {A : Type} (l : list (Z * A)) (t : Z) (r : Z * A) :
  find (fun r => fst r =? t) l = Some r -> fst r = t /\ In r l.
Proof.
  intros H. apply find_some in H. destruct H as [H1 H2].
  apply Z.eqb_eq in H2. auto.
Qed.

Lemma value_at_none (pts : list (Timestamp * float)) (t : Timestamp) :
  ~ In t (map fst pts) -> value_at pts t = nan.
Proof. intros H. unfold value_at. now rewrite find_key_none. Qed.

Lemma find_key_map {A B : Type} (g : Z * A -> B) (l : list (Z * A)) (t : Z) :
  find (fun r => fst r =? t) (map (fun r => (fst r, g r)) l)
  = match find (fun r => fst r =? t) l with
    | Some r => Some (fst r, g r)
    | None => None
    end.
Proof.
  induction l as [| x l IH]; simpl; [reflexivity |].
  destruct (fst x =? t); [reflexivity | exact IH].
Qed.

Lemma cell_find (T : DataFrame Timestamp) (j : nat) (t : Timestamp) :
  cell T j t = match find (fun r => fst r =? t) (rows T) with
               | Some r => nth j (snd r) nan
               | None => nan
               end.
Proof.
  unfold cell, value_at, column. rewrite find_key_map.
  now destruct (find (fun r => fst r =? t) (rows T)).
Qed.

Lemma find_key_tabulate {B : Type} (h : Z -> B) (idx : list Z) (t : Z) :
  find (fun r => fst r =? t) (map (fun x => (x, h x)) idx)
  = if existsb (Z.eqb t) idx then Some (t, h t) else None.
Proof.
  induction idx as [| x idx IH]; simpl; [reflexivity |].
  rewrite (Z.eqb_sym t x).
  destruct (Z.eqb_spec x t) as [E | N]; simpl; [now subst | exact IH].
Qed.

Lemma existsb_eqb_in (t : Z) (l : list Z) :
  existsb (Z.eqb t) l = true <-> In t l.
Proof.
  rewrite existsb_exists. split.
  - intros [x [Hin E]]. apply Z.eqb_eq in E. now subst.
  - intros Hin. exists t. split; [exact Hin | apply Z.eqb_refl].
Qed.

(** ** Sorting the index *)

Lemma insert_uniq_in (t x : Z) (l : list Z) :
  In x (insert_uniq t l) <-> x = t \/ In x l.
Proof.
  induction l as [| y l IH]; simpl.
  - intuition.
  - destruct (Z.ltb_spec t y); simpl; [intuition |].
    destruct (Z.eqb_spec t y); simpl.
    + subst. intuition.
    + rewrite IH. intuition.
Qed.

Lemma sort_uniq_in (x : Z) (l : list Z) : In x (sort_uniq l) <-> In x l.
Proof.
  induction l as [| y l IH]; simpl; [reflexivity |].
  rewrite insert_uniq_in, IH. intuition.
Qed.

Lemma insert_uniq_sorted (t : Z) (l : list Z) :
  StronglySorted Z.lt l -> StronglySorted Z.lt (insert_uniq t l).
Proof.
  induction l as [| y l IH]; simpl; intros Hs.
  - repeat constructor.
  - inversion Hs as [| ? ? Hl Hy]; subst.
    destruct (Z.ltb_spec t y).
    + constructor; [exact Hs |].
      constructor; [assumption |].
      eapply Forall_impl; [| exact Hy]. simpl. intros; lia.
    + destruct (Z.eqb_spec t y); [exact Hs |].
      constructor; [now apply IH |].
      apply Forall_forall. intros x Hx. apply insert_uniq_in in Hx.
      destruct Hx as [-> | Hx]; [lia |].
      rewrite Forall_forall in Hy. now apply Hy.
Qed.

Lemma sort_uniq_sorted (l : list Z) : StronglySorted Z.lt (sort_uniq l).
Proof.
  induction l as [| y l IH]; simpl; [constructor | now apply insert_uniq_sorted].
Qed.

Lemma sorted_lt_nodup (l : list Z) : StronglySorted Z.lt l -> NoDup l.
Proof.
  induction 1 as [| a l Hs IH Ha]; constructor; [| exact IH].
  intros Hin. rewrite Forall_forall in Ha. specialize (Ha _ Hin). lia.
Qed.


(** A stable sort does not change which row a label finds first. *)
Lemma insert_row_find {A : Type} (r : Z * A) (l : list (Z * A)) (t : Z) :
  find (fun x => fst x =? t) (insert_row r l)
  = find (fun x => fst x =? t) (r :: l).
Proof.
  induction l as [| y l IH]; [reflexivity |].
  cbn [insert_row]. destruct (Z.leb_spec (fst r) (fst y)); [reflexivity |].
  cbn [find] in *. rewrite IH.
  destruct (Z.eqb_spec (fst y) t), (Z.eqb_spec (fst r) t); try reflexivity. lia.
Qed.

Lemma sort_rows_find {A : Type} (l : list (Z * A)) (t : Z) :
  find (fun x => fst x =? t) (sort_rows l) = find (fun x => fst x =? t) l.
Proof.
  induction l as [| r l IH]; [reflexivity |].
  cbn [sort_rows fold_right]. fold (sort_rows l). rewrite insert_row_find.
  cbn [find]. now rewrite IH.
Qed.

Lemma sort_index_cell (T : DataFrame Timestamp) (j : nat) (t : Timestamp) :
  cell (sort_index T) j t = cell T j t.
Proof. rewrite !cell_find. unfold sort_index. cbn [rows]. now rewrite sort_rows_find. Qed.

Lemma insert_row_perm {A : Type} (r : Z * A) (l : list (Z * A)) :
  Permutation (insert_row r l) (r :: l).
Proof.
  induction l as [| y l IH]; [reflexivity |].
  cbn [insert_row]. destruct (fst r <=? fst y); [reflexivity |].
  rewrite IH. apply perm_swap.
Qed.

Lemma sort_rows_perm {A : Type} (l : list (Z * A)) : Permutation (sort_rows l) l.
Proof.
  induction l as [| r l IH]; [reflexivity |].
  cbn [sort_rows fold_right]. fold (sort_rows l).
  rewrite insert_row_perm. now constructor.
Qed.

Lemma insert_row_sorted {A : Type} (r : Z * A) (l : list (Z * A)) :
  StronglySorted Z.le (map fst l) -> StronglySorted Z.le (map fst (insert_row r l)).
Proof.
  induction l as [| y l IH]; cbn [insert_row map]; intros Hs.
  - repeat constructor.
  - inversion Hs as [| ? ? Hl Hy]; subst.
    destruct (Z.leb_spec (fst r) (fst y)); cbn [map].
    + constructor; [exact Hs |].
      constructor; [assumption |].
      eapply Forall_impl; [| exact Hy]. simpl. intros; lia.
    + constructor; [now apply IH |].
      apply Forall_forall. intros x Hx.
      apply in_map_iff in Hx. destruct Hx as [z [<- Hz]].
      apply (Permutation_in _ (insert_row_perm r l)) in Hz.
      destruct Hz as [<- | Hz]; [lia |].
      rewrite Forall_forall in Hy. apply Hy. now apply in_map.
Qed.

(** [sort_index] leaves the labels in ascending order. *)
Lemma sort_rows_sorted {A : Type} (l : list (Z * A)) :
  StronglySorted Z.le (map fst (sort_rows l)).
Proof.
  induction l as [| r l IH]; [constructor |].
  cbn [sort_rows fold_right]. fold (sort_rows l). now apply insert_row_sorted.
Qed.

(** Rows whose labels already ascend stay as they are. *)
Lemma sort_rows_id {A : Type} (l : list (Z * A)) :
  StronglySorted Z.lt (map fst l) -> sort_rows l = l.
Proof.
  induction l as [| r l IH]; [reflexivity |].
  cbn [map]. intros Hs. inversion Hs as [| ? ? Hl Hr]; subst.
  cbn [sort_rows fold_right]. fold (sort_rows l). rewrite (IH Hl).
  destruct l as [| y l]; [reflexivity |].
  cbn [insert_row]. inversion Hr; subst.
  destruct (Z.leb_spec (fst r) (fst y)); [reflexivity | lia].
Qed.
(** ** Tables as lists of series *)

Lemma represents_empty : Represents empty_frame [].
Proof.
  constructor; cbn.
  - reflexivity.
  - constructor.
  - intros [| j] s H; discriminate.
  - intros t. split; [contradiction | intros [s [[] _]]].
  - constructor.
Qed.

Lemma value_at_pairs (pts : list (Timestamp * float)) (t : Timestamp) :
  value_at (map (fun r : Timestamp * list float => (fst r, nth 0 (snd r) nan))
              (map (fun p : Timestamp * float => (fst p, [snd p])) pts)) t
  = value_at pts t.
Proof.
  rewrite map_map. cbn [fst snd nth].
  unfold value_at. rewrite (find_key_map (fun p => snd p)).
  now destruct (find (fun r => fst r =? t) pts).
Qed.

Lemma represents_of_series (s : Series) :
  points s <> [] -> Represents (of_series s) [s].
Proof.
  intros Hne. constructor; cbn.
  - reflexivity.
  - apply Forall_forall. intros r Hr. apply in_map_iff in Hr.
    destruct Hr as [p [<- _]]. reflexivity.
  - intros [| j] s0 H t; cbn in H.
    + inversion H; subst. unfold cell, column, of_series. cbn [rows].
      apply value_at_pairs.
    + destruct j; discriminate.
  - intros t. unfold index, of_series. cbn [rows]. rewrite map_map. cbn [fst].
    split.
    + intros H. exists s. split; [now left | exact H].
    + intros [s0 [[<- | []] H]]. exact H.
  - constructor; [exact Hne | constructor].
Qed.

Lemma row_at_length (T : DataFrame Timestamp) (ss : list Series) (t : Timestamp) :
  Represents T ss -> List.length (row_at T t) = List.length ss.
Proof.
  intros R. unfold row_at.
  destruct (find (fun r => fst r =? t) (rows T)) as [r |] eqn:Hf.
  - apply find_key_some in Hf. destruct Hf as [_ Hin].
    pose proof (rep_width _ _ R) as W. rewrite Forall_forall in W. now apply W.
  - rewrite repeat_length, (rep_columns _ _ R). apply length_map.
Qed.

Lemma row_at_nth (T : DataFrame Timestamp) (j : nat) (t : Timestamp) :
  nth j (row_at T t) nan = cell T j t.
Proof.
  rewrite cell_find. unfold row_at.
  destruct (find (fun r => fst r =? t) (rows T)); [reflexivity | apply nth_repeat].
Qed.

Lemma cell_absent (T : DataFrame Timestamp) (j : nat) (t : Timestamp) :
  ~ In t (index T) -> cell T j t = nan.
Proof. intros H. rewrite cell_find, find_key_none; [reflexivity | exact H]. Qed.

Lemma join_outer_cell (T : DataFrame Timestamp) (s : Series) (j : nat) (t : Timestamp) :
  cell {| columns := columns T ++ [name s];
          rows := map (fun x => (x, row_at T x ++ [value_at (points s) x]))
                    (sort_uniq (index T ++ map fst (points s))) |} j t
  = if existsb (Z.eqb t) (sort_uniq (index T ++ map fst (points s)))
    then nth j (row_at T t ++ [value_at (points s) t]) nan
    else nan.
Proof.
  rewrite cell_find. cbn [rows].
  rewrite (find_key_tabulate (fun x => row_at T x ++ [value_at (points s) x])).
  now destruct (existsb _ _).
Qed.

Lemma represents_join (T : DataFrame Timestamp) (ss : list Series) (s : Series) :
  Represents T ss -> points s <> [] -> ~ In (name s) (columns T) ->
  exists T', join_outer T s = Ok T' /\ Represents T' (ss ++ [s]).
Proof.
  intros R Hne Hfresh. unfold join_outer.
  destruct (existsb (String.eqb (name s)) (columns T)) eqn:Hex.
  - exfalso. apply existsb_exists in Hex. destruct Hex as [c [Hc E]].
    apply String.eqb_eq in E. subst c. contradiction.
  - eexists. split; [reflexivity |].
    set (idx := sort_uniq (index T ++ map fst (points s))).
    constructor; cbn [columns rows].
    + rewrite map_app, (rep_columns _ _ R). reflexivity.
    + apply Forall_forall. intros r Hr. apply in_map_iff in Hr.
      destruct Hr as [x [<- _]]. cbn [snd].
      rewrite !length_app, (row_at_length _ _ _ R). reflexivity.
    + intros j s0 Hj t. rewrite join_outer_cell. fold idx.
      destruct (Nat.lt_ge_cases j (List.length ss)) as [Hlt | Hge].
      * rewrite nth_error_app1 in Hj by exact Hlt.
        rewrite <- (rep_cell _ _ R j s0 Hj t).
        destruct (existsb (Z.eqb t) idx) eqn:Hin.
        -- rewrite app_nth1 by (now rewrite (row_at_length _ _ _ R)).
           apply row_at_nth.
        -- symmetry. apply cell_absent. intros Hi.
           assert (In t idx) by (apply sort_uniq_in, in_or_app; now left).
           apply existsb_eqb_in in H. congruence.
      * rewrite nth_error_app2 in Hj by exact Hge.
        destruct (j - List.length ss)%nat as [| k] eqn:Hk; cbn in Hj;
          [| destruct k; discriminate].
        inversion Hj; subst s0.
        destruct (existsb (Z.eqb t) idx) eqn:Hin.
        -- rewrite app_nth2 by (rewrite (row_at_length _ _ _ R); lia).
           rewrite (row_at_length _ _ _ R), Hk. reflexivity.
        -- symmetry. apply value_at_none. intros Hi.
           assert (In t idx) by (apply sort_uniq_in, in_or_app; now right).
           apply existsb_eqb_in in H. congruence.
    + intros t. unfold index. cbn [rows]. rewrite map_map. cbn [fst]. rewrite map_id.
      fold idx. unfold idx. rewrite sort_uniq_in, in_app_iff, (rep_index _ _ R).
      split.
      * intros [[s0 [H1 H2]] | H].
        -- exists s0. split; [apply in_or_app; now left | exact H2].
        -- exists s. split; [apply in_or_app; right; now left | exact H].
      * intros [s0 [H1 H2]]. apply in_app_or in H1.
        destruct H1 as [H1 | [<- | []]]; [left; eauto | now right].
    + apply Forall_app. split; [apply (rep_points _ _ R) | now constructor].
Qed.

Lemma join_outer_raises (T : DataFrame Timestamp) (s : Series) :
  In (name s) (columns T) -> exists e, join_outer T s = Raise e.
Proof.
  intros Hin. unfold join_outer.
  destruct (existsb (String.eqb (name s)) (columns T)) eqn:Hex; [eauto |].
  exfalso. assert (existsb (String.eqb (name s)) (columns T) = true).
  { apply existsb_exists. exists (name s). split; [exact Hin | apply String.eqb_refl]. }
  congruence.
Qed.

Lemma represents_df_empty (T : DataFrame Timestamp) (ss : list Series) :
  Represents T ss -> df_empty T = true <-> ss = [].
Proof.
  intros R. split.
  - intros He. destruct ss as [| s ss]; [reflexivity | exfalso].
    pose proof (rep_points _ _ R) as P. inversion P as [| ? ? Hs _]; subst.
    destruct (points s) as [| p pts] eqn:Hp; [contradiction |].
    assert (Hin : In (fst p) (index T)).
    { apply (rep_index _ _ R). exists s. split; [now left |]. rewrite Hp. now left. }
    unfold df_empty, index in *. rewrite (rep_columns _ _ R) in He.
    destruct (rows T); [contradiction | discriminate].
  - intros ->. unfold df_empty. rewrite (rep_columns _ _ R).
    now destruct (rows T).
Qed.

(** One turn of a merging loop either leaves the table or appends the
    ticker's series as a new column. *)
Lemma merge_step_represents (f : Ticker -> option Series)
  (T : DataFrame Timestamp) (ss : list Series) (tk : Ticker) :
  (forall k s, f k = Some s -> points s <> []) ->
  Represents T ss ->
  (merge_step f T tk = T /\
   (f tk = None \/ exists s, f tk = Some s /\ In (name s) (map name ss)))
  \/ (exists s, f tk = Some s /\ ~ In (name s) (map name ss)
                /\ Represents (merge_step f T tk) (ss ++ [s])).
Proof.
  intros Hf R. unfold merge_step.
  destruct (f tk) as [s |] eqn:Hs; [| left; auto].
  unfold add_series.
  destruct (df_empty T) eqn:He.
  - apply (represents_df_empty _ _ R) in He. subst ss.
    right. exists s. split; [reflexivity |]. split; [intros [] |].
    apply represents_of_series. eauto.
  - destruct (in_dec string_dec (name s) (columns T)) as [Hin | Hnin].
    + destruct (join_outer_raises T s Hin) as [e ->].
      left. split; [reflexivity |]. right. exists s.
      now rewrite <- (rep_columns _ _ R).
    + destruct (represents_join T ss s R (Hf _ _ Hs) Hnin) as [T' [-> R']].
      right. exists s. split; [reflexivity |]. split; [| exact R'].
      now rewrite <- (rep_columns _ _ R).
Qed.

Lemma represents_prefix_cell (T : DataFrame Timestamp) (ss ss' : list Series)
  (j : nat) (s : Series) (t : Timestamp) :
  Represents T (ss ++ ss') -> nth_error ss j = Some s ->
  nth_error (columns T) j = Some (name s) /\ cell T j t = value_at (points s) t.
Proof.
  intros R Hj.
  assert (Hj' : nth_error (ss ++ ss') j = Some s).
  { rewrite nth_error_app1; [exact Hj |]. apply nth_error_Some. congruence. }
  split.
  - rewrite (rep_columns _ _ R). now apply map_nth_error.
  - now apply (rep_cell _ _ R).
Qed.

Lemma merge_fold_represents (f : Ticker -> option Series) (vt : list Ticker) :
  (forall k s, f k = Some s -> points s <> []) ->
  forall (T : DataFrame Timestamp) (ss : list Series),
    Represents T ss ->
    exists ss',
      Represents (fold_left (merge_step f) vt T) (ss ++ ss')
      /\ Forall (fun s => exists tk, In tk vt /\ f tk = Some s) ss'.
Proof.
  intros Hf. induction vt as [| tk vt IH]; intros T ss R; cbn [fold_left].
  - exists []. rewrite app_nil_r. split; [exact R | constructor].
  - destruct (merge_step_represents f T ss tk Hf R) as [[E _] | [s [Hs [_ R']]]].
    + rewrite E. destruct (IH T ss R) as [ss' [R' F]].
      exists ss'. split; [exact R' |].
      eapply Forall_impl; [| exact F]. intros s [k [Hk Hs]]. exists k. split; [now right | exact Hs].
    + destruct (IH _ _ R') as [ss' [R'' F]].
      exists (s :: ss'). rewrite <- app_assoc in R''. split; [exact R'' |].
      constructor; [exists tk; split; [now left | exact Hs] |].
      eapply Forall_impl; [| exact F]. intros s0 [k [Hk Hs0]]. exists k. split; [now right | exact Hs0].
Qed.


(** ** The weekly and monthly loops as merging loops *)

Lemma weekly_step_eq (env : Env) (start_date : date)
  (T : DataFrame Timestamp) (tk : Ticker) :
  try_pass (weekly_body env start_date) T tk
  = merge_step (weekly_series env start_date) T tk.
Proof.
  destruct tk as [[code symbol] nm].
  unfold try_pass, weekly_body, merge_step, weekly_series, bind. cbn [fst snd].
  destruct (history env symbol (Start start_date)) as [[| b bars] | e]; reflexivity.
Qed.

Lemma monthly_step_eq (env : Env) (start_date : date)
  (T : DataFrame Timestamp) (tk : Ticker) :
  try_pass (monthly_body env start_date) T tk
  = merge_step (monthly_series env start_date) T tk.
Proof.
  destruct tk as [[code symbol] nm].
  unfold try_pass, monthly_body, merge_step, monthly_series, bind. cbn [fst snd].
  destruct (history env symbol (Start start_date)) as [[| b bars] | e]; try reflexivity.
  destruct (ltb zero (Close b)); reflexivity.
Qed.

Lemma fold_left_ext {A B : Type} (f g : A -> B -> A) (l : list B) (a : A) :
  (forall x y, f x y = g x y) -> fold_left f l a = fold_left g l a.
Proof.
  intros H. revert a. induction l as [| y l IH]; intros a; cbn; [reflexivity |].
  now rewrite H, IH.
Qed.

Lemma weekly_trend_data_merge (env : Env) (now : Timestamp) (vt : list Ticker) :
  weekly_trend_data env now vt
  = fold_left (merge_step (weekly_series env (date_of now - weekday (date_of now))))
      vt empty_frame.
Proof. unfold weekly_trend_data. apply fold_left_ext. apply weekly_step_eq. Qed.

Lemma monthly_trend_data_merge (env : Env) (now : Timestamp) (vt : list Ticker) :
  monthly_trend_data env now vt
  = fold_left (merge_step (monthly_series env
                             (date_of now - (day_of_date (date_of now) - 1))))
      vt empty_frame.
Proof. unfold monthly_trend_data. apply fold_left_ext. apply monthly_step_eq. Qed.

Lemma weekly_series_points (env : Env) (start_date : date) (tk : Ticker) (s : Series) :
  weekly_series env start_date tk = Some s -> points s <> [].
Proof.
  unfold weekly_series.
  destruct (history env _ _) as [[| b bars] | e]; try discriminate.
  intros H. inversion H. cbn. discriminate.
Qed.

Lemma monthly_series_points (env : Env) (start_date : date) (tk : Ticker) (s : Series) :
  monthly_series env start_date tk = Some s -> points s <> [].
Proof.
  unfold monthly_series.
  destruct (history env _ _) as [[| b bars] | e]; try discriminate.
  destruct (ltb zero (Close b)); try discriminate.
  intros H. inversion H. cbn. discriminate.
Qed.

(** The rows of the final weekly table: the sorted rows under their labels. *)
Lemma merged_rows_sorted (T : DataFrame Timestamp) (ss : list Series) :
  Represents T ss ->
  rows (if df_empty T then T else sort_index T) = sort_rows (rows T).
Proof.
  intros R. destruct (df_empty T) eqn:He; [| reflexivity].
  apply (represents_df_empty _ _ R) in He. subst ss.
  destruct (rows T) as [| r rs] eqn:Hr; [reflexivity | exfalso].
  assert (Hin : In (fst r) (index T)) by (unfold index; rewrite Hr; now left).
  apply (rep_index _ _ R) in Hin. destruct Hin as [s [[] _]].
Qed.

(** ** The two points of a daily bar *)

Lemma weekly_points_length (df : list Bar) :
  List.length (weekly_points df) = (2 * List.length df)%nat.
Proof.
  unfold weekly_points. induction df as [| b df IH]; cbn; [reflexivity |].
  cbn in IH. rewrite IH. lia.
Qed.

Lemma weekly_points_nth (df : list Bar) (i : nat) (b : Bar) :
  nth_error df i = Some b ->
  nth_error (weekly_points df) (2 * i) = Some (bar_ts b + timedelta 9 0, Open b)
  /\ nth_error (weekly_points df) (2 * i + 1) = Some (bar_ts b + timedelta 13 30, Close b).
Proof.
  revert i. induction df as [| x df IH]; intros i Hi.
  - destruct i; discriminate.
  - destruct i as [| i].
    + cbn in Hi. inversion Hi; subst. cbn. auto.
    + cbn in Hi. destruct (IH i Hi) as [H1 H2].
      replace (2 * S i)%nat with (S (S (2 * i))) by lia.
      replace (S (S (2 * i)) + 1)%nat with (S (S (2 * i + 1))) by lia.
      cbn [weekly_points flat_map app nth_error]. auto.
Qed.

Lemma session_tags (t : Timestamp) :
  second_of_day t = 0 ->
  strftime_HM (t + timedelta 9 0) = "09:00"
  /\ strftime_HM (t + timedelta 13 30) = "13:30"
  /\ date_of (t + timedelta 9 0) = date_of t
  /\ date_of (t + timedelta 13 30) = date_of t.
Proof.
  unfold second_of_day, day_seconds. intros H0.
  assert (H9 : second_of_day (t + timedelta 9 0) = 32400).
  { unfold second_of_day, day_seconds, timedelta.
    Z.to_euclidean_division_equations; lia. }
  assert (H13 : second_of_day (t + timedelta 13 30) = 48600).
  { unfold second_of_day, day_seconds, timedelta.
    Z.to_euclidean_division_equations; lia. }
  repeat split.
  - unfold strftime_HM, hour_of, minute_of. rewrite H9. reflexivity.
  - unfold strftime_HM, hour_of, minute_of. rewrite H13. reflexivity.
  - unfold date_of, day_seconds, timedelta. Z.to_euclidean_division_equations; lia.
  - unfold date_of, day_seconds, timedelta. Z.to_euclidean_division_equations; lia.
Qed.

Lemma cum_return_labels (pts : list (Timestamp * float)) :
  map fst (cum_return pts) = map fst pts.
Proof.
  unfold cum_return. destruct pts as [| p0 pts]; [reflexivity |].
  rewrite map_map. reflexivity.
Qed.

Lemma weekly_series_origin (env : Env) (start_date : date) (tk : Ticker) (s : Series) :
  weekly_series env start_date tk = Some s ->
  exists b bars,
    history env (snd (fst tk)) (Start start_date) = Ok (b :: bars)
    /\ name s = column_name (fst (fst tk)) (snd tk)
    /\ points s = cum_return (weekly_points (b :: bars)).
Proof.
  unfold weekly_series.
  destruct (history env _ _) as [[| b bars] | e]; try discriminate.
  intros H. inversion H. exists b, bars. auto.
Qed.

Lemma get_weekly_trend_rows (env : Env) (now : Timestamp) (vt : list Ticker) :
  rows (get_weekly_trend env now vt)
  = map (fun r => (weekly_label (fst r), snd r))
      (sort_rows (rows (weekly_trend_data env now vt))).
Proof.
  destruct (merge_fold_represents _ vt
              (weekly_series_points env (date_of now - weekday (date_of now)))
              empty_frame [] represents_empty) as [ss [R _]].
  rewrite <- weekly_trend_data_merge in R.
  rewrite <- (merged_rows_sorted _ _ R).
  unfold get_weekly_trend.
  now destruct (df_empty (weekly_trend_data env now vt)).
Qed.

(** The merging loop ends with exactly the series of [merged_series]. *)
Lemma merge_fold_exact (f : Ticker -> option Series) (vt : list Ticker) :
  (forall k s, f k = Some s -> points s <> []) ->
  forall (T : DataFrame Timestamp) (ss : list Series),
    Represents T ss ->
    Represents (fold_left (merge_step f) vt T)
      (ss ++ merged_series f (map name ss) vt).
Proof.
  intros Hf. induction vt as [| tk vt IH]; intros T ss R; cbn [fold_left merged_series].
  - now rewrite app_nil_r.
  - destruct (merge_step_represents f T ss tk Hf R)
      as [[E [Hn | [s [Hs Hin]]]] | [s [Hs [Hn R']]]].
    + rewrite E, Hn. now apply IH.
    + rewrite E, Hs.
      assert (Hex : existsb (String.eqb (name s)) (map name ss) = true).
      { apply existsb_exists. exists (name s). split; [exact Hin | apply String.eqb_refl]. }
      rewrite Hex. now apply IH.
    + rewrite Hs.
      assert (Hex : existsb (String.eqb (name s)) (map name ss) = false).
      { destruct (existsb (String.eqb (name s)) (map name ss)) eqn:E; [| reflexivity].
        exfalso. apply Hn. apply existsb_exists in E. destruct E as [x [Hx Hxe]].
        apply String.eqb_eq in Hxe. now subst x. }
      rewrite Hex. specialize (IH _ _ R').
      rewrite map_app in IH. cbn [map] in IH. now rewrite <- app_assoc in IH.
Qed.

(** A ticker whose name no earlier series carries has its series merged. *)
Lemma merged_series_fresh (f : Ticker -> option Series) (l1 l2 : list Ticker)
  (tk : Ticker) (s : Series) :
  f tk = Some s ->
  (forall k s', In k l1 -> f k = Some s' -> name s' <> name s) ->
  forall seen, ~ In (name s) seen ->
    In s (merged_series f seen (l1 ++ tk :: l2)).
Proof.
  intros Hs. induction l1 as [| k l1 IH]; intros Hfresh seen Hseen; cbn [app merged_series].
  - rewrite Hs.
    destruct (existsb (String.eqb (name s)) seen) eqn:E; [| now left].
    exfalso. apply Hseen. apply existsb_exists in E. destruct E as [x [Hx Hxe]].
    apply String.eqb_eq in Hxe. now subst x.
  - assert (Hrest : forall k' s', In k' l1 -> f k' = Some s' -> name s' <> name s)
      by (intros k' s' Hk'; apply Hfresh; now right).
    destruct (f k) as [s' |] eqn:Hk; [| now apply IH].
    destruct (existsb (String.eqb (name s')) seen); [now apply IH |].
    right. apply IH; [exact Hrest |].
    intros Hin. apply in_app_or in Hin. destruct Hin as [Hin | [E | []]];
      [now apply Hseen |].
    apply (Hfresh k s' (or_introl eq_refl) Hk). exact E.
Qed.

Lemma merged_series_origin (f : Ticker -> option Series) (vt : list Ticker) :
  forall seen s, In s (merged_series f seen vt) -> exists tk, In tk vt /\ f tk = Some s.
Proof.
  induction vt as [| k vt IH]; intros seen s Hin; cbn [merged_series] in Hin;
    [destruct Hin |].
  destruct (f k) as [s' |] eqn:Hk.
  - destruct (existsb (String.eqb (name s')) seen).
    + destruct (IH _ _ Hin) as [tk [H1 H2]]. exists tk. split; [now right | exact H2].
    + destruct Hin as [E | Hin].
      * subst s'. exists k. split; [now left | exact Hk].
      * destruct (IH _ _ Hin) as [tk [H1 H2]]. exists tk. split; [now right | exact H2].
  - destruct (IH _ _ Hin) as [tk [H1 H2]]. exists tk. split; [now right | exact H2].
Qed.

(** C7.  Every daily bar gives two points, its open at 09:00 and its close
    at 13:30 of the bar's day, in this order.  The weekly table has exactly
    one column for each ticker with bars, in the order of the list, less the
    tickers whose column name an earlier column carries; the series of a
    column is the return of the ticker's points against its first point.
    The index is the union of the timestamps of the series, and a cell is the
    series' own value at that timestamp, NaN where the series has no point
    there.  Sorting and labelling the index keep the cells. *)
Theorem weekly_points_and_outer_join
  (env : Env) (now : Timestamp) (valid_tickers : list Ticker) :
  let monday := date_of now - weekday (date_of now) in
  let T := weekly_trend_data env now valid_tickers in
  let ss := merged_series (weekly_series env monday) [] valid_tickers in
  (forall df, List.length (weekly_points df) = (2 * List.length df)%nat)
  /\ (forall df i b,
        nth_error df i = Some b ->
        nth_error (weekly_points df) (2 * i)
        = Some (bar_ts b + timedelta 9 0, Open b)
        /\ nth_error (weekly_points df) (2 * i + 1)
           = Some (bar_ts b + timedelta 13 30, Close b))
  /\ (forall b, second_of_day (bar_ts b) = 0 ->
        strftime_HM (bar_ts b + timedelta 9 0) = "09:00"
        /\ strftime_HM (bar_ts b + timedelta 13 30) = "13:30"
        /\ date_of (bar_ts b + timedelta 9 0) = date_of (bar_ts b)
        /\ date_of (bar_ts b + timedelta 13 30) = date_of (bar_ts b))
  /\ columns T = map name ss
  /\ columns (get_weekly_trend env now valid_tickers) = map name ss
  /\ Forall (fun s => exists tk b bars,
               In tk valid_tickers
               /\ history env (snd (fst tk)) (Start monday) = Ok (b :: bars)
               /\ name s = column_name (fst (fst tk)) (snd tk)
               /\ points s = cum_return (weekly_points (b :: bars))) ss
  /\ (forall l1 l2 code symbol nm b bars,
        valid_tickers = l1 ++ (code, symbol, nm) :: l2 ->
        history env symbol (Start monday) = Ok (b :: bars) ->
        (forall k, In k l1 ->
           column_name (fst (fst k)) (snd k) <> column_name code nm) ->
        In {| name := column_name code nm;
              points := cum_return (weekly_points (b :: bars)) |} ss)
  /\ (forall t, In t (index T) <->
                exists s, In s ss /\ In t (map fst (points s)))
  /\ (forall j s t, nth_error ss j = Some s ->
                    cell (sort_index T) j t = value_at (points s) t)
  /\ (forall j s t, nth_error ss j = Some s ->
                    ~ In t (map fst (points s)) ->
                    cell (sort_index T) j t = nan)
  /\ rows (get_weekly_trend env now valid_tickers)
     = map (fun r => (weekly_label (fst r), snd r)) (sort_rows (rows T))
  /\ (forall t, In t (index T) ->
        exists cells,
          In (weekly_label t, cells) (rows (get_weekly_trend env now valid_tickers))
          /\ List.length cells = List.length ss
          /\ forall j s, nth_error ss j = Some s ->
                         nth j cells nan = value_at (points s) t).
Proof.
  intros monday T ss.
  split; [apply weekly_points_length |].
  split; [apply weekly_points_nth |].
  split; [intros b; apply session_tags |].
  pose proof (merge_fold_exact _ valid_tickers (weekly_series_points env monday)
                empty_frame [] represents_empty) as R.
  unfold monday in R. rewrite <- weekly_trend_data_merge in R. fold T in R.
  cbn [app map] in R. fold monday in R. fold ss in R.
  split; [apply (rep_columns _ _ R) |].
  split.
  { rewrite <- (rep_columns _ _ R). unfold get_weekly_trend, T.
    now destruct (df_empty (weekly_trend_data env now valid_tickers)). }
  split.
  { apply Forall_forall. intros s Hs.
    destruct (merged_series_origin _ _ _ _ Hs) as [tk [Hin Hw]].
    destruct (weekly_series_origin _ _ _ _ Hw) as [b [bars [H1 [H2 H3]]]].
    exists tk, b, bars. auto. }
  split.
  { intros l1 l2 code symbol nm b bars Hvt Hh Hfresh. unfold ss. rewrite Hvt.
    apply merged_series_fresh.
    - unfold weekly_series. cbn [fst snd]. now rewrite Hh.
    - intros k s' Hk Hs'.
      destruct (weekly_series_origin _ _ _ _ Hs') as [b' [bars' [_ [Hn _]]]].
      rewrite Hn. cbn [name]. now apply Hfresh.
    - intros []. }
  split; [apply (rep_index _ _ R) |].
  assert (Hcell : forall j s t, nth_error ss j = Some s ->
                                cell (sort_index T) j t = value_at (points s) t).
  { intros j s t Hj. rewrite sort_index_cell. now apply (rep_cell _ _ R). }
  split; [exact Hcell |].
  split.
  { intros j s t Hj Hn. rewrite (Hcell j s t Hj). now apply value_at_none. }
  split; [apply get_weekly_trend_rows |].
  intros t Ht.
  assert (Hin : In t (map fst (sort_rows (rows T)))).
  { apply (Permutation_in t (Permutation_map fst (Permutation_sym (sort_rows_perm (rows T))))).
    exact Ht. }
  destruct (find_key_in _ _ Hin) as [r [Hf [Hkey Hr]]].
  exists (snd r). split; [| split].
  - rewrite get_weekly_trend_rows. apply in_map_iff. exists r.
    split; [| exact Hr]. apply f_equal2; [apply f_equal; exact Hkey | reflexivity].
  - pose proof (rep_width _ _ R) as W. rewrite Forall_forall in W. apply W.
    apply (Permutation_in r (sort_rows_perm (rows T))). exact Hr.
  - intros j s Hj. rewrite <- (Hcell j s t Hj), cell_find.
    change (rows (sort_index T)) with (sort_rows (rows T)). now rewrite Hf.
Qed.

Lemma weekly_points_and_outer_join_witness :
  columns (get_weekly_trend gap_env wednesday_afternoon gap_tickers)
  = ["G0 G0"; "G1 G1"]
  /\ cell (sort_index (weekly_trend_data gap_env wednesday_afternoon gap_tickers)) 1
       (dec2025 9 + timedelta 9 0) = nan
  /\ strftime_HM (bar_ts (sample_bar 9 (of_Z 50) (of_Z 55) 3) + timedelta 9 0) = "09:00".
Proof.
  destruct (weekly_points_and_outer_join gap_env wednesday_afternoon gap_tickers)
    as [_ [_ [Htag [_ [Hcols [_ [_ [_ [_ [Hnull _]]]]]]]]]].
  split; [rewrite Hcols; vm_compute; reflexivity |].
  split.
  - apply (Hnull 1%nat
             {| name := "G1 G1";
                points := cum_return
                            (weekly_points
                               [sample_bar 8 (of_Z 20) (of_Z 21) 1;
                                sample_bar 10 (of_Z 21) (of_Z 24) 1]) |}).
    + vm_compute. reflexivity.
    + vm_compute. intros H. repeat (destruct H as [H | H]; [discriminate |]). exact H.
  - exact (proj1 (Htag (sample_bar 9 (of_Z 50) (of_Z 55) 3) eq_refl)).
Defined.

(** ** The yearly table: index and stages *)

Lemma frame_of_dict_index (d : SeriesDict) :
  index (frame_of_dict d)
  = sort_uniq (List.concat (map (fun s => map fst (snd s)) d)).
Proof.
  unfold index, frame_of_dict. cbn [rows]. rewrite map_map. cbn [fst]. apply map_id.
Qed.

Lemma frame_of_dict_sorted (d : SeriesDict) :
  sort_index (frame_of_dict d) = frame_of_dict d.
Proof.
  pose proof (sort_uniq_sorted (List.concat (map (fun s => map fst (snd s)) d))) as H.
  rewrite <- frame_of_dict_index in H. unfold index in H.
  destruct (frame_of_dict d) as [c r]. unfold sort_index. cbn [columns rows] in *.
  now rewrite sort_rows_id.
Qed.

Lemma frame_of_dict_width (d : SeriesDict) :
  Forall (fun r => List.length (snd r) = List.length d) (rows (frame_of_dict d)).
Proof.
  apply Forall_forall. intros r Hr. unfold frame_of_dict in Hr. cbn [rows] in Hr.
  apply in_map_iff in Hr. destruct Hr as [t [<- _]]. cbn [snd]. apply length_map.
Qed.

Lemma ffill_rows_index {I : Type} (prev : list float) (rs : list (I * list float)) :
  map fst (ffill_rows prev rs) = map fst rs.
Proof.
  revert prev. induction rs as [| r rs IH]; intros prev; cbn; [reflexivity |].
  now rewrite IH.
Qed.

Lemma ffill_index {I : Type} (df : DataFrame I) : index (ffill df) = index df.
Proof. apply ffill_rows_index. Qed.

Lemma yearly_combined_index (d : SeriesDict) :
  index (yearly_combined d)
  = sort_uniq (List.concat (map (fun s => map fst (snd s)) d)).
Proof.
  unfold yearly_combined. now rewrite ffill_index, frame_of_dict_sorted, frame_of_dict_index.
Qed.

Lemma sorted_lt_map_filter {A : Type} (f : Z * A -> bool) (l : list (Z * A)) :
  StronglySorted Z.lt (map fst l) -> StronglySorted Z.lt (map fst (filter f l)).
Proof.
  induction l as [| r l IH]; cbn; intros Hs; [constructor |].
  inversion Hs as [| ? ? Hl Hr]; subst.
  destruct (f r); cbn; [| now apply IH].
  constructor; [now apply IH |].
  apply Forall_forall. intros x Hx. apply in_map_iff in Hx.
  destruct Hx as [y [<- Hy]]. apply filter_In in Hy.
  rewrite Forall_forall in Hr. apply Hr. apply in_map. tauto.
Qed.

Lemma yearly_filtered_sorted (vt : list Ticker) (d : SeriesDict) :
  StronglySorted Z.lt (index (yearly_filtered vt d)).
Proof.
  unfold yearly_filtered, coverage_filter, index. cbn [rows].
  apply sorted_lt_map_filter.
  change (StronglySorted Z.lt (index (yearly_combined d))).
  rewrite yearly_combined_index. apply sort_uniq_sorted.
Qed.

(** ** Month endpoints *)






Lemma endpoints_in (g : list Timestamp) (t : Timestamp) :
  In t (endpoints g) -> In t g.
Proof.
  unfold endpoints. destruct g as [| t0 g]; [intros [] |].
  assert (Hl : In (last (t0 :: g) t0) (t0 :: g)).
  { destruct (exists_last (l := t0 :: g)) as [l' [a E]]; [discriminate |].
    rewrite E, last_last. apply in_or_app. right. now left. }
  destruct (negb _); intros [<- | H]; try (now left);
    destruct H as [<- | []]; exact Hl.
Qed.

Lemma target_dates_in (idx : list Timestamp) (t : Timestamp) :
  In t (target_dates idx) -> In t idx.
Proof.
  unfold target_dates. intros H. apply in_flat_map in H.
  destruct H as [m [_ H]]. apply endpoints_in in H. apply filter_In in H. tauto.
Qed.

Lemma filter_key_single {A : Type} (l : list (Z * A)) (t : Z) :
  NoDup (map fst l) -> In t (map fst l) ->
  exists r, filter (fun r => fst r =? t) l = [r] /\ fst r = t.
Proof.
  induction l as [| x l IH]; cbn; intros Hnd Hin; [contradiction |].
  inversion Hnd as [| ? ? Hx Hnd']; subst.
  destruct (Z.eqb_spec (fst x) t) as [E | N].
  - exists x. split; [| exact E]. f_equal.
    assert (Hnone : ~ In t (map fst l)) by now rewrite <- E.
    clear - Hnone. induction l as [| y l IH]; cbn; [reflexivity |].
    destruct (Z.eqb_spec (fst y) t) as [E | N].
    + exfalso. apply Hnone. now left.
    + apply IH. intros H. apply Hnone. now right.
  - destruct Hin as [E | Hin]; [contradiction |]. now apply IH.
Qed.

Lemma loc_index (df : DataFrame Timestamp) (labels : list Timestamp) :
  NoDup (index df) -> (forall t, In t labels -> In t (index df)) ->
  index (loc df labels) = labels.
Proof.
  intros Hnd Hsub. unfold index, loc. cbn [rows].
  induction labels as [| t labels IH]; cbn [flat_map map]; [reflexivity |].
  rewrite map_app.
  destruct (filter_key_single (rows df) t Hnd) as [r [Hr E]].
  - apply Hsub. now left.
  - rewrite Hr. cbn [map app]. f_equal; [exact E |].
    apply IH. intros x Hx. apply Hsub. now right.
Qed.

Lemma loc_rows_in (df : DataFrame Timestamp) (labels : list Timestamp)
  (r : Timestamp * list float) :
  In r (rows (loc df labels)) -> In r (rows df).
Proof.
  unfold loc. cbn [rows]. intros H. apply in_flat_map in H.
  destruct H as [t [_ H]]. apply filter_In in H. tauto.
Qed.

Lemma yearly_final_index (vt : list Ticker) (d : SeriesDict) :
  index (yearly_final vt d) = target_dates (index (yearly_filtered vt d)).
Proof.
  unfold yearly_final. apply loc_index.
  - apply sorted_lt_nodup, yearly_filtered_sorted.
  - apply target_dates_in.
Qed.

Lemma ytd_frame_index (final_df : DataFrame Timestamp) :
  index (ytd_frame final_df)
  = match ytd_columns final_df with [] => [] | _ => index final_df end.
Proof.
  unfold ytd_frame, index.
  destruct (ytd_columns final_df); [reflexivity |].
  cbn [rows]. rewrite map_map. reflexivity.
Qed.

Lemma ytd_frame_columns (final_df : DataFrame Timestamp) :
  columns (ytd_frame final_df) = map (fun c => fst (fst c)) (ytd_columns final_df).
Proof. unfold ytd_frame. now destruct (ytd_columns final_df). Qed.


(** ** Forward fill *)

Lemma fill_row_nth (prev cur : list float) (j : nat) :
  (j < List.length cur)%nat ->
  nth j (fill_row prev cur) nan
  = if isna (nth j cur nan) then nth j prev nan else nth j cur nan.
Proof.
  revert prev j. induction cur as [| c cs IH]; intros prev j Hj; [cbn in Hj; lia |].
  destruct j as [| j]; cbn [fill_row nth].
  - destruct prev; reflexivity.
  - cbn in Hj. rewrite IH by lia. destruct prev; cbn [tl]; [| reflexivity].
    now destruct j.
Qed.

Lemma fill_row_length (prev cur : list float) :
  List.length (fill_row prev cur) = List.length cur.
Proof.
  revert prev. induction cur as [| c cs IH]; intros prev; cbn; [reflexivity |].
  now rewrite IH.
Qed.

Lemma column_values_eq {I : Type} (j : nat) (df : DataFrame I) :
  column_values j df = map (fun r => nth j (snd r) nan) (rows df).
Proof. unfold column_values, column. now rewrite map_map. Qed.

Lemma ffill_rows_column {I : Type} (j : nat) (prev : list float)
  (rs : list (I * list float)) :
  Forall (fun r => (j < List.length (snd r))%nat) rs ->
  map (fun r => nth j (snd r) nan) (ffill_rows prev rs)
  = ffill_col (nth j prev nan) (map (fun r => nth j (snd r) nan) rs).
Proof.
  intros H. revert prev. induction H as [| r rs Hr _ IH]; intros prev; [reflexivity |].
  cbn [ffill_rows map ffill_col snd]. rewrite fill_row_nth by exact Hr.
  f_equal. rewrite IH. now rewrite fill_row_nth by exact Hr.
Qed.

(** A table of [w] columns is filled column by column. *)
Lemma ffill_column_values {I : Type} (j : nat) (df : DataFrame I) :
  Forall (fun r => (j < List.length (snd r))%nat) (rows df) ->
  column_values j (ffill df) = ffill_col nan (column_values j df).
Proof.
  intros H. rewrite !column_values_eq. unfold ffill. cbn [rows].
  rewrite ffill_rows_column by exact H. now destruct j.
Qed.

Lemma ffill_col_spec (col : list float) :
  forall (prev : float) (i : nat) (x : float),
    nth_error col i = Some x ->
    exists y,
      nth_error (ffill_col prev col) i = Some y
      /\ (notna x = true -> y = x)
      /\ (isna x = true ->
          (exists k x', (k < i)%nat /\ nth_error col k = Some x'
                        /\ notna x' = true
                        /\ (forall m xm, (k < m <= i)%nat ->
                                         nth_error col m = Some xm -> isna xm = true)
                        /\ y = x')
          \/ ((forall m xm, (m <= i)%nat -> nth_error col m = Some xm -> isna xm = true)
              /\ y = prev)).
Proof.
  induction col as [| c cs IH]; intros prev i x Hi; [destruct i; discriminate |].
  destruct i as [| i]; cbn [nth_error ffill_col] in *.
  - inversion Hi; subst x. eexists. split; [reflexivity |].
    unfold notna. destruct (isna c) eqn:Hc; cbn; split; try discriminate; auto.
    intros _. right. split; [| reflexivity].
    intros m xm Hm Hx. assert (m = 0%nat) by lia. subst m. cbn in Hx. congruence.
  - destruct (IH (if isna c then prev else c) i x Hi) as [y [Hy [Hv Hn]]].
    exists y. split; [exact Hy |]. split; [exact Hv |].
    intros Hx. destruct (Hn Hx) as [[k [x' [Hk [Hk' [Hkv [Hbetween Hyx]]]]]] | [Hall Hyp]].
    + left. exists (S k), x'. repeat split; try assumption; try lia.
      intros m xm Hm Hxm. destruct m as [| m]; [lia |].
      cbn in Hxm. apply (Hbetween m xm); [lia | exact Hxm].
    + destruct (isna c) eqn:Hc.
      * right. split; [| exact Hyp].
        intros m xm Hm Hxm. destruct m as [| m]; cbn in Hxm; [congruence |].
        apply (Hall m xm); [lia | exact Hxm].
      * left. exists 0%nat, c. repeat split; try lia; try reflexivity.
        -- unfold notna. now rewrite Hc.
        -- intros m xm Hm Hxm. destruct m as [| m]; [lia |].
           cbn in Hxm. apply (Hall m xm); [lia | exact Hxm].
        -- exact Hyp.
Qed.

(** C6.  In the combined table, forward fill leaves the labels and every
    available close as they are; a missing cell with an earlier available
    close in its column takes the most recent one (and is no longer null); a
    missing cell with nothing available above it stays null. *)
Theorem forward_fill_most_recent (all_series : SeriesDict) (j : nat) :
  let raw := column_values j (sort_index (frame_of_dict all_series)) in
  let filled := column_values j (yearly_combined all_series) in
  (j < List.length all_series)%nat ->
  index (yearly_combined all_series) = index (sort_index (frame_of_dict all_series))
  /\ forall (i : nat) (x : float),
       nth_error raw i = Some x ->
       exists y,
         nth_error filled i = Some y
         /\ (notna x = true -> y = x)
         /\ (isna x = true ->
             forall k xk, (k < i)%nat -> nth_error raw k = Some xk -> notna xk = true ->
             exists k' x', (k' < i)%nat /\ nth_error raw k' = Some x'
                           /\ notna x' = true
                           /\ (forall m xm, (k' < m <= i)%nat ->
                                            nth_error raw m = Some xm -> isna xm = true)
                           /\ y = x' /\ notna y = true)
         /\ (isna x = true ->
             (forall k xk, (k < i)%nat -> nth_error raw k = Some xk -> isna xk = true) ->
             isna y = true).
Proof.
  intros raw filled Hj.
  split; [apply ffill_index |].
  assert (Hf : filled = ffill_col nan raw).
  { unfold filled, raw, yearly_combined. apply ffill_column_values.
    rewrite frame_of_dict_sorted.
    eapply Forall_impl; [| apply frame_of_dict_width]. cbn. intros r ->. exact Hj. }
  intros i x Hi. rewrite Hf.
  destruct (ffill_col_spec raw nan i x Hi) as [y [Hy [Hv Hn]]].
  exists y. split; [exact Hy |]. split; [exact Hv |]. split.
  - intros Hx k xk Hk Hxk Hvk.
    destruct (Hn Hx) as [[k' [x' [H1 [H2 [H3 [H4 H5]]]]]] | [Hall _]].
    + exists k', x'. repeat split; try assumption. now subst y.
    + exfalso. assert (isna xk = true) by (apply (Hall k xk); [lia | exact Hxk]).
      unfold notna in Hvk. rewrite H in Hvk. discriminate.
  - intros Hx Hall.
    destruct (Hn Hx) as [[k' [x' [H1 [H2 [H3 _]]]]] | [_ ->]]; [| reflexivity].
    exfalso. assert (isna x' = true) by (apply (Hall k' x'); assumption).
    unfold notna in H3. rewrite H in H3. discriminate.
Qed.

(** ** Rounding to binary64, as far as the coverage test needs it *)

Lemma digits2_pos_spec (p : positive) :
  2 ^ (Zpos (digits2_pos p) - 1) <= Zpos p < 2 ^ Zpos (digits2_pos p).
Proof.
  induction p as [p IH | p IH |]; cbn [digits2_pos].
  - rewrite Pos2Z.inj_succ.
    replace (Z.succ (Zpos (digits2_pos p)) - 1) with (Z.succ (Zpos (digits2_pos p) - 1))
      by lia.
    rewrite !Z.pow_succ_r by lia. lia.
  - rewrite Pos2Z.inj_succ.
    replace (Z.succ (Zpos (digits2_pos p)) - 1) with (Z.succ (Zpos (digits2_pos p) - 1))
      by lia.
    rewrite !Z.pow_succ_r by lia. lia.
  - cbn. lia.
Qed.

Lemma digits2_pos_of_bounds (p : positive) (k : Z) :
  2 ^ (k - 1) <= Zpos p < 2 ^ k -> 1 <= k -> Zpos (digits2_pos p) = k.
Proof.
  intros [Hl Hu] Hk. pose proof (digits2_pos_spec p) as [Dl Du].
  set (d := Zpos (digits2_pos p)) in *.
  assert (Hd : 1 <= d) by (unfold d; lia).
  destruct (Z.lt_trichotomy d k) as [H | [H | H]]; [| exact H |]; exfalso.
  - assert (2 ^ d <= 2 ^ (k - 1)) by (apply Z.pow_le_mono_r; lia). lia.
  - assert (2 ^ k <= 2 ^ (d - 1)) by (apply Z.pow_le_mono_r; lia). lia.
Qed.

Lemma shr_1_m (mrs : shr_record) :
  0 <= shr_m mrs -> shr_m (shr_1 mrs) = shr_m mrs / 2.
Proof.
  destruct mrs as [m r s]. cbn [shr_m]. intros Hm. unfold shr_1.
  destruct m as [| [p | p |] | p]; cbn [shr_m]; try lia.
  - reflexivity.
  - rewrite Pos2Z.inj_xI. apply Z.div_unique with (r := 1); lia.
  - rewrite Pos2Z.inj_xO. apply Z.div_unique with (r := 0); lia.
  - reflexivity.
Qed.

Lemma iter_shr_m (p : positive) :
  forall mrs, 0 <= shr_m mrs ->
    shr_m (iter_pos shr_1 p mrs) = shr_m mrs / 2 ^ Zpos p.
Proof.
  induction p as [p IH | p IH |]; intros mrs Hm; cbn [iter_pos].
  - assert (H1 : 0 <= shr_m (shr_1 mrs))
      by (rewrite shr_1_m by exact Hm; apply Z.div_pos; lia).
    assert (H2 : 0 <= shr_m (iter_pos shr_1 p (shr_1 mrs)))
      by (rewrite IH by exact H1; apply Z.div_pos; [lia | apply Z.pow_pos_nonneg; lia]).
    rewrite IH by exact H2. rewrite IH by exact H1. rewrite shr_1_m by exact Hm.
    rewrite !Z.div_div by (pose proof (Z.pow_pos_nonneg 2 (Zpos p)); lia).
    f_equal. replace (Zpos p~1) with (1 + Zpos p + Zpos p) by lia.
    rewrite (Z.pow_add_r 2 (1 + Zpos p) (Zpos p)) by lia.
    rewrite (Z.pow_add_r 2 1 (Zpos p)) by lia. lia.
  - assert (H2 : 0 <= shr_m (iter_pos shr_1 p mrs))
      by (rewrite IH by exact Hm; apply Z.div_pos; [lia | apply Z.pow_pos_nonneg; lia]).
    rewrite IH by exact H2. rewrite IH by exact Hm.
    rewrite Z.div_div by (pose proof (Z.pow_pos_nonneg 2 (Zpos p)); lia).
    f_equal. replace (Zpos p~0) with (Zpos p + Zpos p) by lia.
    rewrite Z.pow_add_r by lia. reflexivity.
  - rewrite shr_1_m by exact Hm. reflexivity.
Qed.

(** A product of more than 53 digits, rounded: the 53 leading digits, or
    one more. *)
Lemma binary_round_aux_bounds (P : positive) (e : Z) :
  let d := Zpos (digits2_pos P) in
  let M := Zpos P / 2 ^ (d - 53) in
  let E := e + (d - 53) in
  54 <= d -> -1074 <= E <= 970 ->
  exists m'' e'',
    binary_round_aux prec emax false (Zpos P) e loc_Exact = S754_finite false m'' e''
    /\ Zpos (digits2_pos m'') = 53
    /\ 2 ^ 52 <= M < 2 ^ 53
    /\ ((e'' = E /\ (Zpos m'' = M \/ Zpos m'' = M + 1))
        \/ (e'' = E + 1 /\ Zpos m'' = 2 ^ 52 /\ M + 1 = 2 ^ 53)).
Proof.
  intros d M E Hd HE.
  pose proof (digits2_pos_spec P) as [Pl Pu]. fold d in Pl, Pu.
  assert (HM : 2 ^ 52 <= M < 2 ^ 53).
  { unfold M.
    assert (Hs : 0 < 2 ^ (d - 53)) by (apply Z.pow_pos_nonneg; lia).
    assert (E1 : 2 ^ (d - 1) = 2 ^ 52 * 2 ^ (d - 53))
      by (rewrite <- Z.pow_add_r by lia; f_equal; lia).
    assert (E2 : 2 ^ d = 2 ^ 53 * 2 ^ (d - 53))
      by (rewrite <- Z.pow_add_r by lia; f_equal; lia).
    split.
    - apply Z.div_le_lower_bound; [exact Hs |]. lia.
    - apply Z.div_lt_upper_bound; [exact Hs |]. lia. }
  unfold binary_round_aux, shr_fexp. cbn [Zdigits2]. fold d.
  replace (fexp prec emax (d + e) - e) with (d - 53)
    by (unfold fexp, emin, prec, emax, E in *; lia).
  destruct (d - 53) as [| s | s] eqn:Hs; [lia | | lia].
  cbn [shr shr_record_of_loc].
  set (mrs' := iter_pos shr_1 s {| shr_m := Zpos P; shr_r := false; shr_s := false |}).
  assert (Hm' : shr_m mrs' = M).
  { unfold mrs'. rewrite iter_shr_m by (cbn; lia). reflexivity. }
  rewrite Hm'.
  replace (e + Zpos s) with E by (unfold E; lia).
  set (m1 := round_nearest_even M (loc_of_shr_record mrs')).
  assert (Hm1 : m1 = M \/ m1 = M + 1).
  { unfold m1, round_nearest_even.
    destruct (loc_of_shr_record mrs') as [| []]; auto.
    destruct (IntDef.Z.even M); auto. }
  clearbody m1. clear Hm' mrs'.
  destruct (Z.eq_dec m1 (2 ^ 53)) as [Htop | Htop].
  - (* the rounding reached 2^53 *)
    assert (HM1 : M + 1 = 2 ^ 53) by lia.
    subst m1. change (2 ^ 53) with (Zpos 9007199254740992).
    cbn [Zdigits2]. change (Zpos (digits2_pos 9007199254740992)) with 54.
    replace (fexp prec emax (54 + E) - E) with 1
      by (unfold fexp, emin, prec, emax; lia).
    cbn [shr iter_pos shr_1 shr_m].
    replace (E + 1 <=? emax - prec) with true
      by (symmetry; apply Z.leb_le; unfold emax, prec; lia).
    exists 4503599627370496%positive, (E + 1).
    split; [reflexivity |]. split; [reflexivity |]. split; [exact HM |].
    right. split; [reflexivity |]. split; [reflexivity | exact HM1].
  - assert (Hr : 2 ^ 52 <= m1 < 2 ^ 53) by lia.
    destruct m1 as [| q | q]; [lia | | lia].
    assert (Hq : Zpos (digits2_pos q) = 53)
      by (apply digits2_pos_of_bounds; [exact Hr | lia]).
    cbn [Zdigits2]. rewrite Hq.
    replace (fexp prec emax (53 + E) - E) with 0
      by (unfold fexp, emin, prec, emax; lia).
    cbn [shr shr_record_of_loc shr_m].
    replace (E <=? emax - prec) with true
      by (symmetry; apply Z.leb_le; unfold emax, prec; lia).
    exists q, E. split; [reflexivity |]. split; [exact Hq |]. split; [exact HM |].
    left. split; [reflexivity | exact Hm1].
Qed.

(** The order of two positive floats of 53 digits is the order of their
    values. *)
Lemma leb_canonical (m1 m2 : positive) (e1 e2 K : Z) :
  Zpos (digits2_pos m1) = 53 -> Zpos (digits2_pos m2) = 53 ->
  0 <= K + e1 -> 0 <= K + e2 ->
  leb (S754_finite false m1 e1) (S754_finite false m2 e2)
  = (Zpos m1 * 2 ^ (K + e1) <=? Zpos m2 * 2 ^ (K + e2)).
Proof.
  intros D1 D2 K1 K2.
  pose proof (digits2_pos_spec m1) as [L1 U1]. rewrite D1 in L1, U1.
  pose proof (digits2_pos_spec m2) as [L2 U2]. rewrite D2 in L2, U2.
  change (53 - 1) with 52 in *.
  unfold leb, SFleb, SFcompare.
  destruct (Z.compare_spec e1 e2) as [He | He | He].
  - subst e2. change (PosDef.Pos.compare_cont Eq m1 m2) with (Pos.compare m1 m2).
    rewrite Pos2Z.inj_compare.
    assert (Hp : 0 < 2 ^ (K + e1)) by (apply Z.pow_pos_nonneg; lia).
    destruct (Z.compare_spec (Zpos m1) (Zpos m2)) as [H | H | H];
      symmetry; [apply Z.leb_le | apply Z.leb_le | apply Z.leb_gt]; nia.
  - symmetry. apply Z.leb_le.
    assert (Hp : 0 < 2 ^ (K + e1)) by (apply Z.pow_pos_nonneg; lia).
    assert (Hq : 2 ^ (K + e2) = 2 ^ (K + e1) * 2 ^ (e2 - e1))
      by (rewrite <- Z.pow_add_r by lia; f_equal; lia).
    assert (Hr : 2 <= 2 ^ (e2 - e1)).
    { change 2 with (2 ^ 1) at 1. apply Z.pow_le_mono_r; lia. }
    rewrite Hq. nia.
  - symmetry. apply Z.leb_gt.
    assert (Hp : 0 < 2 ^ (K + e2)) by (apply Z.pow_pos_nonneg; lia).
    assert (Hq : 2 ^ (K + e1) = 2 ^ (K + e2) * 2 ^ (e1 - e2))
      by (rewrite <- Z.pow_add_r by lia; f_equal; lia).
    assert (Hr : 2 <= 2 ^ (e1 - e2)).
    { change 2 with (2 ^ 1) at 1. apply Z.pow_le_mono_r; lia. }
    rewrite Hq. nia.
Qed.

(** An integer below 2^53 as a float: 53 digits and the same value. *)
Lemma of_Z_form (v : Z) :
  0 < v < 2 ^ 53 ->
  exists m e,
    of_Z v = S754_finite false m e
    /\ Zpos (digits2_pos m) = 53
    /\ -52 <= e <= 0
    /\ Zpos m = v * 2 ^ (- e).
Proof.
  intros [H0 H1]. destruct v as [| p | p]; [lia | | lia].
  pose proof (digits2_pos_bound p 53 ltac:(lia) H1) as Hd.
  assert (Hpos : 0 < Zpos (digits2_pos p)) by lia.
  unfold of_Z, binary_normalize, binary_round.
  replace (fexp prec emax (Zpos (digits2_pos p) + 0)) with (Zpos (digits2_pos p) - 53)
    by (unfold fexp, emin, prec, emax; lia).
  unfold shl_align. rewrite Z.sub_0_r.
  destruct (Z.pos (digits2_pos p) - 53) as [| q | q] eqn:Hk; [| lia |].
  - rewrite binary_round_aux_canonical by lia.
    exists p, 0. split; [reflexivity |]. split; [lia |]. split; [lia |].
    cbn. lia.
  - rewrite binary_round_aux_canonical by (rewrite ?iter_xO_digits; lia).
    exists (Pos.iter xO p q), (Z.neg q).
    split; [reflexivity |]. split; [rewrite iter_xO_digits; lia |].
    split; [lia |]. rewrite iter_xO_value. reflexivity.
Qed.

(** ** The coverage filter *)

(** The coverage test [count >= len * 0.3] in binary64 is the exact test
    [3 * len <= 10 * count], for fewer than 2^49 tickers. *)
Lemma coverage_threshold_general (n c : Z) :
  0 <= n < 2 ^ 49 -> 0 <= c <= n ->
  leb (mul (of_Z n) lit_0_3) (of_Z c) = (3 * n <=? 10 * c).
Proof.
  intros Hn Hc.
  destruct (Z.eq_dec n 0) as [-> | Hn0].
  { replace c with 0 by lia. reflexivity. }
  destruct (of_Z_form n ltac:(lia)) as (Mn & en & En & Dn & Ren & Vn).
  pose proof (digits2_pos_spec Mn) as Bn. rewrite Dn in Bn.
  change (53 - 1) with 52 in Bn.
  set (a := 2 ^ (- en)) in *.
  assert (Ha : 9 <= a).
  { assert (0 < a) by (apply Z.pow_pos_nonneg; lia). nia. }
  rewrite En. unfold mul, lit_0_3, SFmul. cbn [xorb].
  set (P := (Mn * 5404319552844595)%positive).
  assert (HP : Zpos P = n * a * 5404319552844595)
    by (unfold P; rewrite Pos2Z.inj_mul, Vn; reflexivity).
  assert (BP : 2 ^ 104 <= Zpos P < 2 ^ 106)
    by (unfold P; rewrite Pos2Z.inj_mul; lia).
  pose proof (binary_round_aux_bounds P (en + -54)) as R. cbv zeta in R.
  assert (Hs : Zpos (digits2_pos P) - 53 = 52 \/ Zpos (digits2_pos P) - 53 = 53).
  { destruct (Z_lt_le_dec (Zpos P) (2 ^ 105)); [left | right].
    - rewrite (digits2_pos_of_bounds P 105); [reflexivity | | lia].
      change (105 - 1) with 104. lia.
    - rewrite (digits2_pos_of_bounds P 106); [reflexivity | | lia].
      change (106 - 1) with 105. lia. }
  set (s := Zpos (digits2_pos P) - 53) in *.
  specialize (R ltac:(lia) ltac:(lia)).
  set (E := en + -54 + s) in *.
  set (M := Zpos P / 2 ^ s) in *.
  destruct R as (m2 & e2 & Hr & Dm & HM & Hcases).
  rewrite Hr.
  destruct (Z.eq_dec c 0) as [-> | Hc0].
  { replace (3 * n <=? 10 * 0) with false by (symmetry; apply Z.leb_gt; lia).
    reflexivity. }
  destruct (of_Z_form c ltac:(lia)) as (Mc & ec & Ec & Dc & Rec & Vc).
  rewrite Ec.
  rewrite (leb_canonical m2 Mc e2 ec 200 Dm Dc)
    by (destruct Hcases as [[-> _] | [-> _]]; lia).
  set (T := 2 ^ (200 + E)). set (Q := 2 ^ (- E)).
  assert (HT : 0 < T) by (apply Z.pow_pos_nonneg; lia).
  assert (HQ : 0 < Q) by (apply Z.pow_pos_nonneg; lia).
  assert (HQT : Q * T = 2 ^ 200)
    by (unfold Q, T; rewrite <- Z.pow_add_r by lia; f_equal; lia).
  assert (HQS : Q * 2 ^ s = 2 ^ 54 * a)
    by (unfold Q, a; rewrite <- !Z.pow_add_r by lia; f_equal; unfold E; lia).
  assert (Hy : Zpos Mc * 2 ^ (200 + ec) = c * Q * T).
  { rewrite Vc, <- !Z.mul_assoc, <- Z.pow_add_r by lia. rewrite HQT.
    f_equal. f_equal. lia. }
  assert (Hx : exists m, (m = M \/ m = M + 1) /\ Zpos m2 * 2 ^ (200 + e2) = m * T).
  { destruct Hcases as [[-> [H | H]] | [-> [H1 H2]]].
    - exists M. rewrite H. auto.
    - exists (M + 1). rewrite H. auto.
    - exists (M + 1). split; [auto |]. rewrite H1, H2. unfold T.
      replace (200 + (E + 1)) with (1 + (200 + E)) by lia.
      rewrite Z.pow_add_r by lia. lia. }
  destruct Hx as (m & Hm & ->). rewrite Hy.
  assert (HS : 2 ^ 52 <= 2 ^ s <= 2 ^ 53) by (destruct Hs as [-> | ->]; lia).
  pose proof (Z.div_mod (Zpos P) (2 ^ s) ltac:(lia)) as Hdiv. fold M in Hdiv.
  pose proof (Z.mod_pos_bound (Zpos P) (2 ^ s) ltac:(lia)) as Hmod.
  set (S := 2 ^ s) in *. set (r := Zpos P mod S) in *.
  clearbody S r M T Q a. clear - Hn Hc Hn0 Hc0 Ha HP HT HQ HQS Hm HS Hdiv Hmod.
  destruct (Z.leb_spec (3 * n) (10 * c)) as [H | H].
  - apply Z.leb_le. apply Z.mul_le_mono_nonneg_r; [lia |].
    assert (H1 : n * 5404319552844595 < c * 2 ^ 54) by lia.
    assert (H2 : n * 5404319552844595 * a < c * 2 ^ 54 * a)
      by (apply Z.mul_lt_mono_pos_r; lia).
    assert (H3 : M * S < c * Q * S).
    { rewrite <- (Z.mul_assoc c), HQS. lia. }
    assert (H4 : M < c * Q) by (apply (Z.mul_lt_mono_pos_r S); lia).
    lia.
  - apply Z.leb_gt. apply Z.mul_lt_mono_pos_r; [lia |].
    assert (H4 : c * Q < M).
    { destruct (Z_lt_le_dec (c * Q) M) as [H4 | H4]; [exact H4 | exfalso].
      assert (H3 : M * S <= c * Q * S) by (apply Z.mul_le_mono_nonneg_r; lia).
      rewrite <- (Z.mul_assoc c), HQS in H3.
      assert (H1 : 2 ^ 50 <= n * 5404319552844595 - c * 2 ^ 54) by lia.
      assert (H2 : 9 * 2 ^ 50 <= a * (n * 5404319552844595 - c * 2 ^ 54)) by nia.
      lia. }
    lia.
Qed.

Lemma coverage_threshold_exact (vt : list Ticker) (c : Z) :
  Z.of_nat (List.length vt) < 2 ^ 49 -> 0 <= c <= Z.of_nat (List.length vt) ->
  leb (coverage_threshold vt) (of_Z c) = (3 * Z.of_nat (List.length vt) <=? 10 * c).
Proof.
  intros Hn Hc. unfold coverage_threshold. apply coverage_threshold_general; lia.
Qed.

Lemma nodup_key_unique {A : Type} (l : list (Z * A)) (t : Z) (a b : A) :
  NoDup (map fst l) -> In (t, a) l -> In (t, b) l -> a = b.
Proof.
  induction l as [| x l IH]; cbn; intros Hnd Ha Hb; [contradiction |].
  inversion Hnd as [| ? ? Hx Hnd']; subst.
  destruct Ha as [-> | Ha], Hb as [Eb | Hb].
  - now inversion Eb.
  - exfalso. apply Hx. cbn. change t with (fst (t, b)). now apply in_map.
  - exfalso. apply Hx. rewrite Eb. cbn. change t with (fst (t, a)). now apply in_map.
  - now apply IH.
Qed.

Lemma dict_set_length {V : Type} (k : string) (v : V) (d : list (string * V)) :
  (List.length (dict_set k v d) <= S (List.length d))%nat.
Proof.
  induction d as [| kv d IH]; cbn; [lia |].
  destruct (String.eqb k (fst kv)); cbn; lia.
Qed.

Lemma yearly_body_length (env : Env) (now : Timestamp) (start_date : date)
  (d d' : SeriesDict) (tk : Ticker) :
  yearly_body env now start_date d tk = Ok d' ->
  (List.length d' <= S (List.length d))%nat.
Proof.
  destruct tk as [[code symbol] nm]. unfold yearly_body.
  destruct (history env symbol (Start start_date)) as [df | e]; cbn; [| discriminate].
  destruct df as [| b0 df0]; [intros [= <-]; lia |].
  destruct (filter (fun b => 0 <? Volume b) (b0 :: df0)) as [| b df1]; [discriminate |].
  match goal with |- context [if ?c then _ else _] => destruct c end.
  - destruct (removelast (b :: df1)); intros [= <-];
      first [apply dict_set_length | lia].
  - intros [= <-]. apply dict_set_length.
Qed.

Lemma yearly_all_series_length (env : Env) (now : Timestamp) (vt : list Ticker) :
  (List.length (yearly_all_series env now vt) <= List.length vt)%nat.
Proof.
  unfold yearly_all_series. cbv zeta.
  set (body := yearly_body env now _).
  assert (H : forall l acc,
             (List.length (fold_left (try_pass body) l acc)
              <= List.length acc + List.length l)%nat).
  { induction l as [| tk l IH]; intros acc; cbn [fold_left List.length]; [lia |].
    specialize (IH (try_pass body acc tk)).
    assert (List.length (try_pass body acc tk) <= S (List.length acc))%nat.
    { unfold try_pass. destruct (body acc tk) as [acc' | e] eqn:Hb; [| lia].
      exact (yearly_body_length _ _ _ _ _ _ Hb). }
    lia. }
  exact (H vt []).
Qed.

Lemma ffill_rows_width {I : Type} (n : nat) (rs : list (I * list float)) :
  forall prev,
    Forall (fun r => List.length (snd r) = n) rs ->
    Forall (fun r => List.length (snd r) = n) (ffill_rows prev rs).
Proof.
  induction rs as [| r rs IH]; intros prev H; cbn; [constructor |].
  inversion H as [| ? ? Hr Hrs]; subst. constructor.
  - cbn. now rewrite fill_row_length.
  - now apply IH.
Qed.

(** A row of the forward-filled table has one cell per collected series, so
    at most one per ticker. *)
Lemma yearly_combined_valid_count (env : Env) (now : Timestamp) (vt : list Ticker)
  (r : Timestamp * list float) :
  In r (rows (yearly_combined (yearly_all_series env now vt))) ->
  0 <= valid_count (snd r) <= Z.of_nat (List.length vt).
Proof.
  intros Hin. pose proof (yearly_all_series_length env now vt) as Hl.
  set (d := yearly_all_series env now vt) in *.
  assert (W : Forall (fun r => List.length (snd r) = List.length d)
                (rows (yearly_combined d))).
  { unfold yearly_combined, ffill, sort_index. cbn [rows]. apply ffill_rows_width.
    apply (Permutation_Forall (Permutation_sym (sort_rows_perm _))).
    unfold frame_of_dict. cbn [rows]. apply Forall_map. cbn [snd].
    apply Forall_forall. intros t _. now rewrite length_map. }
  rewrite Forall_forall in W. specialize (W r Hin).
  unfold valid_count. pose proof (filter_length_le notna (snd r)). lia.
Qed.

Lemma yearly_trend_data_rows (env : Env) (now : Timestamp) (vt : list Ticker)
  (t : Timestamp) :
  In t (index (yearly_trend_data env now vt)) ->
  exists cells,
    In (t, cells) (rows (yearly_filtered vt (yearly_all_series env now vt))).
Proof.
  unfold yearly_trend_data.
  destruct (yearly_all_series env now vt) as [| s0 d] eqn:Hd; [intros [] |].
  rewrite ytd_frame_index. destruct (ytd_columns _); [intros [] |].
  unfold index. intros H. apply in_map_iff in H. destruct H as [[t' cells] [E H]].
  cbn in E. subst t'. exists cells. unfold yearly_final in H.
  now apply loc_rows_in in H.
Qed.

(** C4, as the code has it.  The coverage stage keeps exactly the rows of
    the forward-filled table whose count of non-null cells is at least
    [len(valid_tickers) * 0.3] in binary64; a row below that appears nowhere
    in the table returned.  Below 2^49 tickers the test is exact: a row is
    kept when at least 30% of the tickers have a value (at most 70% are
    null) and dropped, and absent from the table returned, when fewer have
    (more than 70% are null). *)
Theorem yearly_coverage_filter (env : Env) (now : Timestamp) (valid_tickers : list Ticker) :
  let all_series := yearly_all_series env now valid_tickers in
  let threshold := coverage_threshold valid_tickers in
  let n := Z.of_nat (List.length valid_tickers) in
  (forall r, In r (rows (yearly_filtered valid_tickers all_series)) <->
             In r (rows (yearly_combined all_series))
             /\ leb threshold (of_Z (valid_count (snd r))) = true)
  /\ (forall t, In t (index (yearly_trend_data env now valid_tickers)) ->
                exists cells,
                  In (t, cells) (rows (yearly_combined all_series))
                  /\ leb threshold (of_Z (valid_count cells)) = true)
  /\ (forall t cells,
        In (t, cells) (rows (yearly_combined all_series)) ->
        leb threshold (of_Z (valid_count cells)) = false ->
        ~ In t (index (yearly_trend_data env now valid_tickers)))
  /\ (n < 2 ^ 49 ->
      forall c, 0 <= c <= n ->
                (10 * c < 3 * n -> leb threshold (of_Z c) = false)
                /\ (3 * n <= 10 * c -> leb threshold (of_Z c) = true))
  /\ (n < 2 ^ 49 ->
      forall t cells,
        In (t, cells) (rows (yearly_combined all_series)) ->
        0 <= valid_count cells <= n
        /\ (10 * valid_count cells < 3 * n ->
            ~ In (t, cells) (rows (yearly_filtered valid_tickers all_series))
            /\ ~ In t (index (yearly_trend_data env now valid_tickers)))
        /\ (3 * n <= 10 * valid_count cells ->
            In (t, cells) (rows (yearly_filtered valid_tickers all_series)))).
Proof.
  intros all_series threshold n.
  assert (Hmem : forall r, In r (rows (yearly_filtered valid_tickers all_series)) <->
             In r (rows (yearly_combined all_series))
             /\ leb threshold (of_Z (valid_count (snd r))) = true).
  { intros r. unfold yearly_filtered, coverage_filter. cbn [rows]. apply filter_In. }
  assert (Hout : forall t, In t (index (yearly_trend_data env now valid_tickers)) ->
                exists cells,
                  In (t, cells) (rows (yearly_combined all_series))
                  /\ leb threshold (of_Z (valid_count cells)) = true).
  { intros t Ht. destruct (yearly_trend_data_rows env now valid_tickers t Ht) as [cells Hc].
    exists cells. now apply Hmem in Hc. }
  assert (Hlow : forall t cells,
        In (t, cells) (rows (yearly_combined all_series)) ->
        leb threshold (of_Z (valid_count cells)) = false ->
        ~ In t (index (yearly_trend_data env now valid_tickers))).
  { intros t cells Hin Hlow Ht.
    destruct (Hout t Ht) as [cells' [Hin' Hok]].
    assert (cells = cells').
    { eapply nodup_key_unique; [| exact Hin | exact Hin'].
      change (NoDup (index (yearly_combined all_series))).
      rewrite yearly_combined_index. apply sorted_lt_nodup, sort_uniq_sorted. }
    subst cells'. congruence. }
  assert (Hpct : n < 2 ^ 49 ->
      forall c, 0 <= c <= n ->
                (10 * c < 3 * n -> leb threshold (of_Z c) = false)
                /\ (3 * n <= 10 * c -> leb threshold (of_Z c) = true)).
  { intros Hn c Hc. unfold threshold, n.
    rewrite (coverage_threshold_exact valid_tickers c Hn Hc).
    split; intros H; [apply Z.leb_gt | apply Z.leb_le]; lia. }
  split; [exact Hmem |]. split; [exact Hout |]. split; [exact Hlow |].
  split; [exact Hpct |].
  intros Hn t cells Hin.
  pose proof (yearly_combined_valid_count env now valid_tickers (t, cells) Hin) as Hv.
  cbn [snd] in Hv. fold n in Hv.
  destruct (Hpct Hn _ Hv) as [Hlo Hhi].
  split; [exact Hv |]. split.
  - intros H. split; [| exact (Hlow t cells Hin (Hlo H))].
    intros Hk. apply Hmem in Hk. destruct Hk as [_ Hk]. cbn [snd] in Hk.
    rewrite (Hlo H) in Hk. discriminate.
  - intros H. apply Hmem. split; [exact Hin |]. cbn [snd]. exact (Hhi H).
Qed.

(** C4 as stated fails: of ten securities three have a value on 8 December
    and seven are null (70%), and the row is in the table returned. *)
Lemma coverage_boundary_counterexample :
  let all_series := yearly_all_series coverage_env tuesday_afternoon ten_tickers in
  exists cells,
    In (dec2025 8, cells) (rows (yearly_combined all_series))
    /\ List.length cells = 10%nat
    /\ List.length ten_tickers = 10%nat
    /\ List.length (filter isna cells) = 7%nat
    /\ In (dec2025 8) (index (yearly_trend_data coverage_env tuesday_afternoon ten_tickers))
    /\ In "12/08" (map fst (rows (get_yearly_trend coverage_env tuesday_afternoon
                                    ten_tickers))).
Proof.
  eexists. split; [vm_compute; left; reflexivity |].
  split; [vm_compute; reflexivity |].
  split; [vm_compute; reflexivity |].
  split; [vm_compute; reflexivity |].
  split; [vm_compute; left; reflexivity |].
  vm_compute. left. reflexivity.
Qed.

Lemma yearly_coverage_filter_witness :
  ~ In (dec2025 8)
      (index (yearly_trend_data coverage_env tuesday_afternoon
                (ten_tickers ++ [ticker_of "FAIL"; ticker_of "FAIL2"]))).
Proof.
  pose proof (yearly_coverage_filter coverage_env tuesday_afternoon
                (ten_tickers ++ [ticker_of "FAIL"; ticker_of "FAIL2"])) as H.
  cbv zeta in H. destruct H as [_ [_ [_ [_ H]]]].
  edestruct (H ltac:(vm_compute; reflexivity) (dec2025 8)) as [_ [Hd _]].
  - vm_compute. left. reflexivity.
  - apply Hd. vm_compute. reflexivity.
Defined.


Lemma forward_fill_most_recent_witness :
  exists y,
    nth_error (column_values 1
                 (yearly_combined
                    (yearly_all_series gap_env wednesday_afternoon gap_tickers))) 1
    = Some y
    /\ notna y = true.
Proof.
  pose proof (forward_fill_most_recent
                (yearly_all_series gap_env wednesday_afternoon gap_tickers) 1) as H.
  cbv zeta in H.
  assert (Hj : (1 < List.length
                      (yearly_all_series gap_env wednesday_afternoon gap_tickers))%nat)
    by (vm_compute; lia).
  destruct (H Hj) as [_ Hcells].
  assert (Hraw : nth_error
                   (column_values 1
                      (sort_index
                         (frame_of_dict
                            (yearly_all_series gap_env wednesday_afternoon gap_tickers))))
                   1 = Some nan) by (vm_compute; reflexivity).
  destruct (Hcells 1%nat nan Hraw) as [y [Hy [_ [Hfill _]]]].
  assert (Hprev : nth_error
                    (column_values 1
                       (sort_index
                          (frame_of_dict
                             (yearly_all_series gap_env wednesday_afternoon gap_tickers))))
                    0 = Some (of_Z 21)) by (vm_compute; reflexivity).
  destruct (Hfill eq_refl 0%nat (of_Z 21) ltac:(lia) Hprev eq_refl)
    as [k' [x' [_ [_ [_ [_ [_ Hv]]]]]]].
  exists y. split; assumption.
Defined.

(** ** The cells of the yearly table are closes or null *)

Lemma is_price_okcell (x : float) : is_price x = true -> okcell x = true.
Proof. now destruct x as [s | s | | [|] m e]. Qed.

Lemma value_at_ok (pts : list (Timestamp * float)) (t : Timestamp) :
  Forall (fun p => okcell (snd p) = true) pts -> okcell (value_at pts t) = true.
Proof.
  intros H. unfold value_at.
  destruct (find (fun p => fst p =? t) pts) as [p |] eqn:E; [| reflexivity].
  apply find_some in E. rewrite Forall_forall in H. now apply H.
Qed.

Lemma fill_row_ok (prev cur : list float) :
  Forall (fun x => okcell x = true) prev ->
  Forall (fun x => okcell x = true) cur ->
  Forall (fun x => okcell x = true) (fill_row prev cur).
Proof.
  intros Hp Hc. revert prev Hp.
  induction Hc as [| c cs Hc0 _ IH]; intros prev Hp; cbn [fill_row]; constructor.
  - destruct (isna c); [| exact Hc0]. destruct Hp; [reflexivity | assumption].
  - apply IH. destruct Hp; [constructor | assumption].
Qed.

Lemma ffill_rows_ok {I : Type} (prev : list float) (rs : list (I * list float)) :
  Forall (fun x => okcell x = true) prev ->
  Forall (fun r => Forall (fun x => okcell x = true) (snd r)) rs ->
  Forall (fun r => Forall (fun x => okcell x = true) (snd r)) (ffill_rows prev rs).
Proof.
  intros Hp Hr. revert prev Hp.
  induction Hr as [| r rs Hr0 _ IH]; intros prev Hp; cbn [ffill_rows]; constructor.
  - cbn [snd]. now apply fill_row_ok.
  - apply IH. now apply fill_row_ok.
Qed.

Lemma dict_set_ok (k : string) (v : list (Timestamp * float)) (d : SeriesDict) :
  series_ok d -> Forall (fun p => okcell (snd p) = true) v -> series_ok (dict_set k v d).
Proof.
  unfold series_ok. intros Hd Hv.
  induction Hd as [| kv d Hkv Hd IH]; cbn [dict_set].
  - constructor; [exact Hv | constructor].
  - destruct (String.eqb k (fst kv)); constructor; assumption.
Qed.

Lemma removelast_in {A : Type} (l : list A) (x : A) :
  In x (removelast l) -> In x l.
Proof.
  induction l as [| a l IH]; [intros [] |].
  destruct l as [| b l]; [intros [] |].
  intros [E | H]; [now left | right; now apply IH].
Qed.

Lemma yearly_kept_bars_in (now : Timestamp) (bars : list Bar) (x : Bar) :
  In x (yearly_kept_bars now bars) -> In x bars /\ 0 < Volume x.
Proof.
  unfold yearly_kept_bars.
  destruct (filter (fun b => 0 <? Volume b) bars) as [| b df] eqn:Hf; [intros [] |].
  intros H.
  assert (Hin : In x (b :: df)).
  { destruct ((date_of (bar_ts (last (b :: df) b)) =? date_of now) && before_close now);
      [now apply removelast_in | exact H]. }
  rewrite <- Hf in Hin. apply filter_In in Hin. destruct Hin as [H1 H2].
  split; [exact H1 | now apply Z.ltb_lt].
Qed.

(** The yearly collecting loop, with the exception handler applied. *)
Lemma yearly_step_eq (env : Env) (now : Timestamp) (start_date : date)
  (d : SeriesDict) (tk : Ticker) :
  try_pass (yearly_body env now start_date) d tk
  = match yearly_series env now start_date tk with
    | Some kv => dict_set (fst kv) (snd kv) d
    | None => d
    end.
Proof.
  destruct tk as [[code symbol] nm].
  unfold try_pass, yearly_body, yearly_series, yearly_kept_bars, bind. cbn [fst snd].
  destruct (history env symbol (Start start_date)) as [[| b0 bars] | e]; try reflexivity.
  destruct (filter (fun b => 0 <? Volume b) (b0 :: bars)) as [| b df]; [reflexivity |].
  destruct ((date_of (bar_ts (last (b :: df) b)) =? date_of now) && before_close now).
  - destruct (removelast (b :: df)); reflexivity.
  - reflexivity.
Qed.

Lemma yearly_all_series_fold (env : Env) (now : Timestamp) (vt : list Ticker) :
  yearly_all_series env now vt
  = fold_left (fun d tk =>
                 match yearly_series env now
                         (days_from_civil (year_of_date (date_of now)) 1 1) tk with
                 | Some kv => dict_set (fst kv) (snd kv) d
                 | None => d
                 end) vt [].
Proof. unfold yearly_all_series. apply fold_left_ext. apply yearly_step_eq. Qed.

Lemma yearly_series_ok (env : Env) (now : Timestamp) (start_date : date)
  (tk : Ticker) (kv : string * list (Timestamp * float)) :
  decimal_prices env ->
  yearly_series env now start_date tk = Some kv ->
  Forall (fun p => okcell (snd p) = true) (snd kv).
Proof.
  intros Hp. unfold yearly_series.
  destruct (history env (snd (fst tk)) (Start start_date)) as [bars | e] eqn:Hh;
    [| discriminate].
  destruct (yearly_kept_bars now bars) as [| b kept] eqn:Hk; [discriminate |].
  intros H. inversion H; subst kv. cbn [snd].
  change (Forall (fun p : Timestamp * float => okcell (snd p) = true)
            (map (fun x => (bar_ts x, Close x)) (b :: kept))).
  apply Forall_forall. intros p Hin. apply in_map_iff in Hin.
  destruct Hin as [x [<- Hx]]. cbn [snd].
  rewrite <- Hk in Hx. apply yearly_kept_bars_in in Hx. destruct Hx as [Hx _].
  apply is_price_okcell. exact (proj2 (Hp _ _ _ _ Hh Hx)).
Qed.

Lemma yearly_all_series_ok (env : Env) (now : Timestamp) (vt : list Ticker) :
  decimal_prices env -> series_ok (yearly_all_series env now vt).
Proof.
  intros Hp. rewrite yearly_all_series_fold.
  assert (H : forall d, series_ok d ->
              series_ok (fold_left (fun d tk =>
                 match yearly_series env now
                         (days_from_civil (year_of_date (date_of now)) 1 1) tk with
                 | Some kv => dict_set (fst kv) (snd kv) d
                 | None => d
                 end) vt d)).
  { induction vt as [| tk vt IH]; intros d Hd; cbn [fold_left]; [exact Hd |].
    apply IH.
    destruct (yearly_series env now _ tk) as [kv |] eqn:Hs; [| exact Hd].
    apply dict_set_ok; [exact Hd | exact (yearly_series_ok _ _ _ _ _ Hp Hs)]. }
  apply H. constructor.
Qed.

Lemma frame_of_dict_ok (d : SeriesDict) : series_ok d -> cells_ok (frame_of_dict d).
Proof.
  intros Hd. unfold cells_ok, frame_of_dict. cbn [rows].
  apply Forall_forall. intros r Hr. apply in_map_iff in Hr.
  destruct Hr as [t [<- _]]. cbn [snd].
  apply Forall_forall. intros x Hx. apply in_map_iff in Hx.
  destruct Hx as [s [<- Hs]]. apply value_at_ok.
  unfold series_ok in Hd. rewrite Forall_forall in Hd. now apply Hd.
Qed.

Lemma yearly_final_ok (vt : list Ticker) (d : SeriesDict) :
  series_ok d -> cells_ok (yearly_final vt d).
Proof.
  intros Hd.
  assert (Hc : cells_ok (yearly_combined d)).
  { unfold yearly_combined, cells_ok, ffill. cbn [rows].
    apply ffill_rows_ok; [constructor |].
    rewrite frame_of_dict_sorted. now apply frame_of_dict_ok. }
  unfold cells_ok in *. rewrite Forall_forall in Hc.
  apply Forall_forall. intros r Hr.
  unfold yearly_final in Hr. apply loc_rows_in in Hr.
  unfold yearly_filtered, coverage_filter in Hr. cbn [rows] in Hr.
  apply filter_In in Hr. apply Hc. tauto.
Qed.

Lemma nth_ok (cells : list float) (j : nat) :
  Forall (fun x => okcell x = true) cells -> okcell (nth j cells nan) = true.
Proof.
  intros H. revert j. induction H as [| c cs Hc _ IH]; intros [| j]; cbn; auto.
Qed.

(** ** The baseline of a yearly column *)

Lemma find_app_first {A : Type} (P : A -> bool) (l1 l2 : list A) :
  find P (l1 ++ l2) = match find P l1 with
                      | Some x => Some x
                      | None => find P l2
                      end.
Proof.
  induction l1 as [| a l1 IH]; cbn; [reflexivity |].
  destruct (P a); [reflexivity | exact IH].
Qed.

Lemma find_split {A : Type} (P : A -> bool) (l : list A) (x : A) :
  find P l = Some x ->
  exists pre post, l = pre ++ x :: post
                   /\ Forall (fun y => P y = false) pre /\ P x = true.
Proof.
  induction l as [| a l IH]; cbn; [discriminate |].
  destruct (P a) eqn:E.
  - intros H. inversion H; subst. exists [], l. repeat split; [constructor | exact E].
  - intros H. destruct (IH H) as [pre [post [E1 [E2 E3]]]].
    exists (a :: pre), post. rewrite E1. repeat split; [constructor; assumption | exact E3].
Qed.

Lemma find_map_fun {A B : Type} (g : A -> B) (P : B -> bool) (l : list A) :
  find P (map g l) = option_map g (find (fun x => P (g x)) l).
Proof.
  induction l as [| a l IH]; cbn; [reflexivity |].
  destruct (P (g a)); [reflexivity | exact IH].
Qed.

Lemma notna_false (x : float) : notna x = false -> x = nan.
Proof. now destruct x. Qed.

Lemma pct_return_nan (start_price : float) : pct_return start_price nan = nan.
Proof. now destruct start_price. Qed.

Lemma ytd_baseline_row (F : DataFrame Timestamp) (j : nat) (sp : float) :
  ytd_baseline F j = Some sp ->
  exists pre r0 post,
    rows F = pre ++ r0 :: post
    /\ Forall (fun r => nth j (snd r) nan = nan) pre
    /\ nth j (snd r0) nan = sp
    /\ ltb zero sp = true.
Proof.
  unfold ytd_baseline, first_valid_index.
  destruct (find (fun p => notna (snd p)) (column j F)) as [p |] eqn:Hf; [| discriminate].
  destruct (ltb zero (value_at (column j F) (fst p))) eqn:Hg; [| discriminate].
  intros H. inversion H; subst sp. clear H.
  unfold column in Hf. rewrite find_map_fun in Hf. cbn [snd] in Hf.
  destruct (find (fun r : Timestamp * list float => notna (nth j (snd r) nan)) (rows F))
    as [r0 |] eqn:Hr; [| discriminate].
  cbn in Hf. inversion Hf; subst p. clear Hf. cbn [fst] in *.
  apply find_split in Hr. destruct Hr as [pre [post [E [Hpre Hr0]]]].
  assert (Hpre' : Forall (fun r => nth j (snd r) nan = nan) pre).
  { eapply Forall_impl; [| exact Hpre]. intros r Hn. now apply notna_false. }
  exists pre, r0, post. split; [exact E |]. split; [exact Hpre' |].
  change (value_at (column j F) (fst r0)) with (cell F j (fst r0)) in *.
  rewrite cell_find, E, find_app_first in *.
  destruct (find (fun r => fst r =? fst r0) pre) as [r' |] eqn:Hp.
  - exfalso. apply find_some in Hp. destruct Hp as [Hin _].
    cbv beta iota in Hg.
    rewrite Forall_forall in Hpre'. specialize (Hpre' _ Hin). cbv beta in Hpre'.
    unfold Timestamp in *. rewrite Hpre' in Hg. discriminate.
  - cbn [find] in *. rewrite Z.eqb_refl in *. split; [reflexivity | exact Hg].
Qed.

Lemma ytd_columns_baseline (F : DataFrame Timestamp) (nm : string) (j : nat) (sp : float) :
  In (nm, j, sp) (ytd_columns F) -> ytd_baseline F j = Some sp.
Proof.
  unfold ytd_columns. intros H. apply in_flat_map in H.
  destruct H as [[j' c'] [_ Hin]]. cbn [fst snd] in Hin.
  destruct (ytd_baseline F j') as [sp' |] eqn:E; [| destruct Hin].
  destruct Hin as [E' | []]. inversion E'; subst. exact E.
Qed.

Lemma ytd_frame_rows (F : DataFrame Timestamp) :
  ytd_columns F <> [] ->
  rows (ytd_frame F)
  = map (fun r => (fst r,
                   map (fun c => pct_return (snd c) (nth (snd (fst c)) (snd r) nan))
                     (ytd_columns F)))
      (rows F).
Proof. unfold ytd_frame. destruct (ytd_columns F); [contradiction | reflexivity]. Qed.

(** In the table of year-to-date returns every column is 0 on its first
    valid row and null above it. *)
Lemma ytd_frame_baseline (F : DataFrame Timestamp) (k : nat) (nm : string) :
  cells_ok F ->
  nth_error (columns (ytd_frame F)) k = Some nm ->
  exists pre t r post,
    rows (ytd_frame F) = pre ++ (t, r) :: post
    /\ nth k r nan = zero
    /\ Forall (fun r' => isna (nth k (snd r') nan) = true) pre.
Proof.
  intros Hok Hk. rewrite ytd_frame_columns, nth_error_map in Hk.
  destruct (nth_error (ytd_columns F) k) as [[[nm' j] sp] |] eqn:Hc; [| discriminate].
  pose proof (ytd_columns_baseline F nm' j sp (nth_error_In _ _ Hc)) as Hb.
  destruct (ytd_baseline_row F j sp Hb) as [pre [r0 [post [E [Hpre [Hsp Hgt]]]]]].
  assert (Hprice : is_price sp = true).
  { apply baseline_positive; [exact Hgt |].
    assert (Hcell : okcell sp = true).
    { rewrite <- Hsp. apply nth_ok. unfold cells_ok in Hok.
      rewrite Forall_forall in Hok. apply Hok. rewrite E.
      apply in_or_app. right. now left. }
    unfold okcell in Hcell. destruct sp; try discriminate; reflexivity. }
  rewrite ytd_frame_rows by (intros Hn; rewrite Hn in Hc; destruct k; discriminate).
  rewrite E, map_app. cbn [map].
  eexists _, _, _, _. split; [reflexivity |]. split.
  - cbn [snd].
    erewrite nth_error_nth; [| apply map_nth_error; exact Hc].
    cbn [fst snd]. rewrite Hsp. now apply pct_return_price.
  - apply Forall_forall. intros r' Hr'. apply in_map_iff in Hr'.
    destruct Hr' as [r'' [<- Hin]]. cbn [snd].
    erewrite nth_error_nth; [| apply map_nth_error; exact Hc].
    cbn [fst snd]. rewrite Forall_forall in Hpre. rewrite (Hpre _ Hin).
    now rewrite pct_return_nan.
Qed.

(** ** The baseline of a weekly column *)

Lemma get_weekly_trend_columns (env : Env) (now : Timestamp) (vt : list Ticker) :
  columns (get_weekly_trend env now vt) = columns (weekly_trend_data env now vt).
Proof.
  unfold get_weekly_trend. now destruct (df_empty (weekly_trend_data env now vt)).
Qed.


Lemma get_yearly_trend_rows (env : Env) (now : Timestamp) (vt : list Ticker) :
  rows (get_yearly_trend env now vt)
  = map (fun r => (strftime_md (fst r), snd r)) (rows (yearly_trend_data env now vt))
  /\ columns (get_yearly_trend env now vt) = columns (yearly_trend_data env now vt).
Proof. split; reflexivity. Qed.

Lemma gap_env_prices : decimal_prices gap_env.
Proof.
  intros symbol req bars b Hh Hin. unfold gap_env in Hh. cbn [history] in Hh.
  destruct (String.eqb symbol "G0.TW").
  - inversion Hh; subst bars. clear Hh.
    repeat (destruct Hin as [<- | Hin]; [split; reflexivity |]). destruct Hin.
  - destruct (String.eqb symbol "G1.TW").
    + inversion Hh; subst bars. clear Hh.
      repeat (destruct Hin as [<- | Hin]; [split; reflexivity |]). destruct Hin.
    + inversion Hh; subst bars. destruct Hin.
Defined.

(** ** The baseline guard *)

Lemma monthly_series_origin (env : Env) (start_date : date) (tk : Ticker) (s : Series) :
  monthly_series env start_date tk = Some s ->
  exists b bars,
    history env (snd (fst tk)) (Start start_date) = Ok (b :: bars)
    /\ ltb zero (Close b) = true
    /\ name s = column_name (fst (fst tk)) (snd tk)
    /\ points s = map (fun x => (bar_ts x, pct_return (Close b) (Close x))) (b :: bars).
Proof.
  unfold monthly_series.
  destruct (history env _ _) as [[| b bars] | e]; try discriminate.
  destruct (ltb zero (Close b)) eqn:Hg; try discriminate.
  intros H. inversion H. exists b, bars. auto.
Qed.

(** The monthly and the yearly loops keep a column only above a baseline
    that is greater than zero. *)
Lemma monthly_yearly_guard (env : Env) (now : Timestamp) (valid_tickers : list Ticker) :
  (forall j nm,
     nth_error (columns (get_monthly_trend env now valid_tickers)) j = Some nm ->
     exists tk b bars,
       In tk valid_tickers
       /\ history env (snd (fst tk))
            (Start (date_of now - (day_of_date (date_of now) - 1))) = Ok (b :: bars)
       /\ nm = column_name (fst (fst tk)) (snd tk)
       /\ ltb zero (Close b) = true)
  /\ (forall k nm,
        nth_error (columns (get_yearly_trend env now valid_tickers)) k = Some nm ->
        exists j start_price,
          nth_error (ytd_columns (yearly_final valid_tickers
                                    (yearly_all_series env now valid_tickers))) k
          = Some (nm, j, start_price)
          /\ ltb zero start_price = true).
Proof.
  split.
  - intros j nm Hj.
    assert (Hc : columns (get_monthly_trend env now valid_tickers)
                 = columns (monthly_trend_data env now valid_tickers)).
    { unfold get_monthly_trend.
      now destruct (df_empty (monthly_trend_data env now valid_tickers)). }
    rewrite Hc in Hj. clear Hc.
    destruct (merge_fold_represents _ valid_tickers
                (monthly_series_points env
                   (date_of now - (day_of_date (date_of now) - 1)))
                empty_frame [] represents_empty) as [ss [R F]].
    rewrite <- monthly_trend_data_merge in R. cbn [app] in R.
    rewrite (rep_columns _ _ R), nth_error_map in Hj.
    destruct (nth_error ss j) as [s |] eqn:Hs; [| discriminate].
    cbn in Hj. inversion Hj; subst nm.
    rewrite Forall_forall in F. destruct (F s (nth_error_In _ _ Hs)) as [tk [Hin Hm]].
    destruct (monthly_series_origin _ _ _ _ Hm) as [b [bars [H1 [H2 [H3 _]]]]].
    exists tk, b, bars. auto.
  - intros k nm Hk.
    change (columns (get_yearly_trend env now valid_tickers))
      with (columns (yearly_trend_data env now valid_tickers)) in Hk.
    unfold yearly_trend_data in Hk.
    destruct (yearly_all_series env now valid_tickers) as [| s0 d] eqn:Hd;
      [destruct k; discriminate |].
    rewrite ytd_frame_columns, nth_error_map in Hk.
    destruct (nth_error (ytd_columns (yearly_final valid_tickers (s0 :: d))) k)
      as [[[nm' j] sp] |] eqn:Hc; [| discriminate].
    cbn in Hk. inversion Hk; subst nm'.
    exists j, sp. split; [reflexivity |].
    pose proof (ytd_columns_baseline _ nm j sp (nth_error_In _ _ Hc)) as Hb.
    destruct (ytd_baseline_row _ j sp Hb) as [_ [_ [_ [_ [_ [_ Hg]]]]]]. exact Hg.
Qed.

(** C3, at the failing input.  A security whose first bar of the week opens
    at 0.0: the weekly table keeps its column (two null cells from 0/0, then
    +infinity from dividing by zero), where the monthly and the yearly loop,
    which test [start_price > 0], leave the column out. *)
Theorem weekly_keeps_zero_baseline_column :
  get_weekly_trend zero_env tuesday_afternoon [ticker_of "Z0"]
  = {| columns := ["Z0 Z0"];
       rows := [ ("12月8號 週一 09:00", [S754_nan]);
                 ("12月8號 週一 13:30", [S754_nan]);
                 ("12月9號 週二 09:00", [S754_infinity false]);
                 ("12月9號 週二 13:30", [S754_infinity false]) ] |}
  /\ columns (get_monthly_trend zero_env tuesday_afternoon [ticker_of "Z0"]) = []
  /\ columns (get_yearly_trend zero_env tuesday_afternoon [ticker_of "Z0"]) = [].
Proof.
  split; [vm_compute; reflexivity |].
  split; vm_compute; reflexivity.
Qed.

(** ** One failing security *)

Lemma fold_try_pass_skip {Acc Item : Type} (body : Acc -> Item -> Result Acc)
  (l1 l2 : list Item) (x : Item) (acc : Acc) (e : string) :
  body (fold_left (try_pass body) l1 acc) x = Raise e ->
  fold_left (try_pass body) (l1 ++ x :: l2) acc
  = fold_left (try_pass body) (l1 ++ l2) acc.
Proof.
  intros H. rewrite !fold_left_app. cbn [fold_left].
  unfold try_pass at 2. now rewrite H.
Qed.

Lemma history_step_items (env : Env) (target_date : date) (total : Z)
  (st : HistoryState) (ic : Z * string) :
  fst (history_step env target_date total st ic)
  = fst st ++ history_items env target_date (snd ic)
  /\ (filter is_message (snd st) = [] ->
      filter is_message (snd (history_step env target_date total st ic)) = []).
Proof.
  destruct st as [data_list ui]. destruct ic as [i raw].
  unfold history_step, history_items. cbn [fst snd].
  destruct (String.eqb (strip raw) "").
  - cbn. now rewrite app_nil_r.
  - split.
    + destruct (history_body env target_date (strip raw)) as [[row |] | e]; cbn;
        now rewrite ?app_nil_r.
    + intros Hui. cbn [snd]. rewrite !filter_app, Hui. reflexivity.
Qed.

Lemma history_fold (env : Env) (target_date : date) (total : Z)
  (ics : list (Z * string)) (st : HistoryState) :
  fst (fold_left (history_step env target_date total) ics st)
  = fst st ++ flat_map (history_items env target_date) (map snd ics)
  /\ (filter is_message (snd st) = [] ->
      filter is_message (snd (fold_left (history_step env target_date total) ics st)) = []).
Proof.
  revert st. induction ics as [| ic ics IH]; intros st; cbn [fold_left map flat_map].
  - now rewrite app_nil_r.
  - destruct (IH (history_step env target_date total st ic)) as [H1 H2].
    destruct (history_step_items env target_date total st ic) as [S1 S2].
    rewrite H1, S1, app_assoc. auto.
Qed.

(** The rows of a date lookup, entry by entry; the lookup shows no warning
    and no error. *)
Lemma history_fetch_items (env : Env) (stock_list : list string) (target_date : date) :
  fst (history_fetch env stock_list target_date)
  = flat_map (history_items env target_date) stock_list
  /\ filter is_message (snd (history_fetch env stock_list target_date)) = [].
Proof.
  unfold history_fetch.
  pose proof (history_fold env target_date (Z.of_nat (List.length stock_list))
                (enumerate stock_list) ([], [Progress zero])) as [H1 H2].
  rewrite map_snd_enumerate in H1.
  destruct (fold_left _ _ _) as [d ui]. cbn [fst snd] in *.
  split; [exact H1 |]. rewrite filter_app, H2 by reflexivity. reflexivity.
Qed.

Lemma get_history_by_date_items (env : Env) (now : Timestamp)
  (stock_list : list string) (target_date : date) :
  (fst (get_history_by_date env now stock_list target_date) = []
   \/ fst (get_history_by_date env now stock_list target_date)
      = flat_map (history_items env target_date) stock_list)
  /\ (forall l1 l2 raw,
        history_items env target_date raw = [] ->
        fst (get_history_by_date env now (l1 ++ raw :: l2) target_date)
        = fst (get_history_by_date env now (l1 ++ l2) target_date))
  /\ filter is_message (snd (get_history_by_date env now stock_list target_date)) = [].
Proof.
  unfold get_history_by_date.
  destruct ((target_date =? date_of now) && before_close now);
    [repeat split; auto |].
  destruct (date_of now <? target_date); [repeat split; auto |].
  split; [right; apply history_fetch_items |].
  split; [| apply history_fetch_items].
  intros l1 l2 raw Hraw.
  rewrite (proj1 (history_fetch_items env (l1 ++ raw :: l2) target_date)).
  rewrite (proj1 (history_fetch_items env (l1 ++ l2) target_date)).
  rewrite !flat_map_app. cbn [flat_map]. now rewrite Hraw.
Qed.

Lemma stock_ui_grows (env : Env) (total : Z) (ics : list (Z * string))
  (st : StockState) (ev : UiEvent) :
  In ev (snd st) -> In ev (snd (fold_left (get_stock_data_step env total) ics st)).
Proof.
  revert st. induction ics as [| ic ics IH]; intros st Hin; [exact Hin |].
  cbn [fold_left]. apply IH.
  destruct st as [[d v] ui]. destruct ic as [i raw]. cbn [snd] in Hin.
  unfold get_stock_data_step.
  destruct (String.eqb (strip raw) ""); [exact Hin |].
  destruct (quote_body env (strip raw)) as [[[row tk] |] | e]; cbn [snd];
    repeat (apply in_or_app; left); exact Hin.
Qed.

Lemma stock_error_shown (env : Env) (total : Z) (ics : list (Z * string))
  (st : StockState) (i : Z) (raw e : string) :
  In (i, raw) ics -> strip raw <> "" -> quote_body env (strip raw) = Raise e ->
  In (Error ("抓取 " ++ strip raw ++ " 錯誤: " ++ e)%string)
    (snd (fold_left (get_stock_data_step env total) ics st)).
Proof.
  revert st. induction ics as [| ic ics IH]; intros st Hin Hne Hq; [destruct Hin |].
  cbn [fold_left]. destruct Hin as [-> | Hin]; [| now apply IH].
  apply stock_ui_grows.
  destruct st as [[d v] ui]. unfold get_stock_data_step.
  destruct (String.eqb_spec (strip raw) ""); [contradiction |].
  rewrite Hq. cbn [snd]. apply in_or_app. left. apply in_or_app. right. now left.
Qed.

(** C8, as the code has it.  A security whose processing raises is skipped
    and the loop goes on: the rows and tickers of [get_stock_data], the
    weekly and the monthly table, the series collected for the yearly table
    and the rows of a date lookup are those of the batch without it.
    [get_stock_data] shows an error naming the code and the exception; the
    date lookup shows no warning and no error. *)
Theorem failure_isolation (env : Env) (now : Timestamp) :
  (forall l1 l2 raw e,
     strip raw <> "" -> quote_body env (strip raw) = Raise e ->
     fst (get_stock_data env (l1 ++ raw :: l2)) = fst (get_stock_data env (l1 ++ l2))
     /\ In (Error ("抓取 " ++ strip raw ++ " 錯誤: " ++ e)%string)
          (snd (get_stock_data env (l1 ++ raw :: l2))))
  /\ (forall l1 l2 tk e,
        weekly_body env (date_of now - weekday (date_of now))
          (weekly_trend_data env now l1) tk = Raise e ->
        get_weekly_trend env now (l1 ++ tk :: l2) = get_weekly_trend env now (l1 ++ l2))
  /\ (forall l1 l2 tk e,
        monthly_body env (date_of now - (day_of_date (date_of now) - 1))
          (monthly_trend_data env now l1) tk = Raise e ->
        get_monthly_trend env now (l1 ++ tk :: l2) = get_monthly_trend env now (l1 ++ l2))
  /\ (forall l1 l2 tk e,
        yearly_body env now (days_from_civil (year_of_date (date_of now)) 1 1)
          (yearly_all_series env now l1) tk = Raise e ->
        yearly_all_series env now (l1 ++ tk :: l2) = yearly_all_series env now (l1 ++ l2))
  /\ (forall target_date l1 l2 raw e,
        history_body env target_date (strip raw) = Raise e ->
        fst (get_history_by_date env now (l1 ++ raw :: l2) target_date)
        = fst (get_history_by_date env now (l1 ++ l2) target_date))
  /\ (forall target_date stock_list,
        filter is_message (snd (get_history_by_date env now stock_list target_date)) = []).
Proof.
  split.
  { intros l1 l2 raw e Hne Hq.
    assert (Hitems : quote_items env raw = []).
    { unfold quote_items. destruct (String.eqb (strip raw) ""); [reflexivity |].
      now rewrite Hq. }
    split.
    - destruct (get_stock_data_items env (l1 ++ raw :: l2)) as [A1 A2].
      destruct (get_stock_data_items env (l1 ++ l2)) as [B1 B2].
      rewrite !flat_map_app in A1, A2, B1, B2. cbn [flat_map] in A1, A2.
      rewrite Hitems in A1, A2. cbn [app] in A1, A2.
      rewrite <- B1 in A1. rewrite <- B2 in A2.
      destruct (get_stock_data env (l1 ++ raw :: l2)) as [[d v] ui].
      destruct (get_stock_data env (l1 ++ l2)) as [[d' v'] ui'].
      cbn [fst snd] in *. now subst.
    - unfold get_stock_data.
      assert (Hin : exists i, In (i, raw) (enumerate (l1 ++ raw :: l2))).
      { assert (H : In raw (map snd (enumerate (l1 ++ raw :: l2)))).
        { rewrite map_snd_enumerate. apply in_or_app. right. now left. }
        apply in_map_iff in H. destruct H as [[i r] [E H]]. cbn in E. subst r.
        now exists i. }
      destruct Hin as [i Hin].
      pose proof (stock_error_shown env (Z.of_nat (List.length (l1 ++ raw :: l2)))
                    (enumerate (l1 ++ raw :: l2)) ([], [], [Progress zero])
                    i raw e Hin Hne Hq) as Hshown.
      destruct (fold_left _ _ _) as [[d v] ui]. cbn [snd] in *.
      apply in_or_app. now left. }
  split.
  { intros l1 l2 tk e H. unfold get_weekly_trend, weekly_trend_data in *.
    now rewrite (fold_try_pass_skip _ l1 l2 tk empty_frame e H). }
  split.
  { intros l1 l2 tk e H. unfold get_monthly_trend, monthly_trend_data in *.
    now rewrite (fold_try_pass_skip _ l1 l2 tk empty_frame e H). }
  split.
  { intros l1 l2 tk e H. unfold yearly_all_series in *. cbv zeta in *.
    exact (fold_try_pass_skip _ l1 l2 tk [] e H). }
  split.
  { intros target_date l1 l2 raw e H.
    apply (proj1 (proj2 (get_history_by_date_items env now [] target_date))).
    unfold history_items. destruct (String.eqb (strip raw) ""); [reflexivity |].
    now rewrite H. }
  intros target_date stock_list.
  apply (proj2 (proj2 (get_history_by_date_items env now stock_list target_date))).
Qed.

Lemma failure_isolation_witness :
  fst (get_stock_data coverage_env (["S0"] ++ "FAIL" :: ["S3"]))
  = fst (get_stock_data coverage_env (["S0"] ++ ["S3"]))
  /\ In (Error "抓取 FAIL 錯誤: timed out")
       (snd (get_stock_data coverage_env (["S0"] ++ "FAIL" :: ["S3"]))).
Proof.
  destruct (failure_isolation coverage_env tuesday_afternoon) as [H _].
  apply (H ["S0"] ["S3"] "FAIL" "timed out").
  - vm_compute. discriminate.
  - vm_compute. reflexivity.
Defined.

(** C8 as stated fails twice.  The date lookup swallows the exception of a
    failing security without any message; and the yearly table of a batch
    with the failing security "FAIL2" differs from the table of the batch
    without it, since the coverage threshold counts every ticker. *)
Lemma failure_isolation_counterexample :
  history coverage_env "FAIL2.TW" (Start 0) = Raise "timed out"
  /\ history_body coverage_env (date_of tuesday_afternoon) "FAIL" = Raise "timed out"
  /\ filter is_message
       (snd (get_history_by_date coverage_env tuesday_afternoon ["FAIL"]
               (date_of tuesday_afternoon))) = []
  /\ map fst (rows (get_yearly_trend coverage_env tuesday_afternoon
                      [ticker_of "S0"; ticker_of "S3"; ticker_of "FAIL";
                       ticker_of "FAIL2"])) = ["12/09"]
  /\ map fst (rows (get_yearly_trend coverage_env tuesday_afternoon
                      [ticker_of "S0"; ticker_of "S3"; ticker_of "FAIL"]))
     = ["12/08"; "12/09"].
Proof.
  split; [vm_compute; reflexivity |].
  split; [vm_compute; reflexivity |].
  split; [vm_compute; reflexivity |].
  split; vm_compute; reflexivity.
Qed.

(** ** The rows of the quote table *)

Lemma quote_body_code (env : Env) (code : string) (row : QuoteRow) (tk : Ticker) :
  quote_body env code = Ok (Some (row, tk)) -> q_code row = code.
Proof.
  unfold quote_body, bind.
  destruct (history env _ _) as [hist | e]; [| discriminate].
  destruct (rev hist) as [| latest older]; [discriminate |].
  destruct (stock_name env _ _) as [nm | e]; [| discriminate].
  destruct (int_ _) as [v | e]; [| discriminate].
  intros H. inversion H. reflexivity.
Qed.

Lemma quote_items_shape (env : Env) (raw : string) :
  map (fun rt => q_code (fst rt)) (quote_items env raw)
  = filter (quoted env) [strip raw]
  /\ Forall (fun rt => snd rt = (q_code (fst rt), (q_code (fst rt) ++ ".TW")%string,
                                  q_name (fst rt)))
       (quote_items env raw).
Proof.
  unfold quote_items, quoted. cbn [filter].
  destruct (String.eqb (strip raw) ""); [split; [reflexivity | constructor] |].
  cbn [negb andb].
  destruct (quote_body env (strip raw)) as [[[row tk] |] | e] eqn:Hq;
    try (split; [reflexivity | constructor]).
  pose proof (quote_body_code _ _ _ _ Hq) as Hc.
  destruct (quote_body_name _ _ _ _ Hq) as [_ Ht].
  split.
  - cbn. now rewrite Hc.
  - constructor; [| constructor]. cbn. now rewrite Hc.
Qed.

(** X1.  The table of [get_stock_data] and its list of tickers go together:
    the i-th ticker is (code, code.TW, name) of the i-th row; the codes of the
    rows are, in order, the stripped non-blank entries for which a row was
    built, so there are at most as many rows as entries. *)
Theorem quote_rows_aligned (env : Env) (stock_list : list string) :
  let data_list := fst (fst (get_stock_data env stock_list)) in
  let valid_tickers := snd (fst (get_stock_data env stock_list)) in
  valid_tickers
  = map (fun row => (q_code row, (q_code row ++ ".TW")%string, q_name row)) data_list
  /\ map q_code data_list = filter (quoted env) (map strip stock_list)
  /\ (List.length data_list <= List.length stock_list)%nat
  /\ List.length valid_tickers = List.length data_list.
Proof.
  cbv zeta. destruct (get_stock_data_items env stock_list) as [Hd Hv].
  rewrite Hd, Hv. clear Hd Hv.
  assert (H : map snd (flat_map (quote_items env) stock_list)
              = map (fun row => (q_code row, (q_code row ++ ".TW")%string, q_name row))
                  (map fst (flat_map (quote_items env) stock_list))
              /\ map q_code (map fst (flat_map (quote_items env) stock_list))
                 = filter (quoted env) (map strip stock_list)).
  { induction stock_list as [| raw l [IH1 IH2]]; [split; reflexivity |].
    cbn [flat_map map]. rewrite !map_app, IH1, IH2.
    destruct (quote_items_shape env raw) as [Hc Ht].
    split.
    - f_equal. clear Hc. induction Ht as [| rt rs Hrt _ IH]; [reflexivity |].
      cbn [map]. f_equal; [exact Hrt | exact IH].
    - rewrite map_map, Hc. cbn [filter].
      now destruct (quoted env (strip raw)). }
  destruct H as [H1 H2].
  split; [exact H1 |]. split; [exact H2 |]. split.
  - rewrite <- (length_map q_code), H2, <- (length_map strip stock_list).
    apply filter_length_le.
  - now rewrite !length_map.
Qed.

Lemma stock_warning_shown (env : Env) (total : Z) (ics : list (Z * string))
  (st : StockState) (i : Z) (raw : string) :
  In (i, raw) ics -> strip raw <> "" -> quote_body env (strip raw) = Ok None ->
  In (Warning ("找不到 " ++ strip raw ++ " 的資料。")%string)
    (snd (fold_left (get_stock_data_step env total) ics st)).
Proof.
  revert st. induction ics as [| ic ics IH]; intros st Hin Hne Hq; [destruct Hin |].
  cbn [fold_left]. destruct Hin as [-> | Hin]; [| now apply IH].
  apply stock_ui_grows.
  destruct st as [[d v] ui]. unfold get_stock_data_step.
  destruct (String.eqb_spec (strip raw) ""); [contradiction |].
  rewrite Hq. cbn [snd]. apply in_or_app. left. apply in_or_app. right. now left.
Qed.

(** X2.  An entry for which the provider has no bar of the last five days:
    a warning names the code, and rows and tickers are those of the list
    without the entry. *)
Theorem missing_data_warning (env : Env) (l1 l2 : list string) (raw : string) :
  strip raw <> "" ->
  history env (strip raw ++ ".TW") Period5d = Ok [] ->
  fst (get_stock_data env (l1 ++ raw :: l2)) = fst (get_stock_data env (l1 ++ l2))
  /\ In (Warning ("找不到 " ++ strip raw ++ " 的資料。")%string)
       (snd (get_stock_data env (l1 ++ raw :: l2))).
Proof.
  intros Hne Hh.
  assert (Hq : quote_body env (strip raw) = Ok None).
  { unfold quote_body, bind. now rewrite Hh. }
  assert (Hitems : quote_items env raw = []).
  { unfold quote_items. destruct (String.eqb (strip raw) ""); [reflexivity |].
    now rewrite Hq. }
  split.
  - destruct (get_stock_data_items env (l1 ++ raw :: l2)) as [A1 A2].
    destruct (get_stock_data_items env (l1 ++ l2)) as [B1 B2].
    rewrite !flat_map_app in A1, A2, B1, B2. cbn [flat_map] in A1, A2.
    rewrite Hitems in A1, A2. cbn [app] in A1, A2.
    rewrite <- B1 in A1. rewrite <- B2 in A2.
    destruct (get_stock_data env (l1 ++ raw :: l2)) as [[d v] ui].
    destruct (get_stock_data env (l1 ++ l2)) as [[d' v'] ui'].
    cbn [fst snd] in *. now subst.
  - unfold get_stock_data.
    assert (Hin : exists i, In (i, raw) (enumerate (l1 ++ raw :: l2))).
    { assert (H : In raw (map snd (enumerate (l1 ++ raw :: l2)))).
      { rewrite map_snd_enumerate. apply in_or_app. right. now left. }
      apply in_map_iff in H. destruct H as [[i r] [E H]]. cbn in E. subst r.
      now exists i. }
    destruct Hin as [i Hin].
    pose proof (stock_warning_shown env (Z.of_nat (List.length (l1 ++ raw :: l2)))
                  (enumerate (l1 ++ raw :: l2)) ([], [], [Progress zero])
                  i raw Hin Hne Hq) as Hshown.
    destruct (fold_left _ _ _) as [[d v] ui]. cbn [snd] in *.
    apply in_or_app. now left.
Qed.

Lemma missing_data_warning_witness :
  fst (get_stock_data sample_env (["2330"] ++ " 8888 " :: ["2317"]))
  = fst (get_stock_data sample_env (["2330"] ++ ["2317"]))
  /\ In (Warning "找不到 8888 的資料。")
       (snd (get_stock_data sample_env (["2330"] ++ " 8888 " :: ["2317"]))).
Proof.
  apply (missing_data_warning sample_env ["2330"] ["2317"] " 8888 ").
  - vm_compute. discriminate.
  - vm_compute. reflexivity.
Defined.

(** ** The rows of a date lookup *)

Lemma history_items_shape (env : Env) (target_date : date) (raw : string) :
  map h_code (history_items env target_date raw)
  = filter (found env target_date) [strip raw]
  /\ Forall (fun row =>
       exists b bars,
         strip raw <> ""
         /\ h_code row = strip raw
         /\ history env (strip raw ++ ".TW") (StartEnd target_date (target_date + 1))
            = Ok (b :: bars)
         /\ stock_name env (strip raw ++ ".TW") (strip raw) = Ok (h_name row)
         /\ h_date row = (strftime_Ymd target_date ++ " 13:30")%string
         /\ h_open row = round2 (Open b) /\ h_high row = round2 (High b)
         /\ h_low row = round2 (Low b) /\ h_close row = round2 (Close b)
         /\ int_ (of_Z (Volume b)) = Ok (h_volume row))
       (history_items env target_date raw).
Proof.
  unfold history_items, found. cbn [filter].
  destruct (String.eqb_spec (strip raw) ""); [split; [reflexivity | constructor] |].
  cbn [negb andb].
  destruct (history_body env target_date (strip raw)) as [[row |] | e] eqn:Hb;
    try (split; [reflexivity | constructor]).
  unfold history_body, bind in Hb.
  destruct (history env _ _) as [[| b bars] | e] eqn:Hh; try discriminate.
  destruct (stock_name env _ _) as [nm | e]; [| discriminate].
  destruct (int_ _) as [v | e] eqn:Hv; [| discriminate].
  inversion Hb; subst row. clear Hb. cbn. split; [reflexivity |].
  constructor; [| constructor].
  exists b, bars. cbn. repeat split; auto.
Qed.

(** An entry gives a row of a date lookup when it is not blank, the provider
    has a bar in the window, [stock.info] answers and the volume converts. *)
Lemma found_spec (env : Env) (target_date : date) (code : string) :
  found env target_date code = true <->
  code <> ""
  /\ exists b bars nm v,
       history env (code ++ ".TW") (StartEnd target_date (target_date + 1)) = Ok (b :: bars)
       /\ stock_name env (code ++ ".TW") code = Ok nm
       /\ int_ (of_Z (Volume b)) = Ok v.
Proof.
  unfold found, history_body, bind.
  destruct (String.eqb_spec code "") as [E | E]; cbn [negb andb].
  - split; [discriminate | intros [H _]; contradiction].
  - destruct (history env _ _) as [[| b bars] | e].
    + split; [discriminate | intros [_ [b [bars [nm [v [H _]]]]]]; discriminate].
    + destruct (stock_name env _ _) as [nm | e].
      * destruct (int_ (of_Z (Volume b))) as [v | e] eqn:Hv.
        -- split; [| reflexivity]. intros _. split; [exact E |].
           now exists b, bars, nm, v.
        -- split; [discriminate |].
           intros [_ [b' [bars' [nm' [v' [H [_ Hv']]]]]]].
           inversion H; subst. rewrite Hv in Hv'. discriminate.
      * split; [discriminate |].
        intros [_ [b' [bars' [nm' [v' [_ [Hn _]]]]]]]. discriminate.
    + split; [discriminate | intros [_ [b [bars [nm [v [H _]]]]]]; discriminate].
Qed.

(** X3.  A date lookup returns no row while the gate is closed (a date after
    today, or today before 13:30).  Otherwise its rows are, in the order of
    the list, those of the stripped entries that are not blank and for which
    a row can be built: the provider has a bar in the one-day window
    [target_date, target_date + 1), [stock.info] answers and the volume
    converts.  Every row shows the first bar of that window, rounded to two
    decimals, with the name of the name logic, under the requested date with
    13:30 put after it, whatever timestamp the bar carries. *)
Theorem history_rows_first_bar (env : Env) (now : Timestamp)
  (stock_list : list string) (target_date : date) :
  let data_list := fst (get_history_by_date env now stock_list target_date) in
  let closed := date_of now < target_date
                \/ (target_date = date_of now /\ second_of_day now < timedelta 13 30) in
  (closed -> data_list = [])
  /\ (~ closed ->
      map h_code data_list = filter (found env target_date) (map strip stock_list))
  /\ (forall code,
        found env target_date code = true <->
        code <> ""
        /\ exists b bars nm v,
             history env (code ++ ".TW") (StartEnd target_date (target_date + 1))
             = Ok (b :: bars)
             /\ stock_name env (code ++ ".TW") code = Ok nm
             /\ int_ (of_Z (Volume b)) = Ok v)
  /\ (List.length data_list <= List.length stock_list)%nat
  /\ Forall (fun row =>
       exists raw b bars,
         In raw stock_list /\ strip raw <> ""
         /\ h_code row = strip raw
         /\ history env (strip raw ++ ".TW") (StartEnd target_date (target_date + 1))
            = Ok (b :: bars)
         /\ stock_name env (strip raw ++ ".TW") (strip raw) = Ok (h_name row)
         /\ h_date row = (strftime_Ymd target_date ++ " 13:30")%string
         /\ h_open row = round2 (Open b) /\ h_high row = round2 (High b)
         /\ h_low row = round2 (Low b) /\ h_close row = round2 (Close b)
         /\ int_ (of_Z (Volume b)) = Ok (h_volume row))
       data_list.
Proof.
  cbv zeta.
  assert (Hall : map h_code (flat_map (history_items env target_date) stock_list)
                 = filter (found env target_date) (map strip stock_list)
                 /\ Forall (fun row =>
                      exists raw b bars,
                        In raw stock_list /\ strip raw <> ""
                        /\ h_code row = strip raw
                        /\ history env (strip raw ++ ".TW")
                             (StartEnd target_date (target_date + 1)) = Ok (b :: bars)
                        /\ stock_name env (strip raw ++ ".TW") (strip raw)
                           = Ok (h_name row)
                        /\ h_date row = (strftime_Ymd target_date ++ " 13:30")%string
                        /\ h_open row = round2 (Open b) /\ h_high row = round2 (High b)
                        /\ h_low row = round2 (Low b) /\ h_close row = round2 (Close b)
                        /\ int_ (of_Z (Volume b)) = Ok (h_volume row))
                      (flat_map (history_items env target_date) stock_list)).
  { induction stock_list as [| raw l [IH1 IH2]]; [split; [reflexivity | constructor] |].
    cbn [flat_map map]. destruct (history_items_shape env target_date raw) as [Hc Hr].
    split.
    - rewrite map_app, Hc, IH1. cbn [filter].
      now destruct (found env target_date (strip raw)).
    - apply Forall_app. split.
      + eapply Forall_impl; [| exact Hr]. cbv beta.
        intros row [b [bars [H0 H]]]. exists raw, b, bars.
        split; [now left |]. split; [exact H0 | exact H].
      + eapply Forall_impl; [| exact IH2]. cbv beta.
        intros row [raw' [b [bars [Hin H]]]]. exists raw', b, bars.
        split; [now right | exact H]. }
  destruct Hall as [Hcodes Hrows].
  assert (Hclosed : date_of now < target_date
                    \/ (target_date = date_of now
                        /\ second_of_day now < timedelta 13 30) ->
                    fst (get_history_by_date env now stock_list target_date) = []).
  { intros Hgate. unfold get_history_by_date. rewrite before_close_spec.
    destruct Hgate as [Hfut | [Heq Hclose]].
    - destruct ((target_date =? date_of now) && _); [reflexivity |].
      apply Z.ltb_lt in Hfut. now rewrite Hfut.
    - apply Z.eqb_eq in Heq. apply Z.ltb_lt in Hclose. now rewrite Heq, Hclose. }
  assert (Hopen : ~ (date_of now < target_date
                     \/ (target_date = date_of now
                         /\ second_of_day now < timedelta 13 30)) ->
                  fst (get_history_by_date env now stock_list target_date)
                  = flat_map (history_items env target_date) stock_list).
  { intros Hgate. unfold get_history_by_date. rewrite before_close_spec.
    destruct ((target_date =? date_of now)
              && (second_of_day now <? timedelta 13 30)) eqn:E1.
    - exfalso. apply Hgate. right. apply andb_true_iff in E1. destruct E1 as [A B].
      apply Z.eqb_eq in A. apply Z.ltb_lt in B. now split.
    - destruct (date_of now <? target_date) eqn:E2.
      + exfalso. apply Hgate. left. now apply Z.ltb_lt.
      + apply history_fetch_items. }
  split; [exact Hclosed |].
  split; [intros Hgate; rewrite (Hopen Hgate); exact Hcodes |].
  split; [apply found_spec |].
  destruct (get_history_by_date_items env now stock_list target_date) as [[E | E] _];
    rewrite E.
  - split; [cbn; lia | constructor].
  - split; [| exact Hrows].
    rewrite <- (length_map h_code), Hcodes, <- (length_map strip stock_list).
    apply filter_length_le.
Qed.

Lemma history_rows_first_bar_witness :
  map h_code
    (fst (get_history_by_date sample_env tuesday_afternoon
            ["2330"; " 8888 "; "0000"; "2317"] (date_of tuesday_afternoon)))
  = ["2330"; "2317"]
  /\ fst (get_history_by_date sample_env tuesday_morning
            ["2330"; " 8888 "; "0000"; "2317"] (date_of tuesday_morning)) = [].
Proof.
  split.
  - rewrite (proj1 (proj2 (history_rows_first_bar sample_env tuesday_afternoon
                             ["2330"; " 8888 "; "0000"; "2317"]
                             (date_of tuesday_afternoon)))).
    + vm_compute. reflexivity.
    + intros [H | [_ H]]; vm_compute in H; discriminate.
  - apply (proj1 (history_rows_first_bar sample_env tuesday_morning
                    ["2330"; " 8888 "; "0000"; "2317"] (date_of tuesday_morning))).
    right. split; [reflexivity | vm_compute; reflexivity].
Defined.

(** ** The column names of a trend table *)

Lemma merge_fold_nodup (f : Ticker -> option Series) (vt : list Ticker) :
  (forall k s, f k = Some s -> points s <> []) ->
  forall (T : DataFrame Timestamp) (ss : list Series),
    Represents T ss -> NoDup (map name ss) ->
    NoDup (columns (fold_left (merge_step f) vt T)).
Proof.
  intros Hf. induction vt as [| tk vt IH]; intros T ss R N; cbn [fold_left].
  - now rewrite (rep_columns _ _ R).
  - destruct (merge_step_represents f T ss tk Hf R) as [[E _] | [s [Hs [Hn R']]]].
    + rewrite E. now apply (IH T ss).
    + apply (IH _ _ R'). rewrite map_app. cbn [map].
      apply NoDup_app_remove_l with (l := []). cbn [app].
      apply Permutation_NoDup with (l := name s :: map name ss).
      * apply Permutation_cons_append.
      * now constructor.
Qed.

Lemma dict_set_keys {V : Type} (k : string) (v : V) (d : list (string * V)) (x : string) :
  In x (map fst (dict_set k v d)) <-> x = k \/ In x (map fst d).
Proof.
  induction d as [| kv d IH]; cbn [dict_set map In fst].
  - intuition.
  - destruct (String.eqb_spec k (fst kv)) as [E | E]; cbn [map In fst].
    + subst k. intuition.
    + rewrite IH. intuition.
Qed.

Lemma dict_set_nodup {V : Type} (k : string) (v : V) (d : list (string * V)) :
  NoDup (map fst d) -> NoDup (map fst (dict_set k v d)).
Proof.
  induction d as [| kv d IH]; intros N; cbn [dict_set map fst].
  - constructor; [intros [] | constructor].
  - inversion N as [| ? ? Hn N']. subst.
    destruct (String.eqb_spec k (fst kv)) as [E | E]; cbn [map fst].
    + subst k. now constructor.
    + constructor; [| now apply IH].
      rewrite dict_set_keys. intros [H | H]; [now apply E | now apply Hn].
Qed.

Lemma yearly_all_series_nodup (env : Env) (now : Timestamp) (vt : list Ticker) :
  NoDup (map fst (yearly_all_series env now vt)).
Proof.
  rewrite yearly_all_series_fold.
  assert (H : forall d : SeriesDict,
             NoDup (map fst d) ->
             NoDup (map fst
                      (fold_left
                         (fun d tk =>
                            match yearly_series env now
                                    (days_from_civil (year_of_date (date_of now)) 1 1) tk with
                            | Some kv => dict_set (fst kv) (snd kv) d
                            | None => d
                            end) vt d))).
  { induction vt as [| tk vt IH]; intros d N; cbn [fold_left]; [exact N |].
    apply IH. destruct (yearly_series env now _ tk) as [kv |]; [| exact N].
    now apply dict_set_nodup. }
  apply H. constructor.
Qed.

Lemma ytd_columns_names (F : DataFrame Timestamp) :
  forall nm, In nm (map (fun c => fst (fst c)) (ytd_columns F)) -> In nm (columns F).
Proof.
  intros nm Hin. apply in_map_iff in Hin. destruct Hin as [[[nm' j] sp] [E Hin]].
  cbn in E. subst nm'. unfold ytd_columns in Hin. apply in_flat_map in Hin.
  destruct Hin as [[j' c] [Hjc Hin]]. cbn [fst snd] in Hin.
  destruct (ytd_baseline F j'); [| destruct Hin].
  destruct Hin as [E | []]. inversion E; subst.
  apply in_combine_r in Hjc. exact Hjc.
Qed.

Lemma ytd_columns_nodup (F : DataFrame Timestamp) :
  NoDup (columns F) -> NoDup (map (fun c => fst (fst c)) (ytd_columns F)).
Proof.
  unfold ytd_columns.
  generalize (seq 0 (List.length (columns F))) as js.
  generalize (ytd_baseline F) as base.
  induction (columns F) as [| c cs IH]; intros base js N.
  - destruct js; constructor.
  - destruct js as [| j js]; [constructor |].
    inversion N as [| ? ? Hn N']. subst. cbn [combine flat_map fst snd].
    rewrite map_app. specialize (IH base js N').
    destruct (base j) as [sp |]; cbn [map app fst]; [| exact IH].
    constructor; [| exact IH].
    intros Hin. apply Hn. apply in_map_iff in Hin.
    destruct Hin as [[[nm' j'] sp'] [E Hin]]. cbn in E. subst nm'.
    apply in_flat_map in Hin. destruct Hin as [[j2 c2] [Hjc Hin]]. cbn [fst snd] in Hin.
    destruct (base j2); [| destruct Hin].
    destruct Hin as [E | []]. inversion E; subst.
    apply in_combine_r in Hjc. exact Hjc.
Qed.

Lemma yearly_final_columns (vt : list Ticker) (d : SeriesDict) :
  columns (yearly_final vt d) = map fst d.
Proof. reflexivity. Qed.

Lemma get_monthly_trend_shape (env : Env) (now : Timestamp) (vt : list Ticker) :
  rows (get_monthly_trend env now vt)
  = map (fun r => (strftime_md (fst r), snd r))
      (sort_rows (rows (monthly_trend_data env now vt)))
  /\ columns (get_monthly_trend env now vt) = columns (monthly_trend_data env now vt).
Proof.
  destruct (merge_fold_represents _ vt
              (monthly_series_points env (date_of now - (day_of_date (date_of now) - 1)))
              empty_frame [] represents_empty) as [ss [R _]].
  rewrite <- monthly_trend_data_merge in R.
  rewrite <- (merged_rows_sorted _ _ R).
  unfold get_monthly_trend.
  now destruct (df_empty (monthly_trend_data env now vt)).
Qed.

(** X4.  No trend table has two columns of the same name. *)
Theorem trend_columns_distinct (env : Env) (now : Timestamp) (valid_tickers : list Ticker) :
  NoDup (columns (get_weekly_trend env now valid_tickers))
  /\ NoDup (columns (get_monthly_trend env now valid_tickers))
  /\ NoDup (columns (get_yearly_trend env now valid_tickers)).
Proof.
  split; [| split].
  - rewrite get_weekly_trend_columns, weekly_trend_data_merge.
    apply (merge_fold_nodup _ valid_tickers (weekly_series_points env _)
             empty_frame [] represents_empty). constructor.
  - rewrite (proj2 (get_monthly_trend_shape env now valid_tickers)),
      monthly_trend_data_merge.
    apply (merge_fold_nodup _ valid_tickers (monthly_series_points env _)
             empty_frame [] represents_empty). constructor.
  - rewrite (proj2 (get_yearly_trend_rows env now valid_tickers)).
    unfold yearly_trend_data.
    pose proof (yearly_all_series_nodup env now valid_tickers) as N.
    destruct (yearly_all_series env now valid_tickers) as [| s0 d]; [constructor |].
    rewrite ytd_frame_columns. apply ytd_columns_nodup.
    now rewrite yearly_final_columns.
Qed.

(** ** Two tickers of one column name *)

Lemma dict_get_set_same {V : Type} (k : string) (v : V) (d : list (string * V)) :
  dict_get k (dict_set k v d) = Some v.
Proof.
  unfold dict_get. induction d as [| kv d IH]; cbn [dict_set find fst].
  - now rewrite String.eqb_refl.
  - destruct (String.eqb k (fst kv)) eqn:E; cbn [find fst].
    + now rewrite String.eqb_refl.
    + now rewrite E.
Qed.

Lemma dict_get_set_other {V : Type} (k k' : string) (v : V) (d : list (string * V)) :
  k' <> k -> dict_get k' (dict_set k v d) = dict_get k' d.
Proof.
  intros Hne. unfold dict_get. induction d as [| kv d IH]; cbn [dict_set find fst].
  - destruct (String.eqb_spec k' k); [contradiction | reflexivity].
  - destruct (String.eqb_spec k (fst kv)) as [E | E]; cbn [find fst].
    + subst k. destruct (String.eqb_spec k' (fst kv)); [contradiction | reflexivity].
    + destruct (String.eqb k' (fst kv)); [reflexivity | exact IH].
Qed.

Lemma yearly_series_name (env : Env) (now : Timestamp) (start_date : date)
  (tk : Ticker) (kv : string * list (Timestamp * float)) :
  yearly_series env now start_date tk = Some kv ->
  fst kv = column_name (fst (fst tk)) (snd tk)
  /\ exists bars,
       history env (snd (fst tk)) (Start start_date) = Ok bars
       /\ yearly_kept_bars now bars <> []
       /\ snd kv = map (fun b => (bar_ts b, Close b)) (yearly_kept_bars now bars).
Proof.
  unfold yearly_series.
  destruct (history env _ _) as [bars | e]; [| discriminate].
  destruct (yearly_kept_bars now bars) as [| b kept] eqn:Hk; [discriminate |].
  intros H. inversion H. cbn [fst snd]. split; [reflexivity |].
  exists bars. rewrite Hk. repeat split. discriminate.
Qed.

Lemma merge_step_known (f : Ticker -> option Series) (T : DataFrame Timestamp)
  (ss : list Series) (tk : Ticker) :
  (forall k s, f k = Some s -> points s <> []) ->
  Represents T ss ->
  (forall s, f tk = Some s -> In (name s) (columns T)) ->
  merge_step f T tk = T.
Proof.
  intros Hf R Hin.
  destruct (merge_step_represents f T ss tk Hf R) as [[E _] | [s [Hs [Hn _]]]];
    [exact E | exfalso].
  apply Hn. rewrite <- (rep_columns _ _ R). now apply Hin.
Qed.

(** X5.  Two tickers that give the same column name "code name".  The weekly
    and the monthly loop keep the column of the first and drop the second
    without a word: [join] raises on the overlapping name and the handler
    passes.  The yearly loop stores its series in a dictionary under that
    name, so there the last ticker with bars replaces the earlier ones. *)
Theorem same_column_name (env : Env) (now : Timestamp) :
  (forall l1 l2 code symbol nm,
     In (column_name code nm) (columns (weekly_trend_data env now l1)) ->
     get_weekly_trend env now (l1 ++ (code, symbol, nm) :: l2)
     = get_weekly_trend env now (l1 ++ l2))
  /\ (forall l1 l2 code symbol nm,
        In (column_name code nm) (columns (monthly_trend_data env now l1)) ->
        get_monthly_trend env now (l1 ++ (code, symbol, nm) :: l2)
        = get_monthly_trend env now (l1 ++ l2))
  /\ (forall l1 l2 code symbol nm bars,
        history env symbol (Start (days_from_civil (year_of_date (date_of now)) 1 1))
        = Ok bars ->
        yearly_kept_bars now bars <> [] ->
        (forall k, In k l2 -> column_name (fst (fst k)) (snd k) <> column_name code nm) ->
        dict_get (column_name code nm)
          (yearly_all_series env now (l1 ++ (code, symbol, nm) :: l2))
        = Some (map (fun b => (bar_ts b, Close b)) (yearly_kept_bars now bars))).
Proof.
  split; [| split].
  - intros l1 l2 code symbol nm Hin.
    assert (E : weekly_trend_data env now (l1 ++ (code, symbol, nm) :: l2)
                = weekly_trend_data env now (l1 ++ l2)).
    { rewrite !weekly_trend_data_merge in *. rewrite !fold_left_app. cbn [fold_left].
      f_equal.
      destruct (merge_fold_represents _ l1
                  (weekly_series_points env (date_of now - weekday (date_of now)))
                  empty_frame [] represents_empty) as [ss [R _]].
      apply (merge_step_known _ _ _ _ (weekly_series_points env _) R).
      intros s Hs. destruct (weekly_series_origin _ _ _ _ Hs) as [b [bars [_ [Hn _]]]].
      rewrite Hn. exact Hin. }
    unfold get_weekly_trend. now rewrite E.
  - intros l1 l2 code symbol nm Hin.
    assert (E : monthly_trend_data env now (l1 ++ (code, symbol, nm) :: l2)
                = monthly_trend_data env now (l1 ++ l2)).
    { rewrite !monthly_trend_data_merge in *. rewrite !fold_left_app. cbn [fold_left].
      f_equal.
      destruct (merge_fold_represents _ l1
                  (monthly_series_points env
                     (date_of now - (day_of_date (date_of now) - 1)))
                  empty_frame [] represents_empty) as [ss [R _]].
      apply (merge_step_known _ _ _ _ (monthly_series_points env _) R).
      intros s Hs. destruct (monthly_series_origin _ _ _ _ Hs) as [b [bars [_ [_ [Hn _]]]]].
      rewrite Hn. exact Hin. }
    unfold get_monthly_trend. now rewrite E.
  - intros l1 l2 code symbol nm bars Hh Hk Hfresh.
    rewrite yearly_all_series_fold, fold_left_app. cbn [fold_left].
    set (start := days_from_civil (year_of_date (date_of now)) 1 1) in *.
    assert (Hs : yearly_series env now start (code, symbol, nm)
                 = Some (column_name code nm,
                         map (fun b => (bar_ts b, Close b)) (yearly_kept_bars now bars))).
    { unfold yearly_series. cbn [fst snd]. rewrite Hh.
      destruct (yearly_kept_bars now bars); [contradiction | reflexivity]. }
    rewrite Hs. cbn [fst snd].
    generalize (fold_left
                  (fun d tk => match yearly_series env now start tk with
                               | Some kv => dict_set (fst kv) (snd kv) d
                               | None => d
                               end) l1 []) as d1.
    intros d1.
    assert (G : forall d : SeriesDict,
               dict_get (column_name code nm)
                 (fold_left
                    (fun d tk => match yearly_series env now start tk with
                                 | Some kv => dict_set (fst kv) (snd kv) d
                                 | None => d
                                 end) l2 d)
               = dict_get (column_name code nm) d).
    { induction l2 as [| k l2 IH]; intros d; cbn [fold_left]; [reflexivity |].
      rewrite IH by (intros k' Hk'; apply Hfresh; now right).
      destruct (yearly_series env now start k) as [kv |] eqn:Hkv; [| reflexivity].
      apply dict_get_set_other.
      destruct (yearly_series_name _ _ _ _ _ Hkv) as [Hn _]. rewrite Hn.
      intros E. apply (Hfresh k); [now left | now symmetry]. }
    rewrite G. apply dict_get_set_same.
Qed.

Lemma same_column_name_witness :
  get_weekly_trend gap_env wednesday_afternoon
    ([ticker_of "G0"] ++ ("G0", "G1.TW", "G0") :: [])
  = get_weekly_trend gap_env wednesday_afternoon ([ticker_of "G0"] ++ [])
  /\ dict_get (column_name "G0" "G0")
       (yearly_all_series gap_env wednesday_afternoon
          ([ticker_of "G0"] ++ ("G0", "G1.TW", "G0") :: []))
     = Some (map (fun b => (bar_ts b, Close b))
               (yearly_kept_bars wednesday_afternoon
                  [sample_bar 8 (of_Z 20) (of_Z 21) 1; sample_bar 10 (of_Z 21) (of_Z 24) 1])).
Proof.
  destruct (same_column_name gap_env wednesday_afternoon) as [Hw [_ Hy]].
  split.
  - apply Hw. vm_compute. now left.
  - apply Hy.
    + reflexivity.
    + vm_compute. discriminate.
    + intros k [].
Defined.

(** ** The shape of a trend table *)

Lemma represents_rectangular (T : DataFrame Timestamp) (ss : list Series) :
  Represents T ss ->
  Forall (fun r => List.length (snd r) = List.length (columns T)) (rows T).
Proof.
  intros R. rewrite (rep_columns _ _ R), length_map. exact (rep_width _ _ R).
Qed.

Lemma relabel_sorted_rectangular {J : Type} (f : Timestamp -> J) (n : nat)
  (rs : list (Timestamp * list float)) :
  Forall (fun r => List.length (snd r) = n) rs ->
  Forall (fun r => List.length (snd r) = n)
    (map (fun r => (f (fst r), snd r)) (sort_rows rs)).
Proof.
  intros H. apply Forall_map. cbn [snd].
  apply (Permutation_Forall (Permutation_sym (sort_rows_perm rs))). exact H.
Qed.

(** X6.  Every trend table is rectangular: each of its rows has one cell per
    column. *)
Theorem trend_tables_rectangular (env : Env) (now : Timestamp)
  (valid_tickers : list Ticker) :
  Forall (fun r => List.length (snd r)
                   = List.length (columns (get_weekly_trend env now valid_tickers)))
    (rows (get_weekly_trend env now valid_tickers))
  /\ Forall (fun r => List.length (snd r)
                      = List.length (columns (get_monthly_trend env now valid_tickers)))
       (rows (get_monthly_trend env now valid_tickers))
  /\ Forall (fun r => List.length (snd r)
                      = List.length (columns (get_yearly_trend env now valid_tickers)))
       (rows (get_yearly_trend env now valid_tickers)).
Proof.
  split; [| split].
  - rewrite get_weekly_trend_rows, get_weekly_trend_columns.
    apply relabel_sorted_rectangular.
    destruct (merge_fold_represents _ valid_tickers
                (weekly_series_points env (date_of now - weekday (date_of now)))
                empty_frame [] represents_empty) as [ss [R _]].
    rewrite <- weekly_trend_data_merge in R. exact (represents_rectangular _ _ R).
  - destruct (get_monthly_trend_shape env now valid_tickers) as [Hr Hc].
    rewrite Hr, Hc. apply relabel_sorted_rectangular.
    destruct (merge_fold_represents _ valid_tickers
                (monthly_series_points env
                   (date_of now - (day_of_date (date_of now) - 1)))
                empty_frame [] represents_empty) as [ss [R _]].
    rewrite <- monthly_trend_data_merge in R. exact (represents_rectangular _ _ R).
  - destruct (get_yearly_trend_rows env now valid_tickers) as [Hr Hc].
    rewrite Hr, Hc. apply Forall_map. cbn [snd].
    unfold yearly_trend_data.
    destruct (yearly_all_series env now valid_tickers) as [| s0 d]; [constructor |].
    set (F := yearly_final valid_tickers (s0 :: d)).
    rewrite ytd_frame_columns, length_map.
    destruct (ytd_columns F) as [| c cs] eqn:Hc'.
    + unfold ytd_frame. rewrite Hc'. constructor.
    + rewrite ytd_frame_rows by (rewrite Hc'; discriminate).
      apply Forall_map. cbn [snd]. rewrite Hc'.
      apply Forall_forall. intros r _. now rewrite length_map.
Qed.

(** X7.  The rows of the weekly and of the monthly table are the rows of the
    merged table, each exactly once, in non-decreasing order of time, under
    their display labels. *)
Theorem trend_rows_in_time_order (env : Env) (now : Timestamp)
  (valid_tickers : list Ticker) :
  (exists rs,
     rows (get_weekly_trend env now valid_tickers)
     = map (fun r => (weekly_label (fst r), snd r)) rs
     /\ Permutation rs (rows (weekly_trend_data env now valid_tickers))
     /\ StronglySorted Z.le (map fst rs))
  /\ (exists rs,
        rows (get_monthly_trend env now valid_tickers)
        = map (fun r => (strftime_md (fst r), snd r)) rs
        /\ Permutation rs (rows (monthly_trend_data env now valid_tickers))
        /\ StronglySorted Z.le (map fst rs)).
Proof.
  split.
  - exists (sort_rows (rows (weekly_trend_data env now valid_tickers))).
    split; [apply get_weekly_trend_rows |].
    split; [apply sort_rows_perm | apply sort_rows_sorted].
  - exists (sort_rows (rows (monthly_trend_data env now valid_tickers))).
    split; [apply get_monthly_trend_shape |].
    split; [apply sort_rows_perm | apply sort_rows_sorted].
Qed.

(** ** No bars at all *)

Lemma fold_try_pass_fixed {Acc Item : Type} (body : Acc -> Item -> Result Acc)
  (l : list Item) (acc : Acc) :
  (forall x, In x l -> body acc x = Ok acc \/ exists e, body acc x = Raise e) ->
  fold_left (try_pass body) l acc = acc.
Proof.
  induction l as [| x l IH]; intros H; cbn [fold_left]; [reflexivity |].
  assert (E : try_pass body acc x = acc).
  { unfold try_pass. destruct (H x (or_introl eq_refl)) as [-> | [e ->]]; reflexivity. }
  rewrite E. apply IH. intros y Hy. apply H. now right.
Qed.

(** X8.  When the provider has no bar for any of the tickers, because it
    answers with an empty table or because the call raises, the three trend
    functions return the empty table, for which the page shows its
    "not enough data" note in place of a chart. *)
Theorem no_bars_no_table (env : Env) (now : Timestamp) (valid_tickers : list Ticker) :
  (forall tk req, In tk valid_tickers ->
     history env (snd (fst tk)) req = Ok []
     \/ exists e, history env (snd (fst tk)) req = Raise e) ->
  get_weekly_trend env now valid_tickers = empty_frame
  /\ get_monthly_trend env now valid_tickers = empty_frame
  /\ get_yearly_trend env now valid_tickers = empty_frame
  /\ df_empty (get_weekly_trend env now valid_tickers) = true
  /\ df_empty (get_monthly_trend env now valid_tickers) = true
  /\ df_empty (get_yearly_trend env now valid_tickers) = true.
Proof.
  intros H.
  assert (Hw : weekly_trend_data env now valid_tickers = empty_frame).
  { unfold weekly_trend_data. cbv zeta. apply fold_try_pass_fixed.
    intros [[code symbol] nm] Hin. unfold weekly_body, bind.
    destruct (H _ (Start (date_of now - weekday (date_of now))) Hin) as [E | [e E]];
      cbn [fst snd] in E; rewrite E; [now left | right; now exists e]. }
  assert (Hm : monthly_trend_data env now valid_tickers = empty_frame).
  { unfold monthly_trend_data. cbv zeta. apply fold_try_pass_fixed.
    intros [[code symbol] nm] Hin. unfold monthly_body, bind.
    destruct (H _ (Start (date_of now - (day_of_date (date_of now) - 1))) Hin)
      as [E | [e E]];
      cbn [fst snd] in E; rewrite E; [now left | right; now exists e]. }
  assert (Hy : yearly_all_series env now valid_tickers = []).
  { unfold yearly_all_series. cbv zeta. apply fold_try_pass_fixed.
    intros [[code symbol] nm] Hin. unfold yearly_body, bind.
    destruct (H _ (Start (days_from_civil (year_of_date (date_of now)) 1 1)) Hin)
      as [E | [e E]];
      cbn [fst snd] in E; rewrite E; [now left | right; now exists e]. }
  unfold get_weekly_trend, get_monthly_trend, get_yearly_trend, yearly_trend_data.
  rewrite Hw, Hm, Hy. repeat split.
Qed.

Lemma no_bars_no_table_witness :
  get_weekly_trend sample_env tuesday_afternoon [ticker_of "0000"; ticker_of "8888"]
  = empty_frame.
Proof.
  apply (no_bars_no_table sample_env tuesday_afternoon
           [ticker_of "0000"; ticker_of "8888"]).
  intros tk req [<- | [<- | []]].
  - right. exists "timed out". reflexivity.
  - left. reflexivity.
Defined.

(** ** The monthly table *)



(** ** The series of the yearly table *)

Lemma dict_set_in {V : Type} (k : string) (v : V) (d : list (string * V))
  (x : string * V) :
  In x (dict_set k v d) -> x = (k, v) \/ In x d.
Proof.
  induction d as [| kv d IH]; cbn [dict_set In].
  - intros [E | []]. now left.
  - destruct (String.eqb k (fst kv)); cbn [In].
    + intros [E | H]; [now left | right; now right].
    + intros [E | H]; [right; now left |].
      destruct (IH H) as [E | H']; [now left | right; now right].
Qed.

Lemma yearly_all_series_in (env : Env) (now : Timestamp) (vt : list Ticker)
  (kv : string * list (Timestamp * float)) :
  In kv (yearly_all_series env now vt) ->
  exists tk, In tk vt
             /\ yearly_series env now
                  (days_from_civil (year_of_date (date_of now)) 1 1) tk = Some kv.
Proof.
  rewrite yearly_all_series_fold.
  set (start := days_from_civil (year_of_date (date_of now)) 1 1).
  assert (H : forall d : SeriesDict,
             In kv (fold_left
                      (fun d tk => match yearly_series env now start tk with
                                   | Some kv => dict_set (fst kv) (snd kv) d
                                   | None => d
                                   end) vt d) ->
             In kv d \/ exists tk, In tk vt /\ yearly_series env now start tk = Some kv).
  { induction vt as [| tk vt IH]; intros d Hin; cbn [fold_left] in Hin; [now left |].
    destruct (IH _ Hin) as [Hd | [k [Hk Hs]]].
    - destruct (yearly_series env now start tk) as [kv' |] eqn:Hs; [| now left].
      destruct (dict_set_in _ _ _ _ Hd) as [E | Hd']; [| now left].
      right. exists tk. split; [now left |]. rewrite Hs, E. now destruct kv'.
    - right. exists k. split; [now right | exact Hs]. }
  intros Hin. destruct (H [] Hin) as [[] | H']. exact H'.
Qed.

Lemma sorted_removelast_lt {A : Type} (g : A -> Z) (l : list A) (d : A) :
  StronglySorted Z.lt (map g l) ->
  Forall (fun x => g x < g (last l d)) (removelast l)
  /\ Forall (fun x => g x <= g (last l d)) l.
Proof.
  induction l as [| x l IH]; intros S; [split; constructor |].
  cbn [map] in S. apply StronglySorted_inv in S. destruct S as [S Hx].
  destruct l as [| y l'].
  - cbn. split; constructor; [lia | constructor].
  - destruct (IH S) as [IH1 IH2].
    change (last (x :: y :: l') d) with (last (y :: l') d).
    change (removelast (x :: y :: l')) with (x :: removelast (y :: l')).
    assert (Hlast : g x < g (last (y :: l') d)).
    { rewrite Forall_forall in Hx. apply Hx. apply in_map.
      destruct (exists_last (l := y :: l') ltac:(discriminate)) as [l0 [a E]].
      rewrite E, last_last. apply in_or_app. right. now left. }
    split; constructor; auto. lia.
Qed.

(** X10.  The intraday gatekeeper of the yearly table.  Every stored series
    belongs to a ticker of the list and is not empty; its points are closes of
    bars with a volume above zero; and while the session of today is open
    (before 13:30), with bars on distinct ascending dates up to today, no
    point of any series carries today's date. *)
Theorem yearly_intraday_gatekeeper (env : Env) (now : Timestamp)
  (valid_tickers : list Ticker) (nm : string) (pts : list (Timestamp * float)) :
  In (nm, pts) (yearly_all_series env now valid_tickers) ->
  exists tk bars,
    In tk valid_tickers
    /\ nm = column_name (fst (fst tk)) (snd tk)
    /\ history env (snd (fst tk))
         (Start (days_from_civil (year_of_date (date_of now)) 1 1)) = Ok bars
    /\ pts <> []
    /\ (forall p, In p pts ->
          exists b, In b bars /\ 0 < Volume b /\ p = (bar_ts b, Close b))
    /\ (before_close now = true ->
        StronglySorted Z.lt (map (fun b => date_of (bar_ts b)) bars) ->
        Forall (fun b => date_of (bar_ts b) <= date_of now) bars ->
        Forall (fun p => date_of (fst p) < date_of now) pts).
Proof.
  intros Hin. destruct (yearly_all_series_in _ _ _ _ Hin) as [tk [Htk Hs]].
  destruct (yearly_series_name _ _ _ _ _ Hs) as [Hn [bars [Hh [Hk Hp]]]].
  cbn [fst snd] in Hn, Hp. exists tk, bars.
  repeat (split; [assumption |]).
  split; [rewrite Hp; now destruct (yearly_kept_bars now bars) |].
  split.
  - intros p Hpin. rewrite Hp in Hpin. apply in_map_iff in Hpin.
    destruct Hpin as [b [E Hb]]. exists b.
    destruct (yearly_kept_bars_in _ _ _ Hb) as [H1 H2]. auto.
  - intros Hopen Hsorted Hpast. rewrite Hp. apply Forall_map. cbn [fst].
    unfold yearly_kept_bars. cbv zeta.
    set (df := filter (fun b => 0 <? Volume b) bars).
    assert (Sdf : StronglySorted Z.lt (map (fun b => date_of (bar_ts b)) df)).
    { unfold df. clear - Hsorted. induction bars as [| b bars IH]; [constructor |].
      cbn [map] in Hsorted. apply StronglySorted_inv in Hsorted.
      destruct Hsorted as [S Hb]. cbn [filter].
      destruct (0 <? Volume b); [| now apply IH].
      cbn [map]. constructor; [now apply IH |].
      rewrite Forall_forall in *. intros x Hx. apply Hb.
      apply in_map_iff in Hx. destruct Hx as [y [E Hy]]. subst x.
      apply (in_map (fun b => date_of (bar_ts b))). apply filter_In in Hy. tauto. }
    assert (Pdf : Forall (fun b => date_of (bar_ts b) <= date_of now) df).
    { unfold df. rewrite Forall_forall in *. intros x Hx. apply Hpast.
      apply filter_In in Hx. tauto. }
    clearbody df. destruct df as [| b df]; [constructor |].
    destruct (sorted_removelast_lt (fun b => date_of (bar_ts b)) (b :: df) b Sdf)
      as [Hlt Hle].
    assert (Hlast : date_of (bar_ts (last (b :: df) b)) <= date_of now).
    { rewrite Forall_forall in Pdf. apply Pdf.
      destruct (exists_last (l := b :: df) ltac:(discriminate)) as [l0 [a E]].
      rewrite E, last_last. apply in_or_app. right. now left. }
    rewrite Hopen, andb_true_r.
    destruct (date_of (bar_ts (last (b :: df) b)) =? date_of now) eqn:E.
    + apply Z.eqb_eq in E. rewrite <- E. exact Hlt.
    + apply Z.eqb_neq in E. eapply Forall_impl; [| exact Hle].
      cbv beta. intros x Hx. unfold date in *. lia.
Qed.

Lemma yearly_intraday_gatekeeper_witness :
  exists tk bars,
    In tk [ticker_of "2330"]
    /\ "2330 2330" = column_name (fst (fst tk)) (snd tk)
    /\ history sample_env (snd (fst tk))
         (Start (days_from_civil (year_of_date (date_of tuesday_morning)) 1 1)) = Ok bars
    /\ [(dec2025 8, of_Z 110)] <> [].
Proof.
  destruct (yearly_intraday_gatekeeper sample_env tuesday_morning [ticker_of "2330"]
              "2330 2330" [(dec2025 8, of_Z 110)])
    as [tk [bars [H1 [H2 [H3 [H4 _]]]]]].
  - vm_compute. now left.
  - exists tk, bars. auto.
Defined.

(** ** The size of the yearly table *)

Lemma month_of_date_range (d : date) : 1 <= month_of_date d <= 12.
Proof.
  unfold month_of_date, civil_from_days. cbv zeta. cbn [fst snd].
  set (z := d + 719468).
  set (era := z / 146097).
  set (doe := z - era * 146097).
  assert (Hdoe : 0 <= doe < 146097).
  { unfold doe, era. pose proof (Z.mod_pos_bound z 146097 ltac:(lia)) as H.
    rewrite Z.mod_eq in H by lia. lia. }
  clearbody doe. clear z era.
  set (yoe := (doe - doe / 1460 + doe / 36524 - doe / 146096) / 365).
  set (doy := doe - (365 * yoe + yoe / 4 - yoe / 100)).
  assert (Hdoy : 0 <= doy <= 365).
  { unfold doy, yoe. Z.to_euclidean_division_equations. lia. }
  clearbody doy.
  set (mp := (5 * doy + 2) / 153).
  assert (Hmp : 0 <= mp <= 11).
  { unfold mp. Z.to_euclidean_division_equations. lia. }
  clearbody mp. destruct (mp <? 10) eqn:E.
  - apply Z.ltb_lt in E. lia.
  - apply Z.ltb_ge in E. lia.
Qed.

Lemma sorted_range_length (l : list Z) :
  StronglySorted Z.lt l ->
  forall a b, Forall (fun x => a <= x <= b) l ->
              Z.of_nat (List.length l) <= Z.max 0 (b - a + 1).
Proof.
  induction 1 as [| x l S IH Hx]; intros a b F; [cbn; lia |].
  inversion F as [| ? ? Hx' F']. subst.
  assert (F2 : Forall (fun y => x + 1 <= y <= b) l).
  { rewrite Forall_forall in *. intros y Hy.
    specialize (Hx y Hy). specialize (F' y Hy). lia. }
  specialize (IH _ _ F2). cbn [List.length]. lia.
Qed.

Lemma flat_map_length_le {A B : Type} (f : A -> list B) (k : nat) (l : list A) :
  (forall x, (List.length (f x) <= k)%nat) ->
  (List.length (flat_map f l) <= k * List.length l)%nat.
Proof.
  intros H. induction l as [| x l IH]; cbn [flat_map List.length]; [lia |].
  rewrite length_app. specialize (H x). lia.
Qed.

Lemma target_dates_length (idx : list Timestamp) :
  (List.length (target_dates idx) <= 24)%nat.
Proof.
  unfold target_dates.
  assert (Hm : (List.length (sort_uniq (map month idx)) <= 12)%nat).
  { pose proof (sorted_range_length _ (sort_uniq_sorted (map month idx)) 1 12) as H.
    assert (F : Forall (fun x => 1 <= x <= 12) (sort_uniq (map month idx))).
    { apply Forall_forall. intros x Hx. apply (proj1 (sort_uniq_in _ _)) in Hx.
      apply in_map_iff in Hx. destruct Hx as [t [<- _]].
      apply month_of_date_range. }
    specialize (H F). lia. }
  pose proof (flat_map_length_le
                (fun m => endpoints (filter (fun t => month t =? m) idx)) 2
                (sort_uniq (map month idx))) as H.
  assert (He : forall m : Z,
             (List.length (endpoints (filter (fun t => Z.eqb (month t) m) idx)) <= 2)%nat).
  { intros m. unfold endpoints.
    destruct (filter (fun t => month t =? m) idx) as [| t0 g]; [cbn; lia |].
    destruct (negb (last (t0 :: g) t0 =? t0)); cbn; lia. }
  specialize (H He). lia.
Qed.

(** X11.  The yearly table has at most 24 rows, two for each month of the
    calendar, whatever the number of tickers and of bars. *)
Theorem yearly_at_most_24_rows (env : Env) (now : Timestamp)
  (valid_tickers : list Ticker) :
  (List.length (rows (get_yearly_trend env now valid_tickers)) <= 24)%nat.
Proof.
  rewrite (proj1 (get_yearly_trend_rows env now valid_tickers)), length_map.
  rewrite <- (length_map fst). change (map fst (rows ?T)) with (index T).
  unfold yearly_trend_data.
  destruct (yearly_all_series env now valid_tickers) as [| s0 d]; [cbn; lia |].
  rewrite ytd_frame_index.
  destruct (ytd_columns _); [cbn; lia |].
  rewrite yearly_final_index. apply target_dates_length.
Qed.

(** ** strip and split *)

Section DropSpaces.

Variable sp1 : ascii -> bool.
Variable sp2 : ascii -> ascii -> bool.
Variable sp3 : ascii -> ascii -> ascii -> bool.

Lemma drop_spaces_suffix (n : nat) :
  forall l, (List.length l <= n)%nat ->
    exists w, l = w ++ drop_spaces sp1 sp2 sp3 l.
Proof.
  induction n as [| n IH]; intros l Hl.
  - destruct l; [now exists [] | cbn in Hl; lia].
  - destruct l as [| c1 l1]; [now exists [] |]. cbn [List.length] in Hl.
    cbn [drop_spaces]. destruct (sp1 c1).
    + destruct (IH l1 ltac:(lia)) as [w Hw]. exists (c1 :: w). cbn [app]. now f_equal.
    + destruct l1 as [| c2 l2]; [now exists [] |]. cbn [List.length] in Hl.
      destruct (sp2 c1 c2).
      * destruct (IH l2 ltac:(lia)) as [w Hw]. exists (c1 :: c2 :: w).
        cbn [app]. now do 2 f_equal.
      * destruct l2 as [| c3 l3]; [now exists [] |]. cbn [List.length] in Hl.
        destruct (sp3 c1 c2 c3); [| now exists []].
        destruct (IH l3 ltac:(lia)) as [w Hw]. exists (c1 :: c2 :: c3 :: w).
        cbn [app]. now do 3 f_equal.
Qed.

Lemma drop_spaces_split (l : list ascii) :
  exists w, l = w ++ drop_spaces sp1 sp2 sp3 l.
Proof. exact (drop_spaces_suffix (List.length l) l (Nat.le_refl _)). Qed.

Lemma drop_spaces_length (l : list ascii) :
  (List.length (drop_spaces sp1 sp2 sp3 l) <= List.length l)%nat.
Proof.
  destruct (drop_spaces_split l) as [w Hw]. rewrite Hw at 2. rewrite length_app. lia.
Qed.

Lemma drop_spaces_idem_le (n : nat) :
  forall l, (List.length l <= n)%nat ->
    drop_spaces sp1 sp2 sp3 (drop_spaces sp1 sp2 sp3 l) = drop_spaces sp1 sp2 sp3 l.
Proof.
  induction n as [| n IH]; intros l Hl.
  - destruct l; [reflexivity | cbn in Hl; lia].
  - destruct l as [| c1 l1]; [reflexivity |]. cbn [List.length] in Hl.
    cbn [drop_spaces]. destruct (sp1 c1) eqn:E1; [apply IH; lia |].
    destruct l1 as [| c2 l2]; [cbn [drop_spaces]; now rewrite E1 |].
    cbn [List.length] in Hl.
    destruct (sp2 c1 c2) eqn:E2; [apply IH; lia |].
    destruct l2 as [| c3 l3]; [cbn [drop_spaces]; now rewrite E1, E2 |].
    cbn [List.length] in Hl.
    destruct (sp3 c1 c2 c3) eqn:E3; [apply IH; lia |].
    cbn [drop_spaces]. now rewrite E1, E2, E3.
Qed.

Lemma drop_spaces_idem (l : list ascii) :
  drop_spaces sp1 sp2 sp3 (drop_spaces sp1 sp2 sp3 l) = drop_spaces sp1 sp2 sp3 l.
Proof. exact (drop_spaces_idem_le (List.length l) l (Nat.le_refl _)). Qed.

(** Nothing to drop from a list, nothing to drop from what it begins with. *)
Lemma drop_spaces_prefix (u w : list ascii) :
  drop_spaces sp1 sp2 sp3 (u ++ w) = u ++ w ->
  drop_spaces sp1 sp2 sp3 u = u.
Proof.
  intros H.
  destruct u as [| c1 u1]; [reflexivity |].
  cbn [app drop_spaces] in H. cbn [drop_spaces].
  destruct (sp1 c1).
  { exfalso. pose proof (drop_spaces_length (u1 ++ w)) as L.
    rewrite H in L. cbn [List.length] in L. lia. }
  destruct u1 as [| c2 u2]; [reflexivity |]. cbn [app] in H.
  destruct (sp2 c1 c2).
  { exfalso. pose proof (drop_spaces_length (u2 ++ w)) as L.
    rewrite H in L. cbn [List.length] in L. lia. }
  destruct u2 as [| c3 u3]; [reflexivity |]. cbn [app] in H.
  destruct (sp3 c1 c2 c3); [| reflexivity].
  exfalso. pose proof (drop_spaces_length (u3 ++ w)) as L.
  rewrite H in L. cbn [List.length] in L. lia.
Qed.

Lemma drop_spaces_in (l : list ascii) (c : ascii) :
  In c (drop_spaces sp1 sp2 sp3 l) -> In c l.
Proof.
  intros H. destruct (drop_spaces_split l) as [w Hw]. rewrite Hw.
  apply in_or_app. now right.
Qed.

End DropSpaces.

Lemma strip_idem (s : string) : strip (strip s) = strip s.
Proof.
  unfold strip, rstrip, lstrip.
  rewrite !list_ascii_of_string_of_list_ascii.
  set (t := drop_spaces is_space is_space2 is_space3 (list_ascii_of_string s)).
  set (Dr := drop_spaces is_space (fun c2 c1 => is_space2 c1 c2)
               (fun c3 c2 c1 => is_space3 c1 c2 c3)).
  set (r := List.rev (Dr (List.rev t))).
  assert (Ht : drop_spaces is_space is_space2 is_space3 t = t)
    by apply drop_spaces_idem.
  assert (Hr : drop_spaces is_space is_space2 is_space3 r = r).
  { destruct (drop_spaces_split is_space (fun c2 c1 => is_space2 c1 c2)
                (fun c3 c2 c1 => is_space3 c1 c2 c3) (List.rev t)) as [w Hw].
    fold Dr in Hw.
    assert (E : t = r ++ List.rev w).
    { unfold r. rewrite <- rev_app_distr, <- Hw. now rewrite rev_involutive. }
    apply (drop_spaces_prefix _ _ _ r (List.rev w)). now rewrite <- E. }
  rewrite Hr. f_equal. unfold r at 1. rewrite rev_involutive.
  unfold Dr. now rewrite drop_spaces_idem.
Qed.

Lemma strip_chars (s : string) (c : ascii) :
  In c (list_ascii_of_string (strip s)) -> In c (list_ascii_of_string s).
Proof.
  unfold strip, rstrip, lstrip. rewrite !list_ascii_of_string_of_list_ascii.
  intros H. apply in_rev in H. apply drop_spaces_in in H. apply in_rev in H.
  now apply drop_spaces_in in H.
Qed.

Lemma strip_after_space (y : string) : strip (String " " y) = strip y.
Proof. reflexivity. Qed.

Lemma split_comma_cons (s : string) : exists x xs, split_comma s = x :: xs.
Proof.
  induction s as [| c s [x [xs IH]]]; [now exists "", [] |].
  cbn [split_comma]. destruct (Ascii.eqb c ","); [now eexists _, _ |].
  rewrite IH. now eexists _, _.
Qed.

Lemma split_comma_chars (s : string) :
  Forall (fun x => ~ In ","%char (list_ascii_of_string x)) (split_comma s).
Proof.
  induction s as [| c s IH]; [constructor; [intros [] | constructor] |].
  cbn [split_comma]. destruct (Ascii.eqb_spec c ",") as [E | E].
  - constructor; [intros [] | exact IH].
  - destruct (split_comma s) as [| x xs]; [constructor; [| constructor] |].
    + intros [H | []]. now apply E.
    + inversion IH as [| ? ? Hx Hxs]. subst. constructor; [| exact Hxs].
      intros [H | H]; [now apply E | now apply Hx].
Qed.

(** X12.  The codes the main program hands to the fetch functions: none is
    blank, none has white space left at either end, none holds a comma; so
    the functions, which strip each entry again and skip blank ones, change
    and skip nothing. *)
Theorem stock_codes_clean (user_input : string) :
  Forall clean_code (stock_codes user_input)
  /\ map strip (stock_codes user_input) = stock_codes user_input
  /\ filter (fun c => negb (String.eqb (strip c) "")) (stock_codes user_input)
     = stock_codes user_input.
Proof.
  assert (H : Forall clean_code (stock_codes user_input)).
  { unfold stock_codes. apply Forall_map. apply Forall_forall. intros x Hx.
    apply filter_In in Hx. destruct Hx as [Hin Hne].
    unfold clean_code. split; [| split].
    - destruct (String.eqb_spec (strip x) ""); [discriminate | assumption].
    - apply strip_idem.
    - intros Hc. apply strip_chars in Hc.
      pose proof (split_comma_chars user_input) as F. rewrite Forall_forall in F.
      now apply (F x Hin). }
  split; [exact H |].
  induction H as [| c l [Hne [Hs _]] _ [IH1 IH2]]; [split; reflexivity |].
  cbn [map filter]. rewrite Hs, IH1, IH2.
  destruct (String.eqb_spec c ""); [contradiction |]. split; reflexivity.
Qed.

Lemma split_comma_plain (x : string) :
  ~ In ","%char (list_ascii_of_string x) -> split_comma x = [x].
Proof.
  induction x as [| c x IH]; [reflexivity |]. intros H.
  cbn [split_comma]. destruct (Ascii.eqb_spec c ",") as [E | E].
  - exfalso. apply H. now left.
  - rewrite IH; [reflexivity |]. intros Hin. apply H. now right.
Qed.

Lemma split_comma_app (x rest : string) :
  ~ In ","%char (list_ascii_of_string x) ->
  split_comma (x ++ String "," rest) = x :: split_comma rest.
Proof.
  induction x as [| c x IH]; intros H.
  - reflexivity.
  - cbn [append split_comma]. destruct (Ascii.eqb_spec c ",") as [E | E].
    + exfalso. apply H. now left.
    + rewrite IH; [reflexivity |]. intros Hin. apply H. now right.
Qed.

Lemma split_comma_joined (codes : list string) :
  Forall clean_code codes ->
  split_comma (String.concat ", " codes)
  = match codes with
    | [] => [""]
    | x :: l => x :: map (fun c => String " " c) l
    end.
Proof.
  induction 1 as [| x l [_ [_ Hx]] Hl IH]; [reflexivity |].
  destruct l as [| y l'].
  - cbn [String.concat]. now apply split_comma_plain.
  - change (String.concat ", " (x :: y :: l'))
      with (x ++ String "," (String " " (String.concat ", " (y :: l'))))%string.
    rewrite split_comma_app by exact Hx. f_equal.
    cbn [split_comma]. change (Ascii.eqb " " ",") with false. cbv iota.
    rewrite IH. reflexivity.
Qed.

(** X13.  Reading back a list of codes written with ", " between them, as the
    default text of the input box is, gives the list again. *)
Theorem stock_codes_round_trip (codes : list string) :
  Forall clean_code codes ->
  stock_codes (String.concat ", " codes) = codes.
Proof.
  intros H. unfold stock_codes. rewrite (split_comma_joined codes H).
  destruct H as [| x l [Hne [Hs _]] Hl]; [reflexivity |].
  cbn [filter map]. rewrite Hs.
  destruct (String.eqb_spec x ""); [contradiction |]. cbn [negb map]. rewrite Hs.
  f_equal. induction Hl as [| y l' [Hy [Hys _]] _ IH]; [reflexivity |].
  cbn [map filter].
  assert (E : strip (String " " y) = y).
  { rewrite strip_after_space. exact Hys. }
  rewrite E. destruct (String.eqb_spec y ""); [contradiction |].
  cbn [negb map]. now rewrite E, IH.
Qed.

Lemma stock_codes_round_trip_witness :
  stock_codes default_stocks = ["006208"; "2317"; "2353"; "00893"].
Proof.
  apply (stock_codes_round_trip ["006208"; "2317"; "2353"; "00893"]).
  repeat constructor; try discriminate;
    intros H; cbn in H; repeat (destruct H as [H | H]; [discriminate |]); exact H.
Defined.

(** ** From the input box to the fetch *)

Lemma get_stock_data_step_ui (env : Env) (total : Z) (st : StockState)
  (ic : Z * string) :
  strip (snd ic) <> "" ->
  status_texts (snd (get_stock_data_step env total st ic))
  = status_texts (snd st) ++ [("正在抓取: " ++ strip (snd ic) ++ " ...")%string]
  /\ progress_steps (snd (get_stock_data_step env total st ic))
     = progress_steps (snd st) ++ [div (of_Z (fst ic + 1)) (of_Z total)].
Proof.
  destruct st as [[d v] ui]. destruct ic as [i raw]. cbn [fst snd]. intros Hne.
  unfold get_stock_data_step.
  destruct (String.eqb_spec (strip raw) ""); [contradiction |].
  unfold status_texts, progress_steps.
  destruct (quote_body env (strip raw)) as [[[row tk] |] | e]; cbn [snd];
    rewrite !flat_map_app; cbn [flat_map app]; rewrite ?app_nil_r; split; reflexivity.
Qed.

Lemma get_stock_data_fold_ui (env : Env) (total : Z) (ics : list (Z * string))
  (st : StockState) :
  Forall (fun ic => strip (snd ic) <> "") ics ->
  status_texts (snd (fold_left (get_stock_data_step env total) ics st))
  = status_texts (snd st)
    ++ map (fun ic => ("正在抓取: " ++ strip (snd ic) ++ " ...")%string) ics
  /\ progress_steps (snd (fold_left (get_stock_data_step env total) ics st))
     = progress_steps (snd st)
       ++ map (fun ic => div (of_Z (fst ic + 1)) (of_Z total)) ics.
Proof.
  intros F. revert st. induction F as [| ic ics Hic _ IH]; intros st; cbn [fold_left map].
  - now rewrite !app_nil_r.
  - destruct (IH (get_stock_data_step env total st ic)) as [H1 H2].
    destruct (get_stock_data_step_ui env total st ic Hic) as [S1 S2].
    rewrite H1, H2, S1, S2, <- !app_assoc. split; reflexivity.
Qed.

Lemma map_fst_enumerate {A : Type} (l : list A) :
  map fst (enumerate l) = map Z.of_nat (seq 0 (List.length l)).
Proof.
  unfold enumerate. generalize 0%nat as a.
  induction l as [| x l IH]; intros a; cbn [List.length seq map combine fst];
    [reflexivity |].
  now rewrite IH.
Qed.

(** X14.  Every code of the input box is fetched: for the parsed codes,
    [get_stock_data] announces each code once, in order, as it stands, then
    the end; the progress bar is set to 0 and then moved once for each
    code, to (i + 1) / n. *)
Theorem parsed_codes_all_attempted (env : Env) (user_input : string) :
  let codes := stock_codes user_input in
  let n := List.length codes in
  status_texts (snd (get_stock_data env codes))
  = map (fun c => ("正在抓取: " ++ c ++ " ...")%string) codes ++ ["抓取完成！"]
  /\ progress_steps (snd (get_stock_data env codes))
     = zero :: map (fun i => div (of_Z (Z.of_nat i + 1)) (of_Z (Z.of_nat n))) (seq 0 n).
Proof.
  intros codes n.
  assert (Hclean : Forall (fun c => c <> "" /\ strip c = c) codes).
  { unfold codes, stock_codes. apply Forall_map. apply Forall_forall. intros x Hx.
    apply filter_In in Hx. destruct Hx as [_ Hne]. rewrite strip_idem. split; [| reflexivity].
    destruct (String.eqb_spec (strip x) ""); [discriminate | assumption]. }
  assert (F : Forall (fun ic : Z * string => strip (snd ic) <> "") (enumerate codes)).
  { apply Forall_forall. intros [i c] Hin. cbn [snd].
    assert (Hc : In c codes).
    { rewrite <- (map_snd_enumerate codes). apply in_map_iff. now exists (i, c). }
    rewrite Forall_forall in Hclean. destruct (Hclean c Hc) as [Hne Hs]. now rewrite Hs. }
  destruct (get_stock_data_fold_ui env (Z.of_nat n) (enumerate codes)
              ([], [], [Progress zero]) F) as [H1 H2].
  unfold get_stock_data. fold n.
  destruct (fold_left _ _ _) as [[d v] ui]. cbn [snd] in *.
  unfold status_texts, progress_steps in *. rewrite !flat_map_app, H1, H2.
  cbn [flat_map app]. rewrite app_nil_r. split.
  - f_equal.
    rewrite <- (map_snd_enumerate codes) at 2. rewrite map_map.
    apply map_ext_in. intros [i c] Hin. cbn [snd].
    assert (Hc : In c codes).
    { rewrite <- (map_snd_enumerate codes). apply in_map_iff. now exists (i, c). }
    rewrite Forall_forall in Hclean. destruct (Hclean c Hc) as [_ Hs]. now rewrite Hs.
  - f_equal.
    change (map (fun ic : Z * string => div (of_Z (fst ic + 1)) (of_Z (Z.of_nat n)))
              (enumerate codes))
      with (map (fun ic : Z * string =>
                   (fun i => div (of_Z (i + 1)) (of_Z (Z.of_nat n))) (fst ic))
              (enumerate codes)).
    rewrite <- (map_map fst), map_fst_enumerate, map_map. reflexivity.
Qed.

(** ** The session and the display *)

Lemma strftime_YmdHMS_text (t : Timestamp) : strftime_YmdHMS t <> "".
Proof. unfold strftime_YmdHMS, strftime_Ymd, four_digits. discriminate. Qed.

(** X15.  The button 更新股價 and the display logic.  Before the first
    refresh the page shows neither table nor error.  With no code in the
    box the button warns and leaves the session as it was.  With codes it
    stores the new table, the new tickers and the time whatever was stored
    before; the page then shows the dashboard when the table has a row, and
    the error 無法取得資料。 when it has none. *)
Theorem refresh_then_display (env : Env) (now : Timestamp) (state : Session.State) :
  display Session.initial = Nothing
  /\ update_button env now [] state = (state, [Warning "請輸入代號"])
  /\ (forall codes,
        codes <> [] ->
        let state' := fst (update_button env now codes state) in
        let df := fst (fst (get_stock_data env codes)) in
        let tickers := snd (fst (get_stock_data env codes)) in
        state' = {| Session.stock_data := df;
                    Session.valid_tickers := tickers;
                    Session.update_time := strftime_YmdHMS now |}
        /\ snd (update_button env now codes state) = snd (get_stock_data env codes)
        /\ (df = [] -> display state' = NoData "無法取得資料。")
        /\ (df <> [] ->
            display state'
            = Dashboard ("資料更新時間: " ++ strftime_YmdHMS now)%string df tickers)).
Proof.
  split; [reflexivity |]. split; [reflexivity |].
  intros codes Hne. cbv zeta.
  assert (E : update_button env now codes state
              = ({| Session.stock_data := fst (fst (get_stock_data env codes));
                    Session.valid_tickers := snd (fst (get_stock_data env codes));
                    Session.update_time := strftime_YmdHMS now |},
                 snd (get_stock_data env codes))).
  { unfold update_button. destruct codes as [| c codes]; [contradiction |].
    now destruct (get_stock_data env (c :: codes)) as [[d v] ui]. }
  rewrite E. cbn [fst snd].
  split; [reflexivity |]. split; [reflexivity |].
  unfold display. cbn [Session.stock_data Session.valid_tickers Session.update_time].
  split.
  - intros ->.
    destruct (String.eqb_spec (strftime_YmdHMS now) "") as [H | H]; [| reflexivity].
    now apply strftime_YmdHMS_text in H.
  - intros Hd. destruct (fst (fst (get_stock_data env codes))); [contradiction | reflexivity].
Qed.

Lemma refresh_then_display_witness :
  display (fst (update_button sample_env tuesday_afternoon ["0000"] Session.initial))
  = NoData "無法取得資料。".
Proof.
  destruct (refresh_then_display sample_env tuesday_afternoon Session.initial)
    as [_ [_ H]].
  destruct (H ["0000"] ltac:(discriminate)) as [_ [_ [H0 _]]].
  apply H0. vm_compute. reflexivity.
Defined.

(** ** The headline metrics *)

Lemma for_each_iloc {A B : Type} (g : A -> B) (df : list A) (k : nat) :
  forall a, (a + k <= List.length df)%nat ->
    for_each (fun idx => row <- iloc df idx ;; Ok (g row)) (seq a k)
    = Ok (map g (firstn k (skipn a df))).
Proof.
  induction k as [| k IH]; intros a Ha; [reflexivity |].
  cbn [seq for_each]. unfold iloc at 1.
  destruct (nth_error df a) as [row |] eqn:Hr.
  - cbn [bind]. rewrite IH by lia. cbn [bind].
    assert (E : skipn a df = row :: skipn (S a) df).
    { clear - Hr. revert df Hr. induction a as [| a IHa]; intros [| x df] Hr;
        try discriminate.
      - cbn in Hr. inversion Hr. reflexivity.
      - cbn [nth_error] in Hr. cbn [skipn]. rewrite (IHa df Hr). reflexivity. }
    rewrite E. reflexivity.
  - apply nth_error_None in Hr. lia.
Qed.

Lemma tickers_of_rows (env : Env) (stock_list : list string) :
  snd (fst (get_stock_data env stock_list))
  = map (fun row => (q_code row, (q_code row ++ ".TW")%string, q_name row))
      (fst (fst (get_stock_data env stock_list))).
Proof.
  destruct (get_stock_data_items env stock_list) as [Hd Hv]. rewrite Hd, Hv.
  clear Hd Hv. induction stock_list as [| raw l IH]; [reflexivity |].
  cbn [flat_map]. rewrite !map_app. f_equal; [| exact IH].
  destruct (quote_items_shape env raw) as [_ Ht].
  induction Ht as [| rt rs Hrt _ IH']; [reflexivity |].
  cbn [map]. f_equal; [exact Hrt | exact IH'].
Qed.

(** X16.  The block 重點關注 shows the first three rows of the table, or all
    of them when there are fewer, in their order; no position it reads lies
    outside the table.  On a table of [get_stock_data] the labels of the
    metrics are the names the trend tables give to the columns of the first
    three tickers. *)
Theorem metrics_first_three (df : list QuoteRow) :
  metrics df
  = Ok (map (fun row => {| m_label := (q_code row ++ " " ++ q_name row)%string;
                           m_value := q_close row;
                           m_delta := (q_change row, q_pct_change row) |})
          (firstn 3 df))
  /\ (forall env stock_list ms,
        metrics (fst (fst (get_stock_data env stock_list))) = Ok ms ->
        map m_label ms
        = map (fun tk => column_name (fst (fst tk)) (snd tk))
            (firstn 3 (snd (fst (get_stock_data env stock_list))))).
Proof.
  assert (H : forall df : list QuoteRow,
             metrics df
             = Ok (map (fun row => {| m_label := (q_code row ++ " " ++ q_name row)%string;
                                      m_value := q_close row;
                                      m_delta := (q_change row, q_pct_change row) |})
                     (firstn 3 df))).
  { intros l. unfold metrics. cbv zeta.
    rewrite (for_each_iloc _ l (Nat.min 3 (List.length l)) 0) by lia.
    cbn [skipn]. do 2 f_equal.
    destruct l as [| a [| b [| c [| d l']]]]; reflexivity. }
  split; [apply H |].
  intros env stock_list ms Hms. rewrite H in Hms. inversion Hms. subst ms.
  rewrite tickers_of_rows, firstn_map, !map_map. reflexivity.
Qed.

(** ** The notice of a date lookup *)

(** X17.  Pressing 查詢該日股價 with codes in the box.  For a date after
    today, and for today before 13:30, the page shows the notice 查無資料 with
    the date, and the same notice when every code fails: the provider has no
    bar for the date, or the processing of the code raises.  A success
    message is shown with at least one row. *)
Theorem lookup_no_data_notice (env : Env) (now : Timestamp) (codes : list string)
  (search_date : date) :
  codes <> [] ->
  let notice := NotFound ("查無資料：" ++ strftime_Ymd search_date
                            ++ " 可能是假日、颱風假或尚未開盤。")%string in
  (date_of now < search_date
   \/ (search_date = date_of now /\ second_of_day now < timedelta 13 30) ->
   search_button env now codes search_date = notice)
  /\ ((forall raw, In raw codes ->
         history env (strip raw ++ ".TW") (StartEnd search_date (search_date + 1)) = Ok []
         \/ exists e, history_body env search_date (strip raw) = Raise e) ->
      search_button env now codes search_date = notice)
  /\ (forall msg history_df,
        search_button env now codes search_date = Found msg history_df ->
        history_df <> []
        /\ history_df = fst (get_history_by_date env now codes search_date)
        /\ msg = ("查詢完成！共找到 " ++ str_len history_df ++ " 筆資料。")%string).
Proof.
  intros Hne notice.
  assert (Hempty : fst (get_history_by_date env now codes search_date) = [] ->
                   search_button env now codes search_date = notice).
  { intros E. unfold search_button. destruct codes; [contradiction |]. cbv zeta.
    now rewrite E. }
  split; [| split].
  - intros Hgate. apply Hempty. unfold get_history_by_date.
    rewrite before_close_spec.
    destruct Hgate as [Hfut | [Heq Hclose]].
    + destruct ((search_date =? date_of now) && _); [reflexivity |].
      apply Z.ltb_lt in Hfut. now rewrite Hfut.
    + apply Z.eqb_eq in Heq. apply Z.ltb_lt in Hclose. now rewrite Heq, Hclose.
  - intros Hall. apply Hempty.
    destruct (get_history_by_date_items env now codes search_date) as [[E | E] _];
      [exact E |].
    rewrite E. clear E Hempty Hne. induction codes as [| raw l IH]; [reflexivity |].
    cbn [flat_map]. rewrite IH by (intros r Hr; apply Hall; now right).
    rewrite app_nil_r. unfold history_items.
    destruct (String.eqb (strip raw) ""); [reflexivity |].
    destruct (Hall raw (or_introl eq_refl)) as [Hh | [e He]].
    + unfold history_body, bind. now rewrite Hh.
    + now rewrite He.
  - intros msg history_df H. unfold search_button in H.
    destruct codes; [contradiction |]. cbv zeta in H.
    destruct (fst (get_history_by_date env now (s :: codes) search_date))
      as [| r rs] eqn:E; [discriminate |].
    inversion H. subst. repeat split. discriminate.
Qed.

Lemma lookup_no_data_notice_witness :
  search_button sample_env tuesday_morning ["2330"] (date_of tuesday_morning)
  = NotFound "查無資料：2025-12-09 可能是假日、颱風假或尚未開盤。".
Proof.
  destruct (lookup_no_data_notice sample_env tuesday_morning ["2330"]
              (date_of tuesday_morning) ltac:(discriminate)) as [H _].
  apply H. right. split; [reflexivity | vm_compute; reflexivity].
Defined.

(** ** The long table of a chart *)

Lemma nth_error_flat_map_blocks {A B : Type} (f : A -> list B) (n : nat)
  (l : list A) :
  (forall x, List.length (f x) = n) ->
  forall j x i, nth_error l j = Some x -> (i < n)%nat ->
    nth_error (flat_map f l) (j * n + i) = nth_error (f x) i.
Proof.
  intros Hn. induction l as [| y l IH]; intros j x i Hj Hi.
  - destruct j; discriminate.
  - destruct j as [| j]; cbn [nth_error] in Hj; cbn [flat_map].
    + inversion Hj. subst y. cbn [Nat.mul Nat.add].
      apply nth_error_app1. now rewrite Hn.
    + rewrite nth_error_app2 by (rewrite Hn; lia).
      rewrite Hn. replace (S j * n + i - n)%nat with (j * n + i)%nat by lia.
      now apply IH.
Qed.

Lemma nth_error_numbered {A : Type} (l : list A) :
  forall a j x, nth_error l j = Some x ->
    nth_error (combine (seq a (List.length l)) l) j = Some ((a + j)%nat, x).
Proof.
  induction l as [| y l IH]; intros a j x Hj; [destruct j; discriminate |].
  cbn [List.length seq combine]. destruct j as [| j]; cbn [nth_error] in *.
  - inversion Hj. now rewrite Nat.add_0_r.
  - rewrite (IH (S a) j x Hj). do 2 f_equal. lia.
Qed.

(** X18.  The long table a chart is drawn from holds every cell of the trend
    table once: the cell of row i and column j stands at position
    j * rows + i, with the label of its row and the name of its column, so
    each security's points come in the order of the rows.  The tooltip text
    is empty exactly for the null cells; any other ends with a percent
    sign. *)
Theorem chart_long_table (format_2f : float -> string) (df : DataFrame string) :
  List.length (plot_custom_chart format_2f df)
  = (List.length (columns df) * List.length (rows df))%nat
  /\ (forall i j r c,
        nth_error (rows df) i = Some r -> nth_error (columns df) j = Some c ->
        nth_error (plot_custom_chart format_2f df) (j * List.length (rows df) + i)
        = Some {| lr_date := fst r;
                  lr_stock := c;
                  lr_value := nth j (snd r) nan;
                  lr_display := display_text format_2f (nth j (snd r) nan) |})
  /\ Forall (fun p =>
       (lr_display p = "" <-> isna (lr_value p) = true)
       /\ (notna (lr_value p) = true ->
           lr_display p = (format_2f (lr_value p) ++ "%")%string))
       (plot_custom_chart format_2f df).
Proof.
  split; [| split].
  - unfold plot_custom_chart, melt. rewrite length_map.
    generalize 0%nat as a.
    induction (columns df) as [| c cs IH]; intros a; [reflexivity |].
    cbn [List.length seq combine flat_map].
    rewrite length_app, length_map, IH. lia.
  - intros i j r c Hi Hj. unfold plot_custom_chart, melt.
    rewrite nth_error_map.
    rewrite (nth_error_flat_map_blocks _ (List.length (rows df)) _
               (fun x => ltac:(now rewrite length_map))
               j (j, c) i).
    + rewrite nth_error_map, Hi. reflexivity.
    + apply (nth_error_numbered (columns df) 0 j c Hj).
    + apply nth_error_Some. now rewrite Hi.
  - apply Forall_forall. intros p Hp. unfold plot_custom_chart in Hp.
    apply in_map_iff in Hp. destruct Hp as [[[d s] v] [<- _]]. cbn [lr_display lr_value snd].
    unfold display_text, notna. destruct (isna v); cbn [negb].
    + split; [split; reflexivity | discriminate].
    + split; [| reflexivity]. split; [| discriminate].
      intros H. destruct (format_2f v); discriminate.
Qed.

(** ** The colours of a row *)

Lemma binary_round_aux_signed (s : bool) (m e : Z) (l : location) :
  signed s (binary_round_aux prec emax s m e l).
Proof.
  unfold binary_round_aux.
  destruct (shr_fexp prec emax m e l) as [mrs' e'].
  destruct (shr_fexp prec emax _ e' loc_Exact) as [mrs'' e''].
  destruct (shr_m mrs'') as [| p | p]; cbn [signed]; auto.
  destruct (e'' <=? emax - prec); reflexivity.
Qed.

Lemma binary_round_signed (s : bool) (m : positive) (e : Z) :
  signed s (binary_round prec emax s m e).
Proof.
  unfold binary_round. destruct (shl_align _ _ _) as [mz ez].
  apply binary_round_aux_signed.
Qed.

Lemma mul_signed (sx sy : bool) (x y : float) :
  signed sx x -> signed sy y -> signed (xorb sx sy) (mul x y).
Proof.
  unfold mul, SFmul.
  destruct x as [s1 | s1 | | s1 m1 e1], y as [s2 | s2 | | s2 m2 e2];
    cbn [signed]; intros; subst; try exact I; try reflexivity.
  apply binary_round_aux_signed.
Qed.

Lemma div_signed (sx sy : bool) (x y : float) :
  signed sx x -> signed sy y -> signed (xorb sx sy) (div x y).
Proof.
  unfold div, SFdiv.
  destruct x as [s1 | s1 | | s1 m1 e1], y as [s2 | s2 | | s2 m2 e2];
    cbn [signed]; intros; subst; try exact I; try reflexivity.
  destruct (SFdiv_core_binary _ _ _ _ _ _) as [[mz ez] lz].
  apply binary_round_aux_signed.
Qed.

Lemma rint_signed (s : bool) (x : float) : signed s x -> signed s (rint x).
Proof.
  destruct x as [s1 | s1 | | s1 m e]; cbn [rint]; auto.
  cbn [signed]. intros ->. destruct (0 <=? e) eqn:He; [reflexivity |].
  apply Z.leb_gt in He.
  set (d := 2 ^ (- e)).
  assert (Hd : 0 < d) by (apply Z.pow_pos_nonneg; lia).
  assert (Hq : 0 <= Zpos m / d) by (apply Z.div_pos; lia).
  set (q' := match 2 * (Zpos m mod d) ?= d with
             | Lt => Zpos m / d
             | Gt => Zpos m / d + 1
             | Eq => if Z.even (Zpos m / d) then Zpos m / d else Zpos m / d + 1
             end).
  assert (Hq' : 0 <= q').
  { unfold q'. destruct (2 * (Zpos m mod d) ?= d); [| lia | lia].
    destruct (Z.even (Zpos m / d)); lia. }
  clearbody q'. destruct q' as [| p | p]; [reflexivity | | lia].
  destruct s; cbn [cond_Zopp Z.opp binary_normalize]; apply binary_round_signed.
Qed.

Lemma round2_signed (s : bool) (x : float) : signed s x -> signed s (round2 x).
Proof.
  intros H. unfold round2.
  assert (Hh : signed false hundred) by (rewrite hundred_eq; reflexivity).
  rewrite <- (xorb_false_r s). apply div_signed; [| exact Hh].
  apply rint_signed. rewrite <- (xorb_false_r s). now apply mul_signed.
Qed.

Lemma color_change_signed (s : bool) (val : float) :
  signed s val ->
  color_change val = "color: black"
  \/ color_change val = (if s then "color: green" else "color: red").
Proof.
  destruct val as [s1 | s1 | | s1 m e]; cbn [signed]; intros H; subst;
    try (left; reflexivity); destruct s; right; reflexivity.
Qed.

Lemma some_sign (x : float) : exists s, signed s x.
Proof.
  destruct x as [s | s | | s m e]; try (now exists s). now exists false.
Qed.

(** X19.  The table colours the cells 漲跌 and 漲跌幅(%) of a row with
    [color_change].  When the closes are prices (finite and above zero), the
    two cells of a row never contradict each other: one is never red while
    the other is green.  Either may be black on its own, when its value
    rounds to zero or is null. *)
Theorem row_colours_agree (env : Env) (code : string) (row : QuoteRow) (tk : Ticker) :
  decimal_prices env ->
  quote_body env code = Ok (Some (row, tk)) ->
  exists s : bool,
    (color_change (q_change row) = "color: black"
     \/ color_change (q_change row) = (if s then "color: green" else "color: red"))
    /\ (color_change (q_pct_change row) = "color: black"
        \/ color_change (q_pct_change row)
           = (if s then "color: green" else "color: red"))
    /\ ~ (color_change (q_change row) = "color: red"
          /\ color_change (q_pct_change row) = "color: green")
    /\ ~ (color_change (q_change row) = "color: green"
          /\ color_change (q_pct_change row) = "color: red").
Proof.
  intros Hp Hq. unfold quote_body, bind in Hq.
  destruct (history env (code ++ ".TW") Period5d) as [hist | e] eqn:Hh; [| discriminate].
  destruct (rev hist) as [| latest older] eqn:Hr; [discriminate |].
  destruct (stock_name env _ _) as [nm | e]; [| discriminate].
  destruct (int_ _) as [v | e]; [| discriminate].
  inversion Hq as [[Hrow Htk]]. clear Hq Htk.
  set (prev := match older with p :: _ => p | [] => latest end) in *.
  set (change := sub (Close latest) (Close prev)) in *.
  assert (Hprev : In prev hist).
  { apply in_rev. rewrite Hr. unfold prev. destruct older; [now left | right; now left]. }
  destruct (Hp _ _ _ _ Hh Hprev) as [_ Hprice].
  assert (Hs : signed false (Close prev)).
  { destruct (Close prev) as [s | s | | [] m e]; try discriminate. reflexivity. }
  destruct (some_sign change) as [s Hc].
  assert (H1 : signed s (round2 change)) by now apply round2_signed.
  assert (H2 : signed s (round2 (mul (div change (Close prev)) hundred))).
  { apply round2_signed. rewrite <- (xorb_false_r s). apply mul_signed;
      [| rewrite hundred_eq; reflexivity].
    rewrite <- (xorb_false_r s). now apply div_signed. }
  apply color_change_signed in H1, H2. subst row. cbn [q_change q_pct_change].
  exists s. split; [exact H1 |]. split; [exact H2 |].
  split; intros [A B]; rewrite A in H1; rewrite B in H2;
    destruct s, H1 as [H1 | H1], H2 as [H2 | H2]; discriminate.
Qed.

Lemma row_colours_agree_witness :
  exists (row : QuoteRow) (tk : Ticker) (s : bool),
    quote_body gap_env "G0" = Ok (Some (row, tk))
    /\ (color_change (q_change row) = "color: black"
        \/ color_change (q_change row) = (if s then "color: green" else "color: red")).
Proof.
  destruct (quote_body gap_env "G0") as [[[row tk] |] | e] eqn:Hq;
    [| vm_compute in Hq; discriminate | vm_compute in Hq; discriminate].
  destruct (row_colours_agree gap_env "G0" row tk gap_env_prices Hq) as [s [H _]].
  exists row, tk, s. split; [reflexivity | exact H].
Defined.


Lemma metrics_first_three_witness :
  exists ms,
    metrics (fst (fst (get_stock_data sample_env ["2330"; "2317"]))) = Ok ms
    /\ map m_label ms = ["2330 台積電"; "2317 鴻海"].
Proof.
  destruct (metrics (fst (fst (get_stock_data sample_env ["2330"; "2317"]))))
    as [ms | e] eqn:H.
  - exists ms. split; [reflexivity |].
    rewrite (proj2 (metrics_first_three []) sample_env ["2330"; "2317"] ms H).
    vm_compute. reflexivity.
  - rewrite (proj1 (metrics_first_three _)) in H. discriminate.
Defined.

Lemma chart_long_table_witness :
  nth_error (plot_custom_chart (fun _ => "1.00")
               {| columns := ["2330 台積電"]; rows := [("12/09", [of_Z 1])] |}) 0
  = Some {| lr_date := "12/09"; lr_stock := "2330 台積電"; lr_value := of_Z 1;
            lr_display := "1.00%" |}.
Proof.
  apply (proj1 (proj2 (chart_long_table (fun _ => "1.00")
                         {| columns := ["2330 台積電"];
                            rows := [("12/09", [of_Z 1])] |}))
           0%nat 0%nat ("12/09", [of_Z 1]) "2330 台積電"); reflexivity.
Defined.

(** ** The start dates of the three windows *)

Lemma civil_round_trip (d : date) :
  days_from_civil (year_of_date d) (month_of_date d) (day_of_date d) = d
  /\ 1 <= month_of_date d <= 12 /\ 1 <= day_of_date d <= 31.
Proof.
  unfold year_of_date, month_of_date, day_of_date, civil_from_days. cbv zeta. cbn [fst snd].
  set (z := d + 719468).
  set (era := z / 146097).
  set (doe := z - era * 146097).
  assert (Hdoe : 0 <= doe < 146097).
  { unfold doe, era. pose proof (Z.mod_pos_bound z 146097 ltac:(lia)) as H.
    rewrite Z.mod_eq in H by lia. lia. }
  assert (Hz : d = era * 146097 + doe - 719468) by (unfold doe, z; lia).
  clearbody doe era. clear z. subst d.
  set (yoe := (doe - doe / 1460 + doe / 36524 - doe / 146096) / 365).
  assert (Hyoe : 0 <= yoe <= 399).
  { unfold yoe. Z.to_euclidean_division_equations. lia. }
  set (doy := doe - (365 * yoe + yoe / 4 - yoe / 100)).
  assert (Hdoy : 0 <= doy <= 365).
  { unfold doy, yoe. Z.to_euclidean_division_equations. lia. }
  assert (Hdoe2 : doe = yoe * 365 + yoe / 4 - yoe / 100 + doy) by (unfold doy; lia).
  clearbody doy yoe.
  set (mp := (5 * doy + 2) / 153).
  assert (Hmp : 0 <= mp <= 11).
  { unfold mp. Z.to_euclidean_division_equations. lia. }
  assert (Hday : 1 <= doy - (153 * mp + 2) / 5 + 1 <= 31).
  { unfold mp. Z.to_euclidean_division_equations. lia. }
  unfold days_from_civil. cbv zeta.
  destruct (mp <? 10) eqn:E.
  - apply Z.ltb_lt in E. split; [| lia].
    replace (mp + 3 <=? 2) with false by (symmetry; apply Z.leb_gt; lia).
    replace (2 <? mp + 3) with true by (symmetry; apply Z.ltb_lt; lia).
    replace (mp + 3 - 3) with mp by lia.
    replace ((yoe + era * 400) / 400) with era
      by (Z.to_euclidean_division_equations; lia).
    unfold mp in *. Z.to_euclidean_division_equations. lia.
  - apply Z.ltb_ge in E. split; [| lia].
    replace (mp - 9 <=? 2) with true by (symmetry; apply Z.leb_le; lia).
    replace (2 <? mp - 9) with false by (symmetry; apply Z.ltb_ge; lia).
    replace (mp - 9 + 9) with mp by lia.
    replace (yoe + era * 400 + 1 - 1) with (yoe + era * 400) by lia.
    replace ((yoe + era * 400) / 400) with era
      by (Z.to_euclidean_division_equations; lia).
    unfold mp in *. Z.to_euclidean_division_equations. lia.
Qed.

Lemma civil_from_parts (era yoe doy : Z) :
  0 <= yoe < 400 -> 0 <= doy <= 364 ->
  civil_from_days (era * 146097 + (yoe * 365 + yoe / 4 - yoe / 100 + doy) - 719468)
  = (if (if (5 * doy + 2) / 153 <? 10 then (5 * doy + 2) / 153 + 3
         else (5 * doy + 2) / 153 - 9) <=? 2
     then yoe + era * 400 + 1 else yoe + era * 400,
     if (5 * doy + 2) / 153 <? 10 then (5 * doy + 2) / 153 + 3
     else (5 * doy + 2) / 153 - 9,
     doy - (153 * ((5 * doy + 2) / 153) + 2) / 5 + 1).
Proof.
  intros Hyoe Hdoy.
  set (doe := yoe * 365 + yoe / 4 - yoe / 100 + doy).
  assert (Hdoe : 0 <= doe < 146097).
  { unfold doe. Z.to_euclidean_division_equations. lia. }
  assert (Hy : (doe - doe / 1460 + doe / 36524 - doe / 146096) / 365 = yoe).
  { unfold doe. Z.to_euclidean_division_equations. lia. }
  assert (Hd : doe - (365 * yoe + yoe / 4 - yoe / 100) = doy) by (unfold doe; lia).
  clearbody doe.
  unfold civil_from_days.
  replace (era * 146097 + doe - 719468 + 719468) with (era * 146097 + doe) by lia.
  assert (He : (era * 146097 + doe) / 146097 = era).
  { Z.to_euclidean_division_equations. lia. }
  cbv zeta. rewrite !He.
  replace (era * 146097 + doe - era * 146097) with doe by lia.
  rewrite !Hy, !Hd. reflexivity.
Qed.

Lemma first_of_month_decode (y m : Z) :
  1 <= m <= 12 -> civil_from_days (days_from_civil y m 1) = (y, m, 1).
Proof.
  intros Hm. unfold days_from_civil. cbv zeta.
  set (y1 := if m <=? 2 then y - 1 else y).
  set (era := y1 / 400).
  set (yoe := y1 - era * 400).
  set (mp := if 2 <? m then m - 3 else m + 9).
  set (doy := (153 * mp + 2) / 5 + 1 - 1).
  assert (Hyoe : 0 <= yoe < 400).
  { unfold yoe, era. Z.to_euclidean_division_equations. lia. }
  assert (Hmp : 0 <= mp <= 11).
  { unfold mp. destruct (2 <? m) eqn:E; [apply Z.ltb_lt in E | apply Z.ltb_ge in E]; lia. }
  assert (Hdoy : 0 <= doy <= 364).
  { unfold doy. Z.to_euclidean_division_equations. lia. }
  rewrite (civil_from_parts era yoe doy Hyoe Hdoy).
  assert (Hmp' : (5 * doy + 2) / 153 = mp).
  { unfold doy. Z.to_euclidean_division_equations. lia. }
  rewrite !Hmp'.
  assert (Hday : doy - (153 * mp + 2) / 5 + 1 = 1) by (unfold doy; lia).
  rewrite Hday.
  assert (Hy1 : yoe + era * 400 = y1) by (unfold yoe; lia).
  rewrite Hy1. unfold mp, y1.
  destruct (2 <? m) eqn:E; [apply Z.ltb_lt in E | apply Z.ltb_ge in E].
  - replace (m <=? 2) with false by (symmetry; apply Z.leb_gt; lia).
    replace (m - 3 <? 10) with true by (symmetry; apply Z.ltb_lt; lia).
    replace (m - 3 + 3) with m by lia.
    replace (m <=? 2) with false by (symmetry; apply Z.leb_gt; lia).
    reflexivity.
  - replace (m <=? 2) with true by (symmetry; apply Z.leb_le; lia).
    replace (m + 9 <? 10) with false by (symmetry; apply Z.ltb_ge; lia).
    replace (m + 9 - 9) with m by lia.
    replace (m <=? 2) with true by (symmetry; apply Z.leb_le; lia).
    do 2 f_equal. lia.
Qed.

Lemma days_from_civil_day (y m dd : Z) :
  days_from_civil y m dd = days_from_civil y m 1 + (dd - 1).
Proof. unfold days_from_civil. cbv zeta. lia. Qed.

Lemma new_year_le (y m : Z) :
  1 <= m <= 12 -> days_from_civil y 1 1 <= days_from_civil y m 1.
Proof.
  intros Hm. unfold days_from_civil. cbv zeta.
  change (1 <=? 2) with true. change (2 <? 1) with false. cbv iota.
  destruct (m <=? 2) eqn:E1; [apply Z.leb_le in E1 | apply Z.leb_gt in E1].
  - replace (2 <? m) with false by (symmetry; apply Z.ltb_ge; lia).
    Z.to_euclidean_division_equations. lia.
  - replace (2 <? m) with true by (symmetry; apply Z.ltb_lt; lia).
    Z.to_euclidean_division_equations. lia.
Qed.

(** X20.  The start dates of the three windows, as the trend functions
    compute them from today's date: the weekly window starts on the Monday
    of today's week, at most six days back; the monthly window on day 1 of
    today's month and year; the yearly window on 1 January of today's year;
    none of them lies after today. *)
Theorem window_start_dates (now : Timestamp) :
  let today := date_of now in
  let monday := today - weekday today in
  let first_of_month := today - (day_of_date today - 1) in
  let new_year := days_from_civil (year_of_date today) 1 1 in
  (weekday monday = 0 /\ today - 6 <= monday <= today)
  /\ (civil_from_days first_of_month = (year_of_date today, month_of_date today, 1)
      /\ first_of_month <= today)
  /\ (civil_from_days new_year = (year_of_date today, 1, 1)
      /\ new_year <= first_of_month).
Proof.
  intros today monday first_of_month new_year.
  destruct (civil_round_trip today) as [Hrt [Hm Hd]].
  assert (Hfirst : first_of_month
                   = days_from_civil (year_of_date today) (month_of_date today) 1).
  { unfold first_of_month. rewrite <- Hrt at 1.
    rewrite (days_from_civil_day _ _ (day_of_date today)). lia. }
  split; [| split].
  - unfold monday, weekday. split.
    + Z.to_euclidean_division_equations. lia.
    + pose proof (Z.mod_pos_bound (today + 3) 7 ltac:(lia)). lia.
  - split.
    + rewrite Hfirst. now apply first_of_month_decode.
    + unfold first_of_month. lia.
  - split.
    + unfold new_year. apply first_of_month_decode. lia.
    + rewrite Hfirst. unfold new_year. now apply new_year_le.
Qed.

(** ** The baseline of a column, security by security *)










(** White space of more than one byte: the ideographic space U+3000 around
    and between the codes is stripped, and an entry made of it is dropped. *)
Lemma stock_codes_clean_witness :
  stock_codes "2330　,　, 2317" = ["2330"; "2317"]
  /\ Forall clean_code (stock_codes "2330　,　, 2317").
Proof.
  split; [vm_compute; reflexivity |].
  apply (proj1 (stock_codes_clean "2330　,　, 2317")).
Defined.

Lemma parsed_codes_all_attempted_witness :
  status_texts (snd (get_stock_data sample_env (stock_codes "2330　,　, 2317")))
  = ["正在抓取: 2330 ..."; "正在抓取: 2317 ..."; "抓取完成！"].
Proof.
  rewrite (proj1 (parsed_codes_all_attempted sample_env "2330　,　, 2317")).
  vm_compute. reflexivity.
Defined.
